(** * reth-proof-metrics: the log-event correlation engine

    A shallow embedding of the correlation logic of [block-metrics.py] and
    [proof-metrics.py], and the properties of it that the design document
    states.

    Conventions of the embedding.

    - A timestamp is the number of microseconds of the instant it denotes
      (a [Z]).  The sources keep timestamps as ISO-8601 strings, order them as
      strings ([sort(key=lambda x: x[0])]), use them as dictionary keys, and
      compare them after [datetime.fromisoformat].  For the fixed-width
      timestamps the node writes (six fractional digits) the string order is
      the order of the instants and equal strings are equal instants, so one
      integer stands for both.  [timedelta.total_seconds()] compared with an
      integer number of seconds is exact, so [0 <= d <= 10] on seconds is
      [0 <= d <= 10_000_000] on microseconds.
    - What a regular expression extracts from a line is the data of an
      [event]; a file is the list of its events in file order, so
      [re.finditer] over the file is a filter over that list.
    - A Python [dict] is an association list in insertion order
      ([dict_get], [dict_set]): assigning to an existing key keeps its
      position. *)

From Stdlib Require Import ZArith QArith Ascii String List Lia.
From stdpp Require Import base list strings gmap sorting.

Local Open Scope string_scope.
Local Open Scope list_scope.
Local Open Scope Z_scope.

(** ** Python containers *)

Section Dict.
Context {K V : Type} `{EqDecision K}.

Fixpoint dict_get (k : K) (d : list (K * V)) : option V :=
  match d with
  | [] => None
  | (k', v) :: d' => if decide (k = k') then Some v else dict_get k d'
  end.

Fixpoint dict_set (k : K) (v : V) (d : list (K * V)) : list (K * V) :=
  match d with
  | [] => [(k, v)]
  | (k', v') :: d' =>
      if decide (k = k') then (k, v) :: d' else (k', v') :: dict_set k v d'
  end.

Definition dict_values (d : list (K * V)) : list V := d.*2.
Definition dict_keys (d : list (K * V)) : list K := d.*1.
End Dict.

(** [if k not in d: d[k] = []] followed by [d[k].append(x)]. *)
Definition dict_append {K A : Type} `{EqDecision K} (k : K) (x : A)
    (d : list (K * list A)) : list (K * list A) :=
  match dict_get k d with
  | None => dict_set k [x] d
  | Some xs => dict_set k (xs ++ [x]) d
  end.

(** [sorted(l, key=key)] and [l.sort(key=key)]: a stable sort on integer
    keys.  Stable sorting is a function of the argument, so Timsort and
    insertion from the right give the same list. *)
Section Sort.
Context {A : Type} (key : A → Z).

Fixpoint sort_insert (x : A) (l : list A) : list A :=
  match l with
  | [] => [x]
  | y :: l' => if Z.leb (key x) (key y) then x :: y :: l'
               else y :: sort_insert x l'
  end.

Definition py_sorted (l : list A) : list A := foldr sort_insert [] l.
End Sort.

(** ** Events (Event Extractor output) *)

Inductive event : Type :=
| BlockAdded (ts : Z) (number hash elapsed : string)
| StateRootCalculated (ts : Z) (root_elapsed_ number hash : string)
| ProofsProcessed (ts : Z) (total_time_ : string)
| EndConditionSample (ts : Z) (proofs_processed state_update_proofs_requested
                               prefetch_proofs_requested : Z)
| Unmatched.

Definition seconds (n : Z) : Z := n * 1000000.

(** ** Block Metadata Correlator: [extract_block_metadata] of block-metrics.py *)

Module Correlator.

(** The dictionary the first loop builds per BlockAdded match; the keys
    ['root_elapsed'] and ['total_time'] are absent until a later loop
    assigns them. *)
Record entry : Type := Entry {
  timestamp : Z;
  block_hash : string;
  elapsed_time : string;
  block_number : string;
  root_elapsed : option string;
  total_time : option string
}.

Definition set_root_elapsed (v : string) (e : entry) : entry :=
  Entry (timestamp e) (block_hash e) (elapsed_time e) (block_number e)
        (Some v) (total_time e).

Definition set_total_time (v : string) (e : entry) : entry :=
  Entry (timestamp e) (block_hash e) (elapsed_time e) (block_number e)
        (root_elapsed e) (Some v).

(** [blocks_data]: block number -> list of entries, in file order. *)
Definition blocks_data_t : Type := list (string * list entry).

(** First loop: one entry per BlockAdded match. *)
Definition add_block (bd : blocks_data_t) (ev : event) : blocks_data_t :=
  match ev with
  | BlockAdded ts number hash elapsed =>
      dict_append number (Entry ts hash elapsed number None None) bd
  | _ => bd
  end.

(** Inner loop of the second loop: the index of the entry closest to [t].
    [best] is [(closest_entry, min_diff)], [None] while [min_diff] is
    [float('inf')]; the strict [<] keeps the first of several nearest. *)
Fixpoint closest_from (t : Z) (es : list entry) (i : nat)
         (best : option (nat * Z)) : option (nat * Z) :=
  match es with
  | [] => best
  | e :: es' =>
      let diff := Z.abs (t - timestamp e) in
      let best' :=
        match best with
        | None => Some (i, diff)
        | Some (_, min_diff) =>
            if Z.ltb diff min_diff then Some (i, diff) else best
        end in
      closest_from t es' (S i) best'
  end.

Definition closest_entry (t : Z) (es : list entry) : option nat :=
  fst <$> closest_from t es 0%nat None.

(** Second loop: a StateRootCalculated match writes its [root_elapsed]
    into the closest entry of its block number. *)
Definition add_root (bd : blocks_data_t) (ev : event) : blocks_data_t :=
  match ev with
  | StateRootCalculated ts root number hash =>
      match dict_get number bd with
      | None => bd
      | Some es =>
          match closest_entry ts es with
          | None => bd
          | Some i => dict_set number (alter (set_root_elapsed root) i es) bd
          end
      end
  | _ => bd
  end.

(** [proof_times], sorted by timestamp. *)
Definition proof_time_of (ev : event) : option (Z * string) :=
  match ev with
  | ProofsProcessed ts total => Some (ts, total)
  | _ => None
  end.

Definition proof_times (log : list event) : list (Z * string) :=
  py_sorted fst (omap proof_time_of log).

(** [0 <= time_diff <= 10] *)
Definition in_forward_window (entry_time : Z) (p : Z * string) : bool :=
  let time_diff := p.1 - entry_time in
  Z.leb 0 time_diff && Z.leb time_diff (seconds 10).

(** The innermost loop with its [break]: the first proof time in the
    window, if any. *)
Definition matched_proof (pts : list (Z * string)) (e : entry)
  : option (Z * string) :=
  List.find (in_forward_window (timestamp e)) pts.

Definition attach_proof (pts : list (Z * string)) (e : entry) : entry :=
  match matched_proof pts e with
  | Some p => set_total_time p.2 e
  | None => e
  end.

Definition attach_proofs (pts : list (Z * string)) (bd : blocks_data_t)
  : blocks_data_t :=
  map (λ kv, (kv.1, map (attach_proof pts) kv.2)) bd.

(** "Convert to the expected format": the entries keyed by timestamp. *)
Definition by_timestamp (bd : blocks_data_t) : list (Z * entry) :=
  foldl (λ md e, dict_set (timestamp e) e md) [] (concat (dict_values bd)).

Definition blocks_after_roots (log : list event) : blocks_data_t :=
  foldl add_root (foldl add_block [] log) log.

Definition extract_block_metadata (log : list event) : list (Z * entry) :=
  by_timestamp (attach_proofs (proof_times log) (blocks_after_roots log)).

End Correlator.

Import Correlator.

(** ** Run Splitter: [extract_block_metadata_from_single_file] *)

Module RunSplitter.

(** Keys of the two run dictionaries: a timestamp, or a timestamp followed
    by ["_dup"]. *)
Inductive run_key : Type :=
| Stamp (ts : Z)
| StampDup (ts : Z).

#[export] Instance run_key_eq_dec : EqDecision run_key.
Proof. solve_decision. Defined.

Definition occurrences_t : Type := list (string * list (Z * entry)).
Definition run_t : Type := list (run_key * entry).

(** "Count block occurrences".  Every dictionary [extract_block_metadata]
    builds has the key ['block_number'], so the membership test of the
    source always succeeds. *)
Definition add_occurrence (occ : occurrences_t) (item : Z * entry)
  : occurrences_t :=
  dict_append (block_number item.2) item occ.

Definition block_occurrences (all_metadata : list (Z * entry))
  : occurrences_t :=
  foldl add_occurrence [] all_metadata.

(** Body of the loop over [block_occurrences.items()]. *)
Definition split_block (runs : run_t * run_t)
    (kv : string * list (Z * entry)) : run_t * run_t :=
  match py_sorted fst kv.2 with
  | (timestamp1, metadata1) :: (timestamp2, metadata2) :: _ =>
      (dict_set (Stamp timestamp1) metadata1 runs.1,
       dict_set (Stamp timestamp2) metadata2 runs.2)
  | [(timestamp, metadata)] =>
      (dict_set (Stamp timestamp) metadata runs.1,
       dict_set (StampDup timestamp) metadata runs.2)
  | [] => runs
  end.

Definition split_runs (all_metadata : list (Z * entry)) : run_t * run_t :=
  foldl split_block ([], []) (block_occurrences all_metadata).

Definition extract_block_metadata_from_single_file (log : list event)
  : run_t * run_t :=
  split_runs (extract_block_metadata log).

End RunSplitter.

(** ** Common blocks: [get_common_block_numbers] *)

Module Comparison.

Definition digit_value (c : ascii) : option Z :=
  let n := Z.of_nat (nat_of_ascii c) in
  if Z.leb 48 n && Z.leb n 57 then Some (n - 48) else None.

Fixpoint int_from (acc : Z) (s : string) : option Z :=
  match s with
  | EmptyString => Some acc
  | String c s' => d ← digit_value c; int_from (10 * acc + d) s'
  end.

(** [int(x)] on what the pattern [(\d+)] captures; [None] is ValueError. *)
Definition py_int (s : string) : option Z :=
  match s with
  | EmptyString => None
  | _ => int_from 0 s
  end.

(** [sorted(xs, key=lambda x: int(x))]: the keys are computed first, then
    the list is sorted on them. *)
Definition sorted_by_int (xs : list string) : option (list string) :=
  keyed ← mapM (λ x, k ← py_int x; Some (k, x)) xs;
  Some ((py_sorted fst keyed).*2).

Definition block_numbers_of {K : Type} (cache : list (K * entry))
  : gset string :=
  list_to_set (block_number <$> dict_values cache).

(** [set_iter] is the order in which Python iterates over a set: some
    enumeration without repetition, fixed by the hash seed of the
    process. *)
Definition get_common_block_numbers {K1 K2 : Type}
    (set_iter : gset string → list string)
    (block_metadata_cache_1 : option (list (K1 * entry)))
    (block_metadata_cache_2 : option (list (K2 * entry)))
  : option (list string) :=
  match block_metadata_cache_1, block_metadata_cache_2 with
  | Some cache_1, Some cache_2 =>
      let blocks_1 := block_numbers_of cache_1 in
      let blocks_2 := block_numbers_of cache_2 in
      let common_blocks := blocks_1 ∩ blocks_2 in
      sorted_by_int (set_iter common_blocks)
  | _, _ => Some []
  end.

End Comparison.

(** ** Boundary Reconstructor: [calculate_block_boundaries] of proof-metrics.py *)

Module BoundaryReconstructor.

Definition sample_of (ev : event) : option (Z * Z * Z * Z) :=
  match ev with
  | EndConditionSample ts pp supr ppr => Some (ts, pp, supr, ppr)
  | _ => None
  end.

(** The four parallel lists of [parse_log]. *)
Definition parse_log (log : list event)
  : list Z * list Z * list Z * list Z :=
  let samples := omap sample_of log in
  (map (λ s, s.1.1.1) samples, map (λ s, s.1.1.2) samples,
   map (λ s, s.1.2) samples, map (λ s, s.2) samples).

(** [cur < prev * 0.5 or cur == 0].  The product is a float; it is exact
    for counters below 2^53, and Python compares an int with a float
    exactly, so the rationals give the same answer. *)
Definition is_reset (cur prev : Z) : bool :=
  match Qcompare (inject_Z cur) (Qmult (inject_Z prev) (1 # 2)) with
  | Lt => true
  | _ => false
  end || Z.eqb cur 0.

(** (index, start, end); the source stores [isoformat()] of the two
    instants, which is one-to-one. *)
Definition window : Type := nat * Z * Z.

(** One iteration of [for i in range(1, len(timestamps))]; [None] is an
    IndexError. *)
Definition step (timestamps proofs_processed : list Z)
    (st : option (list window * Z)) (i : nat) : option (list window * Z) :=
  s ← st;
  cur ← proofs_processed !! i;
  prev ← proofs_processed !! (i - 1)%nat;
  if is_reset cur prev then
    t_prev ← timestamps !! (i - 1)%nat;
    t_i ← timestamps !! i;
    Some (s.1 ++ [(length s.1, s.2, t_prev)], t_i)
  else Some s.

Definition loop_state (timestamps proofs_processed : list Z) (t0 : Z)
    (n : nat) : option (list window * Z) :=
  foldl (step timestamps proofs_processed) (Some ([], t0)) (seq 1 n).

Definition boundaries_of (timestamps proofs_processed : list Z)
  : option (list window) :=
  match timestamps with
  | [] => Some []
  | t0 :: _ =>
      s ← loop_state timestamps proofs_processed t0
            (length timestamps - 1);
      t_last ← last timestamps;
      if decide (s.2 ≠ t_last)
      then Some (s.1 ++ [(length s.1, s.2, t_last)])
      else Some s.1
  end.

(** The first component of the pair the method returns. *)
Definition calculate_block_boundaries (log : list event)
  : option (list window) :=
  let '(timestamps, proofs_processed, _, _) := parse_log log in
  boundaries_of timestamps proofs_processed.

End BoundaryReconstructor.

(** ** Summary statistics: [calculate_block_statistics] *)

Module Statistics.

Inductive exn : Type := IndexError | ZeroDivisionError.

Inductive result (A : Type) : Type :=
| Ok (a : A)
| Raise (e : exn).
Arguments Ok {A} a.
Arguments Raise {A} e.

Record stats : Type := Stats {
  duration_ms : Q;
  avg_proofs_processed : Q
}.

(** [a / b] on floats, with the rationals for the floats. *)
Definition truediv (a b : Q) : result Q :=
  if Qeq_bool b 0 then Raise ZeroDivisionError else Ok (Qdiv a b).

(** [xs[-1]] and [xs[0]] *)
Definition index_last (xs : list Z) : result Z :=
  match last xs with Some x => Ok x | None => Raise IndexError end.
Definition index_first (xs : list Z) : result Z :=
  match head xs with Some x => Ok x | None => Raise IndexError end.

Definition bind {A B : Type} (r : result A) (k : A → result B) : result B :=
  match r with Ok a => k a | Raise e => Raise e end.

(** [(b - a).total_seconds()] for instants in microseconds. *)
Definition total_seconds (delta : Z) : Q := Qmake delta 1000000.

Definition Qpositive (q : Q) : bool :=
  match Qcompare 0 q with Lt => true | _ => false end.

Definition calculate_block_statistics (timestamps proofs_processed : list Z)
  : result stats :=
  if Nat.ltb (length timestamps) 2 then Ok (Stats 0 0)
  else
    bind (index_last timestamps) (λ t_last,
    bind (index_first timestamps) (λ t_first,
      let duration_seconds := total_seconds (t_last - t_first) in
      let duration_ms := Qmult duration_seconds 1000 in
      if Qpositive duration_seconds then
        bind (index_last proofs_processed) (λ p_last,
        bind (index_first proofs_processed) (λ p_first,
        bind (truediv (inject_Z (p_last - p_first)) duration_seconds)
             (λ proofs_rate, Ok (Stats duration_ms proofs_rate))))
      else Ok (Stats duration_ms 0))).

End Statistics.

(** ** Log-Window Selector: [extract_log_lines_for_block] *)

Module Selector.

(** Which of the three patterns of the function a line matches, tried in
    the order of its [if]/[elif] chain; the block-number patterns end in a
    word boundary, so they match one block number. *)
Inductive line_kind : Type :=
| BlockAddedLine (number : string)
| RootCalculatedLine (number : string)
| ProofsProcessedLine
| OtherLine.

(** A raw line: the first timestamp in it (if any), what it matches, and
    [line.strip()]. *)
Record line : Type := Line {
  line_timestamp : option Z;
  kind : line_kind;
  text : string
}.

Definition collect (want : line_kind → bool) (file : list line)
  : list (Z * string) :=
  omap (λ l, ts ← line_timestamp l;
             if want (kind l) then Some (ts, text l) else None) file.

Definition is_block_added (block_number : string) (k : line_kind) : bool :=
  match k with
  | BlockAddedLine n => bool_decide (n = block_number)
  | _ => false
  end.

Definition is_root_calculated (block_number : string) (k : line_kind)
  : bool :=
  match k with
  | RootCalculatedLine n => bool_decide (n = block_number)
  | _ => false
  end.

Definition is_proofs_processed (k : line_kind) : bool :=
  match k with
  | ProofsProcessedLine => true
  | _ => false
  end.

Definition all_block_added_lines file block_number :=
  py_sorted fst (collect (is_block_added block_number) file).
Definition all_root_calculated_lines file block_number :=
  py_sorted fst (collect (is_root_calculated block_number) file).
Definition all_proofs_processed_lines file :=
  py_sorted fst (collect is_proofs_processed file).

(** The three-way choice of the BlockAdded line; [None] is [return []]. *)
Definition choose_block_added (lines : list (Z * string))
    (is_first_run : bool) (boundary_time : option Z)
  : option (Z * string) :=
  match boundary_time with
  | Some boundary =>
      if Nat.leb 2 (length lines) then
        let run1_lines := List.filter (λ x, Z.ltb x.1 boundary) lines in
        let run2_lines :=
          List.filter (λ x, negb (Z.ltb x.1 boundary)) lines in
        head (if is_first_run then run1_lines else run2_lines)
      else
        let block_index :=
          if is_first_run || Nat.eqb (length lines) 1 then 0%nat
          else 1%nat in
        lines !! block_index
  | None =>
      let block_index :=
        if is_first_run || Nat.eqb (length lines) 1 then 0%nat else 1%nat in
      lines !! block_index
  end.

(** [0 <= time_diff <= 2] with [time_diff = block_added_dt - line_dt] *)
Definition proofs_window (block_added_dt : Z) (x : Z * string) : bool :=
  let time_diff := block_added_dt - x.1 in
  Z.leb 0 time_diff && Z.leb time_diff (seconds 2).

(** [abs(block_added_dt - line_dt) <= 5] *)
Definition root_window (block_added_dt : Z) (x : Z * string) : bool :=
  Z.leb (Z.abs (block_added_dt - x.1)) (seconds 5).

(** [if found_line: result_logs.append(found_line)]: a string is true when
    it is not empty. *)
Definition append_if_found (found : option (Z * string))
    (result_logs : list string) : list string :=
  match found with
  | Some (_, l) => if bool_decide (l = "") then result_logs
                   else result_logs ++ [l]
  | None => result_logs
  end.

Definition extract_log_lines_for_block (file : list line)
    (block_number : string) (is_first_run : bool)
    (boundary_time : option Z) : list string :=
  match choose_block_added (all_block_added_lines file block_number)
          is_first_run boundary_time with
  | None => []
  | Some (block_added_time, block_added_line) =>
      let proofs_processed_line :=
        List.find (proofs_window block_added_time)
                  (all_proofs_processed_lines file) in
      let root_calculated_line :=
        List.find (root_window block_added_time)
                  (all_root_calculated_lines file block_number) in
      append_if_found root_calculated_line
        (append_if_found proofs_processed_line []) ++ [block_added_line]
  end.

End Selector.

(** ** Run-mode detection: [detect_single_or_dual_file] *)

Module ModeDetection.

(** [block_occurrences[block_num] = block_occurrences.get(block_num, 0) + 1] *)
Definition count_occurrence (occ : list (string * Z)) (item : Z * entry)
  : list (string * Z) :=
  let block_num := block_number item.2 in
  dict_set block_num (default 0 (dict_get block_num occ) + 1) occ.

(** [[block for block, count in block_occurrences.items() if count > 1]] *)
Definition duplicate_blocks (all_metadata : list (Z * entry)) : list string :=
  (List.filter (λ bc : string * Z, Z.ltb 1 bc.2)
               (foldl count_occurrence [] all_metadata)).*1.

(** [read] gives the events of the file at a path; the result is
    (single-file mode, first file, second file). *)
Definition detect_single_or_dual_file (read : string → list event)
    (log_file_1 : string) (log_file_2 : option string)
  : bool * string * option string :=
  if bool_decide (log_file_2 = None ∨ log_file_2 = Some log_file_1) then
    let all_metadata := extract_block_metadata (read log_file_1) in
    match duplicate_blocks all_metadata with
    | [] => (false, log_file_1, log_file_2)
    | _ :: _ => (true, log_file_1, None)
    end
  else (false, log_file_1, log_file_2).

End ModeDetection.

(** ** Block lookup: [find_block_for_timestamp] of proof-metrics.py *)

Module BlockLookup.

(** The loop over [enumerate(self.block_boundaries_cache)], from position
    [i]; the answer [str(i)] is kept as the number [i]. *)
Fixpoint find_from (i : nat)
    (block_boundaries : list BoundaryReconstructor.window) (timestamp : Z)
  : option nat :=
  match block_boundaries with
  | [] => None
  | (_, start, end_) :: rest =>
      if Z.leb start timestamp && Z.leb timestamp end_ then Some i
      else find_from (S i) rest timestamp
  end.

Definition find_block_for_timestamp
    (block_boundaries_cache : list BoundaryReconstructor.window)
    (timestamp : Z) : option nat :=
  find_from 0 block_boundaries_cache timestamp.

End BlockLookup.

(** ** Block metadata of proof-metrics.py: [extract_block_metadata] and
       [find_block_metadata_for_time_range] *)

Module Timeline.

(** A metadata dictionary; every one the function builds has the key
    ['timestamp'], the other keys may be absent. *)
Record metadata : Type := Metadata {
  timestamp : Z;
  total_time : option string;
  block_number : option string;
  block_hash : option string;
  elapsed_time : option string;
  root_elapsed : option string
}.

(** [.update({'block_number': .., 'block_hash': .., 'elapsed_time': ..})] *)
Definition update_block (number hash elapsed : string) (m : metadata)
  : metadata :=
  Metadata (timestamp m) (total_time m) (Some number) (Some hash)
           (Some elapsed) (root_elapsed m).

(** [.update({'root_elapsed': .., 'block_number': .., 'block_hash': ..})] *)
Definition update_root (root number hash : string) (m : metadata)
  : metadata :=
  Metadata (timestamp m) (total_time m) (Some number) (Some hash)
           (elapsed_time m) (Some root).

(** [m['root_elapsed'] = root] *)
Definition set_root_elapsed (root : string) (m : metadata) : metadata :=
  Metadata (timestamp m) (total_time m) (block_number m) (block_hash m)
           (elapsed_time m) (Some root).

(** The state of the function: [block_metadata] and [block_timestamps]. *)
Definition state : Type := list (Z * metadata) * list (string * Z).

(** First loop: "All proofs processed" entries. *)
Definition add_proofs (st : state) (ev : event) : state :=
  match ev with
  | ProofsProcessed ts total =>
      (dict_set ts (Metadata ts (Some total) None None None None) st.1, st.2)
  | _ => st
  end.

(** Second loop: block entries; the last timestamp of a block number is
    remembered. *)
Definition add_block (st : state) (ev : event) : state :=
  match ev with
  | BlockAdded ts number hash elapsed =>
      let new :=
        match dict_get ts st.1 with
        | Some m => update_block number hash elapsed m
        | None => Metadata ts None (Some number) (Some hash) (Some elapsed)
                           None
        end in
      (dict_set ts new st.1, dict_set number ts st.2)
  | _ => st
  end.

(** Third loop: root elapsed times, written at the timestamp of the event
    and at the remembered timestamp of its block number. *)
Definition add_root (st : state) (ev : event) : state :=
  match ev with
  | StateRootCalculated ts root number hash =>
      let new :=
        match dict_get ts st.1 with
        | Some m => update_root root number hash m
        | None => Metadata ts None (Some number) (Some hash) None (Some root)
        end in
      let block_metadata := dict_set ts new st.1 in
      match dict_get number st.2 with
      | Some block_timestamp =>
          match dict_get block_timestamp block_metadata with
          | Some m =>
              (dict_set block_timestamp (set_root_elapsed root m)
                        block_metadata, st.2)
          | None => (block_metadata, st.2)
          end
      | None => (block_metadata, st.2)
      end
  | _ => st
  end.

Definition final_state (log : list event) : state :=
  foldl add_root (foldl add_block (foldl add_proofs ([], []) log) log) log.

Definition extract_block_metadata (log : list event) : list (Z * metadata) :=
  (final_state log).1.

(** [min(xs, key=key)] on a non-empty list: the first element with the
    least key. *)
Definition py_min {A : Type} (key : A → Z) (x : A) (xs : list A) : A :=
  foldl (λ best y, if Z.ltb (key y) (key best) then y else best) x xs.

Definition within (lo hi : Z) (kv : Z * metadata) : bool :=
  Z.leb lo kv.1 && Z.leb kv.1 hi.

(** ['block_number' in metadata and 'elapsed_time' in metadata] *)
Definition is_block_entry (kv : Z * metadata) : bool :=
  bool_decide (is_Some (block_number kv.2))
  && bool_decide (is_Some (elapsed_time kv.2)).

(** The part of [find_block_metadata_for_time_range] under
    [if proofs_processed_entries:]; [None] when it falls through. *)
Definition near_proofs_processed (block_metadata : list (Z * metadata))
    (end_time : Z) : option metadata :=
  let proofs_processed_entries :=
    List.filter (λ kv, bool_decide (is_Some (total_time kv.2))
                       && within (end_time - seconds 1)
                                 (end_time + seconds 5) kv)
                block_metadata in
  match py_sorted fst proofs_processed_entries with
  | [] => None
  | x :: xs =>
      let closest_entry :=
        py_min (λ kv : Z * metadata, Z.abs (kv.1 - end_time)) x xs in
      let block_entries :=
        List.filter (λ kv, is_block_entry kv
                           && within closest_entry.1
                                     (closest_entry.1 + seconds 5) kv)
                    block_metadata in
      match py_sorted fst block_entries with
      | b :: _ => Some b.2
      | [] =>
          if bool_decide (is_Some (block_number closest_entry.2))
          then Some closest_entry.2
          else
            snd <$> List.find
                      (λ kv, is_block_entry kv
                             && within end_time (end_time + seconds 10) kv)
                      block_metadata
      end
  end.

(** The last part: anything close to the time range. *)
Definition near_time_range (block_metadata : list (Z * metadata))
    (start_time end_time : Z) : option metadata :=
  let all_entries :=
    List.filter (within (start_time - seconds 5) (end_time + seconds 10))
                block_metadata in
  match py_sorted fst all_entries with
  | [] => None
  | x :: xs =>
      match List.find (λ kv : Z * metadata,
                         bool_decide (is_Some (block_number kv.2)))
                      (x :: xs) with
      | Some kv => Some kv.2
      | None =>
          Some (py_min (λ kv : Z * metadata, Z.abs (kv.1 - end_time))
                       x xs).2
      end
  end.

Definition find_block_metadata_for_time_range
    (block_metadata : list (Z * metadata)) (start_time end_time : Z)
  : option metadata :=
  match near_proofs_processed block_metadata end_time with
  | Some m => Some m
  | None => near_time_range block_metadata start_time end_time
  end.

End Timeline.

(** ** Block statistics of [generate_plot] in proof-metrics.py *)

Module Plot.




End Plot.

(** ** Block selection of [generate_overview_comparison] in
    block-metrics.py *)

Module Overview.

Definition MAX_BLOCKS : nat := 100.

(** [block_numbers_cache[:MAX_BLOCKS]] when the cache is longer than
    [MAX_BLOCKS], the cache itself otherwise. *)
Definition processed_blocks (block_numbers_cache : list string)
  : list string :=
  if Nat.ltb MAX_BLOCKS (length block_numbers_cache)
  then take MAX_BLOCKS block_numbers_cache
  else block_numbers_cache.

(** [run1_by_block] and [run2_by_block]: a block number keeps the first
    record the cache gives for it. *)
Definition by_block {K : Type} (cache : list (K * entry))
  : list (string * entry) :=
  foldl (λ run_by_block kv,
           let block_num := block_number kv.2 in
           match dict_get block_num run_by_block with
           | None => dict_set block_num kv.2 run_by_block
           | Some _ => run_by_block
           end) [] cache.

(** The list [block_numbers] after the loop: the processed blocks with
    data in both runs (a record is never an empty dictionary, so
    [data_1 and data_2] asks for both to be found). *)
Definition charted_blocks {K1 K2 : Type}
    (block_metadata_cache_1 : list (K1 * entry))
    (block_metadata_cache_2 : list (K2 * entry))
    (block_numbers_cache : list string) : list string :=
  let run1_by_block := by_block block_metadata_cache_1 in
  let run2_by_block := by_block block_metadata_cache_2 in
  List.filter (λ block_number,
                 match dict_get block_number run1_by_block,
                       dict_get block_number run2_by_block with
                 | Some _, Some _ => true
                 | _, _ => false
                 end) (processed_blocks block_numbers_cache).

End Overview.

(** ** Run boundary of [get_block_data_from_logs] in block-metrics.py *)

Module BlockData.

(** [needle in s] *)
Fixpoint contains (needle s : string) : bool :=
  String.prefix needle s
  || match s with
     | EmptyString => false
     | String _ s' => contains needle s'
     end.

(** [delta / 2] on a timedelta of [d] microseconds: the nearest whole
    microsecond, a half going to the even one. *)
Definition half (d : Z) : Z :=
  let q := d / 2 in
  if Z.even d then q else if Z.even q then q else q + 1.

(** The timestamps of the lines that contain the text
    [Block added to canonical chain number=<block_number>], in file order.
    The test is made on the raw line; the text has no space at either end,
    so it gives the same answer on the stripped line. *)
Definition all_block_logs (file : list Selector.line)
    (block_number : string) : list Z :=
  omap (λ l, if contains ("Block added to canonical chain number="
                          +:+ block_number) (Selector.text l)
             then Selector.line_timestamp l else None) file.

Definition boundary_time (single_file : bool) (file : list Selector.line)
    (block_number : string) : option Z :=
  if single_file then
    match all_block_logs file block_number with
    | time1 :: time2 :: _ => Some (time1 + half (time2 - time1))
    | _ => None
    end
  else None.

(** The list [logs] of the function; it returns [None] when the list is
    empty. *)
Definition block_logs (single_file : bool)
    (log_file_1 log_file_2 : list Selector.line) (block_number : string)
    (is_first_run : bool) : list string :=
  let boundary := boundary_time single_file log_file_1 block_number in
  let log_file :=
    if single_file then log_file_1
    else if is_first_run then log_file_1 else log_file_2 in
  Selector.extract_log_lines_for_block log_file block_number is_first_run
                                       boundary.

End BlockData.

(** * Notions used in the statements *)

Import RunSplitter Comparison BoundaryReconstructor Statistics Selector.

(** The order of a sort on the key [key]. *)
Definition key_le {A : Type} (key : A → Z) (a b : A) : Prop :=
  key a ≤ key b.

(** The entries of [blocks_data], in the order of the last loop. *)
Definition all_entries (bd : blocks_data_t) : list entry :=
  concat (dict_values bd).

Definition entries_satisfy (P : entry → Prop) (bd : blocks_data_t) : Prop :=
  Forall (λ kv : string * list entry, Forall P kv.2) bd.


(** "The record carries the proof time of the earliest ProofsProcessed event
    of its window, and none when the window is empty", for a window that
    starts at the record's instant ([after := Z.le]) or strictly after it
    ([after := Z.lt]) and ends ten seconds later. *)
Definition earliest_in_window (after : Z → Z → Prop)
    (log : list event) (r : entry) : Prop :=
  let inside tp := after (timestamp r) tp ∧ tp ≤ timestamp r + seconds 10 in
  match total_time r with
  | Some v =>
      ∃ tp, ProofsProcessed tp v ∈ log ∧ inside tp ∧
            ∀ tp' v', ProofsProcessed tp' v' ∈ log → inside tp' → tp ≤ tp'
  | None => ∀ tp' v', ProofsProcessed tp' v' ∈ log → ¬ inside tp'
  end.

Definition log_proof_at_block_instant : list event :=
  [ BlockAdded (seconds 3) "100" "0xab" "2ms";
    ProofsProcessed (seconds 3) "7ms" ].

Definition log_shared_proof : list event :=
  [ BlockAdded (seconds 1) "100" "0xab" "2ms";
    BlockAdded (seconds 2) "101" "0xcd" "3ms";
    ProofsProcessed (seconds 4) "7ms" ].

(** Assigning an optional key/value pair. *)
Definition opt_set {K V : Type} `{EqDecision K} (o : option (K * V))
    (d : list (K * V)) : list (K * V) :=
  match o with
  | Some (k, v) => dict_set k v d
  | None => d
  end.

(** The records of block number [b], in dictionary order. *)
Definition occurrences_of (b : string) (all : list (Z * entry))
  : list (Z * entry) :=
  filter (λ kv, block_number kv.2 = b) all.

(** What one group contributes to each run. *)
Definition first_pick (g : string * list (Z * entry))
  : option (run_key * entry) :=
  match py_sorted fst g.2 with
  | (t1, m1) :: _ => Some (Stamp t1, m1)
  | [] => None
  end.

Definition second_pick (g : string * list (Z * entry))
  : option (run_key * entry) :=
  match py_sorted fst g.2 with
  | _ :: (t2, m2) :: _ => Some (Stamp t2, m2)
  | [(t, m)] => Some (StampDup t, m)
  | [] => None
  end.

(** "Below 50% of the previous sample, or exactly zero". *)
Definition drops (cur prev : Z) : Prop := 2 * cur < prev ∨ cur = 0.

#[local] Instance drops_dec cur prev : Decision (drops cur prev).
Proof. unfold drops. apply _. Defined.

(** The samples [i >= 1] at which the counter drops. *)
Definition reset_indices (pp : list Z) : list nat :=
  filter (λ i, drops (pp !!! i) (pp !!! (i - 1)%nat))
         (seq 1 (length pp - 1)).

(** The windows closed by a list of resets, numbered from [k], the first
    one starting at [start]: each ends at the sample before its reset, the
    next starts at the reset; with them, the start of the window left
    open. *)
Fixpoint windows_between (ts : list Z) (k : nat) (start : Z)
         (resets : list nat) : list window * Z :=
  match resets with
  | [] => ([], start)
  | i :: rest =>
      let r := windows_between ts (S k) (ts !!! i) rest in
      ((k, start, ts !!! (i - 1)%nat) :: r.1, r.2)
  end.

(** One iteration of the loop when no index is out of range. *)
Definition pure_step (ts pp : list Z) (s : list window * Z) (i : nat)
  : list window * Z :=
  if decide (drops (pp !!! i) (pp !!! (i - 1)%nat))
  then (s.1 ++ [(length s.1, s.2, ts !!! (i - 1)%nat)], ts !!! i)
  else s.

(** Where window [k] starts: the first at the first sample, each later one
    at the reset that closed the window before it. *)
Definition window_start (ts : list Z) (t0 : Z) (R : list nat) (k : nat)
  : Z :=
  match k with
  | O => t0
  | S k' => ts !!! (R !!! k')
  end.

(** What the pattern [(\\d+)] captures: one or more decimal digits. *)
Fixpoint only_digits (s : string) : bool :=
  match s with
  | EmptyString => true
  | String c s' =>
      match digit_value c with
      | Some _ => only_digits s'
      | None => false
      end
  end.

Definition all_digits (s : string) : bool :=
  match s with
  | EmptyString => false
  | _ => only_digits s
  end.

(** Ascending numeric order of block numbers. *)
Definition int_le (x y : string) : Prop :=
  ∃ a b, py_int x = Some a ∧ py_int y = Some b ∧ a ≤ b.

(** [(t, txt)] is a line of the file with a timestamp, of the wanted
    kind. *)
Definition is_line (want : line_kind → bool) (file : list line)
    (t : Z) (txt : string) : Prop :=
  ∃ l, l ∈ file ∧ line_timestamp l = Some t ∧ want (kind l) = true
       ∧ text l = txt.


(** A file of counter samples, one per instant. *)
Definition samples_at (ts pp : list Z) : list event :=
  zip_with (λ t p, EndConditionSample t p 0 0) ts pp.

Definition log_proof_before_block : list event :=
  [ ProofsProcessed (seconds 1) "1.5ms";
    BlockAdded (seconds 3) "100" "0xab" "2ms";
    ProofsProcessed (seconds 15) "9ms" ].

Definition log_two_root_events : list event :=
  [ BlockAdded 0 "100" "0xab" "2ms";
    StateRootCalculated (seconds 2) "1ms" "100" "0xab";
    StateRootCalculated (seconds 50) "9ms" "100" "0xab" ].


Definition file_single_occurrence : list line :=
  [ Line (Some (seconds 9)) (RootCalculatedLine "7") "root of 7";
    Line (Some (seconds 9)) ProofsProcessedLine "proofs done";
    Line (Some (seconds 10)) (BlockAddedLine "7") "added 7" ].

(** An entry filed under block number [n] that comes from the log: its
    identity fields are those of one BlockAdded event, and its root_elapsed,
    when present, is that of a StateRootCalculated event of the same block
    number. *)
Definition entry_from (log : list event) (n : string) (e : entry) : Prop :=
  block_number e = n
  ∧ BlockAdded (timestamp e) n (block_hash e) (elapsed_time e) ∈ log
  ∧ ∀ v, root_elapsed e = Some v →
         ∃ ts h, StateRootCalculated ts v n h ∈ log.

Definition blocks_from (log : list event) (bd : blocks_data_t) : Prop :=
  Forall (λ kv : string * list entry, Forall (entry_from log kv.1) kv.2) bd.

(** The instant under which proof-metrics.py records an event, if it
    records it at all. *)
Definition recorded_instant (ev : event) : option Z :=
  match ev with
  | BlockAdded ts _ _ _ => Some ts
  | StateRootCalculated ts _ _ _ => Some ts
  | ProofsProcessed ts _ => Some ts
  | _ => None
  end.

(** The total times of the ProofsProcessed events at instant [k], in log
    order. *)
Definition totals_at (k : Z) (log : list event) : list string :=
  omap (λ ev, match ev with
              | ProofsProcessed ts v => if decide (ts = k) then Some v else None
              | _ => None
              end) log.

(** The elapsed times of the BlockAdded events at instant [k], in log
    order. *)
Definition elapsed_at (k : Z) (log : list event) : list string :=
  omap (λ ev, match ev with
              | BlockAdded ts _ _ el => if decide (ts = k) then Some el else None
              | _ => None
              end) log.

(** The instants of the BlockAdded events of block number [n], in log
    order. *)
Definition block_instants (n : string) (log : list event) : list Z :=
  omap (λ ev, match ev with
              | BlockAdded ts n' _ _ => if decide (n' = n) then Some ts else None
              | _ => None
              end) log.

(** The root times of the StateRootCalculated events of [evs] that reach
    instant [k]: those at [k] itself, and those of a block number whose last
    BlockAdded event in [log] is at [k]. *)
Definition roots_reaching (log : list event) (k : Z) (evs : list event)
  : list string :=
  omap (λ ev, match ev with
              | StateRootCalculated ts r n _ =>
                  if bool_decide (ts = k ∨ last (block_instants n log) = Some k)
                  then Some r else None
              | _ => None
              end) evs.

(** A file with two runs of block 7, the later one first. *)
Definition file_two_runs : list line :=
  [ Line (Some (seconds 40)) (BlockAddedLine "7") "added 7 again";
    Line None OtherLine "noise";
    Line (Some (seconds 10)) (BlockAddedLine "7") "added 7" ].

(** What a record under key [k] owes to the log. *)
Definition record_ok (log : list event) (kv : Z * Timeline.metadata) : Prop :=
  Timeline.timestamp kv.2 = kv.1
  ∧ (∀ v, Timeline.total_time kv.2 = Some v → ProofsProcessed kv.1 v ∈ log)
  ∧ (∀ el, Timeline.elapsed_time kv.2 = Some el →
           ∃ n h, BlockAdded kv.1 n h el ∈ log)
  ∧ (is_Some (Timeline.elapsed_time kv.2) →
     is_Some (Timeline.block_number kv.2) ∧ is_Some (Timeline.block_hash kv.2))
  ∧ (∀ v, Timeline.root_elapsed kv.2 = Some v →
          ∃ ts n h, StateRootCalculated ts v n h ∈ log)
  ∧ (∀ n, Timeline.block_number kv.2 = Some n →
          (∃ h el, BlockAdded kv.1 n h el ∈ log)
          ∨ (∃ r h, StateRootCalculated kv.1 r n h ∈ log)).

(** * Evaluation on small logs *)

Example correlator_smoke :
  extract_block_metadata
    [ BlockAdded (seconds 3) "100" "0xab" "2ms";
      StateRootCalculated (seconds 2) "1ms" "100" "0xab";
      ProofsProcessed (seconds 5) "7ms" ]
  = [ (seconds 3,
       Entry (seconds 3) "0xab" "2ms" "100" (Some "1ms") (Some "7ms")) ].
Proof. reflexivity. Qed.

Example run_splitter_smoke :
  extract_block_metadata_from_single_file
    [ BlockAdded 10 "100" "0xab" "2ms";
      BlockAdded 20 "200" "0xcd" "2ms";
      BlockAdded 30 "100" "0xab" "3ms";
      BlockAdded 40 "100" "0xab" "4ms" ]
  = ([ (Stamp 10, Entry 10 "0xab" "2ms" "100" None None);
       (Stamp 20, Entry 20 "0xcd" "2ms" "200" None None) ],
     [ (Stamp 30, Entry 30 "0xab" "3ms" "100" None None);
       (StampDup 20, Entry 20 "0xcd" "2ms" "200" None None) ]).
Proof. reflexivity. Qed.

Example boundaries_smoke :
  calculate_block_boundaries
    (samples_at [0; 1; 2; 3; 4; 5] [5; 8; 10; 2; 6; 9])
  = Some [ (0%nat, 0, 2); (1%nat, 3, 5) ].
Proof. reflexivity. Qed.

Example statistics_smoke :
  calculate_block_statistics [0; seconds 2] [3; 10]
  = Ok (Stats (Qmult (total_seconds (seconds 2)) 1000)
              (Qdiv (inject_Z 7) (total_seconds (seconds 2)))).
Proof. reflexivity. Qed.

Example int_smoke : py_int "0103" = Some 103 ∧ py_int "" = None
                    ∧ py_int "1x" = None.
Proof. repeat split; reflexivity. Qed.

(** * Facts about the containers *)

Section DictFacts.
Context {K V : Type} `{EqDecision K}.
Implicit Types (d : list (K * V)) (k : K) (v : V).

Lemma dict_get_Some_elem d k v : dict_get k d = Some v → (k, v) ∈ d.
Proof.
  induction d as [|[k' v'] d IH]; simpl; [done|].
  destruct (decide (k = k')) as [->|Hne]; intros Hg.
  - inversion Hg; subst. apply list_elem_of_here.
  - apply list_elem_of_further; auto.
Qed.

Lemma dict_get_None d k : dict_get k d = None ↔ k ∉ dict_keys d.
Proof.
  unfold dict_keys.
  induction d as [|[k' v'] d IH]; simpl.
  - split; [intros _; apply not_elem_of_nil | done].
  - rewrite not_elem_of_cons. destruct (decide (k = k')) as [->|Hne].
    + split; [done | intros [? _]; done].
    + rewrite IH. tauto.
Qed.

Lemma dict_get_set d k k' v :
  dict_get k' (dict_set k v d) = if decide (k' = k) then Some v
                                 else dict_get k' d.
Proof.
  induction d as [|[k0 v0] d IH]; simpl.
  - destruct (decide (k' = k)); done.
  - destruct (decide (k = k0)) as [->|Hne]; simpl.
    + destruct (decide (k' = k0)); done.
    + destruct (decide (k' = k0)) as [->|Hne'].
      * destruct (decide (k0 = k)); [congruence | done].
      * apply IH.
Qed.

Lemma elem_of_dict_set d k v kv :
  kv ∈ dict_set k v d → kv = (k, v) ∨ kv ∈ d.
Proof.
  induction d as [|[k0 v0] d IH]; simpl.
  - rewrite list_elem_of_singleton. auto.
  - destruct (decide (k = k0)) as [->|Hne]; rewrite !elem_of_cons.
    + tauto.
    + intros [?|?]; [tauto|]. destruct IH; auto.
Qed.

Lemma dict_set_fresh d k v :
  k ∉ dict_keys d → dict_set k v d = d ++ [(k, v)].
Proof.
  unfold dict_keys.
  induction d as [|[k0 v0] d IH]; simpl; [done|].
  rewrite not_elem_of_cons. intros [Hne Hnin].
  destruct (decide (k = k0)); [done|]. by rewrite IH.
Qed.

Lemma dict_keys_set_present d k v :
  k ∈ dict_keys d → dict_keys (dict_set k v d) = dict_keys d.
Proof.
  unfold dict_keys.
  induction d as [|[k0 v0] d IH]; simpl.
  - intros Hin. by apply elem_of_nil in Hin.
  - rewrite elem_of_cons. intros Hin.
    destruct (decide (k = k0)) as [->|Hne]; simpl; [done|].
    f_equal. apply IH. by destruct Hin.
Qed.

Lemma Forall_dict_set (P : K * V → Prop) d k v :
  P (k, v) → Forall P d → Forall P (dict_set k v d).
Proof.
  intros Hp Hd. apply Forall_forall. intros kv Hin.
  apply elem_of_dict_set in Hin as [->|Hin]; [done|].
  by eapply Forall_forall in Hd.
Qed.
End DictFacts.

Lemma elem_of_concat {A : Type} (x : A) (ls : list (list A)) :
  x ∈ concat ls ↔ ∃ l, x ∈ l ∧ l ∈ ls.
Proof.
  induction ls as [|l ls IH]; simpl.
  - rewrite elem_of_nil. split; [done|]. intros (l & _ & Hl).
    by apply elem_of_nil in Hl.
  - rewrite elem_of_app, IH. split.
    + intros [Hx|(l' & Hx & Hl')].
      * exists l. split; [done | apply list_elem_of_here].
      * exists l'. split; [done | by apply list_elem_of_further].
    + intros (l' & Hx & [->|Hl']%elem_of_cons); [by left|].
      right. by exists l'.
Qed.

Section SortFacts.
Context {A : Type} (key : A → Z).
Implicit Types (l : list A) (x : A).

Lemma sort_insert_perm x l : sort_insert key x l ≡ₚ x :: l.
Proof.
  induction l as [|y l IH]; simpl; [done|].
  destruct (Z.leb (key x) (key y)); [done|].
  rewrite IH. apply Permutation_swap.
Qed.

Lemma py_sorted_perm l : py_sorted key l ≡ₚ l.
Proof.
  induction l as [|x l IH]; simpl; [done|].
  unfold py_sorted in *. simpl. rewrite sort_insert_perm. by constructor.
Qed.

Lemma elem_of_py_sorted x l : x ∈ py_sorted key l ↔ x ∈ l.
Proof. by rewrite py_sorted_perm. Qed.

Lemma length_py_sorted l : length (py_sorted key l) = length l.
Proof. by rewrite py_sorted_perm. Qed.

Lemma sort_insert_sorted x l :
  StronglySorted (key_le key) l → StronglySorted (key_le key) (sort_insert key x l).
Proof.
  induction l as [|y l IH]; simpl; intros Hs.
  - repeat constructor.
  - destruct (Z.leb_spec (key x) (key y)) as [Hle|Hgt].
    + constructor; [done|]. apply StronglySorted_cons in Hs as [Hy _].
      constructor; [done|].
      eapply Forall_impl; [exact Hy|]. unfold key_le. intros; simpl in *; lia.
    + apply StronglySorted_cons in Hs as [Hy Hl].
      apply StronglySorted_cons. split; [|by apply IH].
      rewrite sort_insert_perm. constructor; [unfold key_le; lia | done].
Qed.

Lemma py_sorted_sorted l : StronglySorted (key_le key) (py_sorted key l).
Proof.
  induction l as [|x l IH]; [constructor|].
  unfold py_sorted in *. simpl. by apply sort_insert_sorted.
Qed.

(** The first element of a sorted list that passes a test has the least
    key among those that pass. *)
Lemma find_sorted_least (f : A → bool) l x :
  StronglySorted (key_le key) l → List.find f l = Some x →
  x ∈ l ∧ f x = true ∧ ∀ y, y ∈ l → f y = true → key x ≤ key y.
Proof.
  induction l as [|a l IH]; simpl; [done|].
  intros [Ha Hl]%StronglySorted_cons. destruct (f a) eqn:Hfa.
  - intros [= <-]. split; [apply list_elem_of_here|]. split; [done|].
    intros y [->|Hy]%elem_of_cons _; [lia|].
    by eapply Forall_forall in Ha.
  - intros Hfind. destruct (IH Hl Hfind) as (Hin & Hfx & Hmin).
    split; [by apply list_elem_of_further|]. split; [done|].
    intros y [->|Hy]%elem_of_cons Hfy; [congruence | auto].
Qed.

Lemma find_None_all (f : A → bool) l :
  List.find f l = None → ∀ y, y ∈ l → f y = false.
Proof.
  induction l as [|a l IH]; simpl; intros Hf y Hy.
  - by apply elem_of_nil in Hy.
  - destruct (f a) eqn:Hfa; [done|].
    apply elem_of_cons in Hy as [->|Hy]; auto.
Qed.
End SortFacts.

(** * The Block Metadata Correlator *)

Section CorrelatorFacts.
Implicit Types (bd : blocks_data_t) (e r : entry) (log : list event).

Lemma entries_satisfy_all P bd e :
  entries_satisfy P bd → e ∈ all_entries bd → P e.
Proof.
  unfold entries_satisfy, all_entries, dict_values.
  intros Hall (es & He & Hes)%elem_of_concat.
  apply list_elem_of_fmap in Hes as ([n es'] & -> & Hin).
  eapply Forall_forall in Hall; [|exact Hin].
  by eapply Forall_forall in Hall.
Qed.

Lemma entries_satisfy_get P bd n es :
  entries_satisfy P bd → dict_get n bd = Some es → Forall P es.
Proof.
  intros Hall Hg%dict_get_Some_elem.
  by eapply Forall_forall in Hall; [|exact Hg].
Qed.

Lemma add_block_satisfy P bd ev :
  (∀ ts n h el, P (Entry ts h el n None None)) →
  entries_satisfy P bd → entries_satisfy P (add_block bd ev).
Proof.
  intros Hnew Hall. destruct ev; simpl; try done.
  unfold dict_append. destruct (dict_get number bd) as [es|] eqn:Hg.
  - apply Forall_dict_set; [|done]. simpl.
    apply Forall_app. split; [by eapply entries_satisfy_get|].
    by repeat constructor.
  - apply Forall_dict_set; [|done]. by repeat constructor.
Qed.

Lemma add_root_satisfy P bd ev :
  (∀ v e, P e → P (set_root_elapsed v e)) →
  entries_satisfy P bd → entries_satisfy P (add_root bd ev).
Proof.
  intros Hset Hall. destruct ev; simpl; try done.
  destruct (dict_get number bd) as [es|] eqn:Hg; [|done].
  destruct (closest_entry ts es) as [i|]; [|done].
  apply Forall_dict_set; [|done]. simpl.
  apply Forall_alter; [by eapply entries_satisfy_get|]. auto.
Qed.

Lemma foldl_satisfy P (f : blocks_data_t → event → blocks_data_t) log bd :
  (∀ bd ev, entries_satisfy P bd → entries_satisfy P (f bd ev)) →
  entries_satisfy P bd → entries_satisfy P (foldl f bd log).
Proof.
  intros Hf. revert bd. induction log as [|ev log IH]; simpl; auto.
Qed.

(** No entry carries a proof time before the last loop. *)
Lemma blocks_after_roots_no_total log :
  entries_satisfy (λ e, total_time e = None) (blocks_after_roots log).
Proof.
  unfold blocks_after_roots.
  apply foldl_satisfy; [intros; by apply add_root_satisfy|].
  apply foldl_satisfy; [intros; by apply add_block_satisfy|].
  constructor.
Qed.

Lemma all_entries_attach pts bd :
  all_entries (attach_proofs pts bd)
  = attach_proof pts <$> all_entries bd.
Proof.
  unfold all_entries, attach_proofs, dict_values.
  induction bd as [|[n es] bd IH]; [done|].
  cbn. rewrite fmap_app. f_equal. exact IH.
Qed.

Lemma by_timestamp_elem bd k r :
  (k, r) ∈ by_timestamp bd → k = timestamp r ∧ r ∈ all_entries bd.
Proof.
  unfold by_timestamp. fold (all_entries bd).
  assert (∀ es md,
    (k, r) ∈ foldl (λ md e, dict_set (timestamp e) e md) md es →
    (k, r) ∈ md ∨ (k = timestamp r ∧ r ∈ es)) as Hgen.
  { induction es as [|e es IH]; simpl; intros md Hin; [by left|].
    apply IH in Hin as [Hin|[-> Hin]].
    - apply elem_of_dict_set in Hin as [[= -> ->]|Hin]; [|by left].
      right. split; [done | apply list_elem_of_here].
    - right. split; [done | by apply list_elem_of_further]. }
  intros Hin. apply Hgen in Hin as [Hin|Hin]; [|done].
  by apply elem_of_nil in Hin.
Qed.

Lemma elem_of_proof_times log tp v :
  (tp, v) ∈ proof_times log ↔ ProofsProcessed tp v ∈ log.
Proof.
  unfold proof_times. rewrite elem_of_py_sorted, list_elem_of_omap.
  split.
  - intros (ev & Hin & Hev). destruct ev; simplify_eq/=. done.
  - intros Hin. by exists (ProofsProcessed tp v).
Qed.

Lemma in_forward_window_spec t p :
  in_forward_window t p = true ↔ t ≤ p.1 ≤ t + seconds 10.
Proof.
  unfold in_forward_window. rewrite andb_true_iff, !Z.leb_le. lia.
Qed.

(** What the last loop leaves in a record: the proof time of the earliest
    ProofsProcessed event from the record's instant up to ten seconds
    later, or nothing when there is no such event. *)
Lemma record_total_time log k r :
  (k, r) ∈ extract_block_metadata log →
  k = timestamp r ∧
  match total_time r with
  | Some v =>
      ∃ tp, ProofsProcessed tp v ∈ log ∧
            timestamp r ≤ tp ≤ timestamp r + seconds 10 ∧
            ∀ tp' v', ProofsProcessed tp' v' ∈ log →
                      timestamp r ≤ tp' ≤ timestamp r + seconds 10 →
                      tp ≤ tp'
  | None =>
      ∀ tp' v', ProofsProcessed tp' v' ∈ log →
                ¬ (timestamp r ≤ tp' ≤ timestamp r + seconds 10)
  end.
Proof.
  unfold extract_block_metadata.
  intros [-> Hin]%by_timestamp_elem. split; [done|].
  rewrite all_entries_attach in Hin.
  apply list_elem_of_fmap in Hin as (e & -> & He).
  pose proof (entries_satisfy_all _ _ _ (blocks_after_roots_no_total log) He)
    as Hnone. simpl in Hnone.
  unfold attach_proof, matched_proof.
  destruct (List.find _ _) as [[tp v]|] eqn:Hfind.
  - apply (find_sorted_least fst) in Hfind as (Hp & Hw & Hmin);
      [|apply py_sorted_sorted].
    simpl. exists tp. split; [by apply elem_of_proof_times|].
    apply in_forward_window_spec in Hw. simpl in Hw. split; [done|].
    intros tp' v' Hin' Hw'. apply (Hmin (tp', v')).
    + by apply elem_of_proof_times.
    + by apply in_forward_window_spec.
  - rewrite Hnone. intros tp' v' Hin' Hw'.
    eapply find_None_all in Hfind; [|by apply elem_of_proof_times].
    apply (in_forward_window_spec (timestamp e) (tp', v')) in Hw'.
    congruence.
Qed.
End CorrelatorFacts.

Section NearestEntry.
Implicit Types (es : list entry) (e : entry).


End NearestEntry.

(** ** Proof-time matching (forward window) *)

(** C1, as the sentence reads: the record of the block added at T+3s would
    carry the proof time of the event at T+1s.  On the log
    [log_proof_before_block] (T = 0) the record carries no proof time at
    all: the search starts at the BlockAdded instant and goes forward. *)
Lemma earlier_proof_event_is_not_attached :
  total_time <$> dict_get (seconds 3)
                   (extract_block_metadata log_proof_before_block)
  = Some None
  ∧ total_time <$> dict_get (seconds 3)
                     (extract_block_metadata log_proof_before_block)
    ≠ Some (Some "1.5ms").
Proof. split; [reflexivity | discriminate]. Qed.

(** C1, amended: a record anchored at T+3s takes its processing time only
    from a ProofsProcessed event between T+3s and T+13s, so neither the
    event at T+1s (before the block) nor the event at T+15s (past the ten
    seconds) is attached; when these two are the only ProofsProcessed events
    the processing time is absent, as on the three-event log itself. *)
Theorem proof_time_only_from_forward_window
    (log : list event) (T k : Z) (r : entry) :
  (k, r) ∈ extract_block_metadata log →
  timestamp r = T + seconds 3 →
  (∀ v, total_time r = Some v →
        ∃ tp, ProofsProcessed tp v ∈ log ∧
              T + seconds 3 ≤ tp ≤ T + seconds 13 ∧
              tp ≠ T + seconds 1 ∧ tp ≠ T + seconds 15)
  ∧ ((∀ tp v, ProofsProcessed tp v ∈ log →
              tp = T + seconds 1 ∨ tp = T + seconds 15) →
     total_time r = None)
  ∧ (∀ n h el v1 v15,
       extract_block_metadata
         [ ProofsProcessed (T + seconds 1) v1;
           BlockAdded (T + seconds 3) n h el;
           ProofsProcessed (T + seconds 15) v15 ]
       = [ (T + seconds 3, Entry (T + seconds 3) h el n None None) ]).
Proof.
  intros Hin Hts. apply record_total_time in Hin as [_ Hrec].
  rewrite Hts in Hrec. split; [|split].
  - intros v Hv. rewrite Hv in Hrec. destruct Hrec as (tp & Hlog & Hw & _).
    exists tp. split; [done|]. unfold seconds in *. lia.
  - intros Honly. destruct (total_time r) as [v|]; [|done].
    destruct Hrec as (tp & Hlog & Hw & _).
    apply Honly in Hlog. unfold seconds in *. lia.
  - intros n h el v1 v15.
    unfold extract_block_metadata, blocks_after_roots, proof_times; simpl.
    unfold py_sorted; simpl.
    replace (Z.leb (T + seconds 1) (T + seconds 15)) with true
      by (symmetry; apply Z.leb_le; unfold seconds; lia).
    unfold attach_proofs, attach_proof, matched_proof, in_forward_window;
      simpl.
    replace (Z.leb 0 (T + seconds 1 - (T + seconds 3))) with false
      by (symmetry; apply Z.leb_gt; unfold seconds; lia).
    replace (Z.leb (T + seconds 15 - (T + seconds 3)) (seconds 10)) with false
      by (symmetry; apply Z.leb_gt; unfold seconds; lia).
    simpl. rewrite andb_false_r. reflexivity.
Qed.

Lemma proof_time_only_from_forward_window_witness :
  let r := Entry (seconds 3) "0xab" "2ms" "100" None None in
  (seconds 3, r) ∈ extract_block_metadata log_proof_before_block
  ∧ timestamp r = 0 + seconds 3
  ∧ total_time r = None.
Proof.
  intros r.
  assert ((seconds 3, r) ∈ extract_block_metadata log_proof_before_block)
    as Hin by (vm_compute; apply list_elem_of_here).
  split; [exact Hin|]. split; [reflexivity|].
  apply (proof_time_only_from_forward_window
           log_proof_before_block 0 (seconds 3) r Hin eq_refl).
  intros tp v Hlog. unfold log_proof_before_block in Hlog.
  rewrite !elem_of_cons, elem_of_nil in Hlog.
  destruct Hlog as [[= -> _]|[?|[[= -> _]|[]]]]; [by left | done | by right].
Defined.

(** C2, as the sentence reads, with the window strictly after the
    BlockAdded instant: on [log_proof_at_block_instant] the only
    ProofsProcessed event has the instant of the block, so the field would
    stay absent; the code attaches it ([0 <= time_diff]). *)
Lemma proof_at_block_instant_is_attached :
  ∃ k r, (k, r) ∈ extract_block_metadata log_proof_at_block_instant
         ∧ total_time r = Some "7ms"
         ∧ ¬ earliest_in_window Z.lt log_proof_at_block_instant r.
Proof.
  exists (seconds 3), (Entry (seconds 3) "0xab" "2ms" "100" None (Some "7ms")).
  split; [vm_compute; apply list_elem_of_here|]. split; [done|].
  unfold earliest_in_window; simpl. intros (tp & Hlog & [Hlt _] & _).
  unfold log_proof_at_block_instant in Hlog.
  rewrite !elem_of_cons, elem_of_nil in Hlog.
  destruct Hlog as [?|[[= -> ]|[]]]; [done|]. lia.
Qed.

(** C2, amended: every record carries as processing time the earliest
    ProofsProcessed event whose instant is at or after the record's
    BlockAdded instant and at most ten seconds after it; with no such event
    the field stays absent; and one ProofsProcessed event can be attached to
    several records (on [log_shared_proof], to both). *)
Theorem proof_time_is_earliest_at_or_after
    (log : list event) (k : Z) (r : entry) :
  (k, r) ∈ extract_block_metadata log →
  earliest_in_window Z.le log r
  ∧ (∃ r1 r2,
       dict_get (seconds 1) (extract_block_metadata log_shared_proof) = Some r1
       ∧ dict_get (seconds 2) (extract_block_metadata log_shared_proof)
         = Some r2
       ∧ block_number r1 = "100" ∧ block_number r2 = "101"
       ∧ total_time r1 = Some "7ms" ∧ total_time r2 = Some "7ms").
Proof.
  intros Hin. split.
  - apply record_total_time in Hin as [_ Hrec].
    unfold earliest_in_window. destruct (total_time r) as [v|].
    + destruct Hrec as (tp & Hlog & Hw & Hmin). exists tp.
      split; [done|]. split; [done|]. intros tp' v' Hlog' Hw'. eauto.
    + intros tp' v' Hlog' Hw'. by eapply Hrec.
  - eexists _, _. split; [vm_compute; reflexivity|].
    split; [vm_compute; reflexivity|]. done.
Qed.

Lemma proof_time_is_earliest_at_or_after_witness :
  let r := Entry (seconds 3) "0xab" "2ms" "100" None (Some "7ms") in
  (seconds 3, r) ∈ extract_block_metadata log_proof_at_block_instant
  ∧ earliest_in_window Z.le log_proof_at_block_instant r.
Proof.
  intros r.
  assert ((seconds 3, r) ∈ extract_block_metadata log_proof_at_block_instant)
    as Hin by (vm_compute; apply list_elem_of_here).
  split; [exact Hin|].
  apply (proof_time_is_earliest_at_or_after
           log_proof_at_block_instant (seconds 3) r Hin).
Defined.

(** ** Root-elapsed matching (nearest entry of the block number) *)




(** * The Run Splitter *)

Section DictMore.
Context {K V : Type} `{EqDecision K}.
Implicit Types (d : list (K * V)) (k : K) (v : V).

Lemma dict_set_NoDup d k v :
  NoDup (dict_keys d) → NoDup (dict_keys (dict_set k v d)).
Proof.
  intros Hnd. destruct (decide (k ∈ dict_keys d)) as [Hin|Hnin].
  - by rewrite dict_keys_set_present.
  - rewrite dict_set_fresh by done. unfold dict_keys in *.
    rewrite fmap_app. simpl. apply NoDup_app. split; [done|].
    split; [|apply NoDup_singleton].
    intros k' Hk' ->%list_elem_of_singleton. done.
Qed.

Lemma elem_of_dict_get d k v :
  NoDup (dict_keys d) → (k, v) ∈ d → dict_get k d = Some v.
Proof.
  unfold dict_keys.
  induction d as [|[k' v'] d IH]; simpl; intros Hnd Hin.
  - by apply elem_of_nil in Hin.
  - apply NoDup_cons in Hnd as [Hk' Hnd].
    apply elem_of_cons in Hin as [[= -> ->]|Hin].
    + by rewrite decide_True.
    + destruct (decide (k = k')) as [->|Hne]; [|auto].
      exfalso. apply Hk'. apply list_elem_of_fmap. by exists (k', v).
Qed.

Lemma dict_values_agree d k v v' :
  NoDup (dict_keys d) → (k, v) ∈ d → (k, v') ∈ d → v = v'.
Proof.
  intros Hnd H1 H2. apply (elem_of_dict_get _ _ _ Hnd) in H1, H2. congruence.
Qed.

Lemma foldl_opt_set_elem {G : Type} (sel : G → option (K * V))
    (gs : list G) d kv :
  kv ∈ foldl (λ r g, opt_set (sel g) r) d gs →
  kv ∈ d ∨ ∃ g, g ∈ gs ∧ sel g = Some kv.
Proof.
  revert d. induction gs as [|g gs IH]; simpl; intros d Hin; [by left|].
  apply IH in Hin as [Hin|(g' & Hg' & Hsel)].
  - unfold opt_set in Hin. destruct (sel g) as [[k v]|] eqn:Hs; [|by left].
    apply elem_of_dict_set in Hin as [->|Hin]; [|by left].
    right. exists g. split; [apply list_elem_of_here | done].
  - right. exists g'. split; [by apply list_elem_of_further | done].
Qed.

Lemma foldl_opt_set_get {G : Type} (sel : G → option (K * V))
    (gs : list G) d k v :
  (dict_get k d = Some v ∨ ∃ g, g ∈ gs ∧ sel g = Some (k, v)) →
  (∀ g v', g ∈ gs → sel g = Some (k, v') → v' = v) →
  dict_get k (foldl (λ r g, opt_set (sel g) r) d gs) = Some v.
Proof.
  revert d. induction gs as [|g gs IH]; simpl; intros d Hex Huniq.
  - destruct Hex as [?|(g & Hg & _)]; [done|]. by apply elem_of_nil in Hg.
  - apply IH.
    + destruct Hex as [Hd|(g' & [->|Hg']%elem_of_cons & Hsel)].
      * left. unfold opt_set.
        destruct (sel g) as [[k' v']|] eqn:Hs; [|done].
        rewrite dict_get_set. destruct (decide (k = k')) as [->|]; [|done].
        f_equal. eapply Huniq; [apply list_elem_of_here | done].
      * left. rewrite Hsel. simpl. rewrite dict_get_set.
        by rewrite decide_True.
      * right. by exists g'.
    + intros g' v' Hg'. apply Huniq. by apply list_elem_of_further.
Qed.
End DictMore.

Lemma dict_get_append {K A : Type} `{EqDecision K} (k k' : K) (x : A)
    (d : list (K * list A)) :
  dict_get k' (dict_append k x d)
  = if decide (k' = k) then Some (default [] (dict_get k d) ++ [x])
    else dict_get k' d.
Proof.
  unfold dict_append. destruct (dict_get k d) as [xs|] eqn:Hg;
    rewrite dict_get_set; by destruct (decide (k' = k)).
Qed.

Lemma dict_append_NoDup {K A : Type} `{EqDecision K} (k : K) (x : A)
    (d : list (K * list A)) :
  NoDup (dict_keys d) → NoDup (dict_keys (dict_append k x d)).
Proof.
  intros Hnd. unfold dict_append.
  destruct (dict_get k d); by apply dict_set_NoDup.
Qed.

Section RunSplitterFacts.
Implicit Types (all : list (Z * entry)) (b : string)
  (g : string * list (Z * entry)).

Lemma block_occurrences_snoc all x :
  block_occurrences (all ++ [x])
  = add_occurrence (block_occurrences all) x.
Proof. unfold block_occurrences. by rewrite foldl_app. Qed.

Lemma block_occurrences_get all b :
  dict_get b (block_occurrences all)
  = match occurrences_of b all with [] => None | l => Some l end.
Proof.
  induction all as [|x all IH] using rev_ind; [done|].
  rewrite block_occurrences_snoc. unfold add_occurrence, occurrences_of.
  rewrite dict_get_append, filter_app.
  destruct (decide (b = block_number x.2)) as [->|Hne].
  - rewrite filter_cons_True by done. rewrite IH.
    unfold occurrences_of.
    destruct (filter _ all); done.
  - rewrite filter_cons_False by done. rewrite filter_nil, app_nil_r.
    exact IH.
Qed.

Lemma block_occurrences_NoDup all :
  NoDup (dict_keys (block_occurrences all)).
Proof.
  induction all as [|x all IH] using rev_ind; [constructor|].
  rewrite block_occurrences_snoc. by apply dict_append_NoDup.
Qed.

Lemma group_elem all g :
  g ∈ block_occurrences all →
  g.2 = occurrences_of g.1 all ∧ g.2 ≠ [].
Proof.
  destruct g as [b l]. intros Hin. simpl.
  apply elem_of_dict_get in Hin; [|apply block_occurrences_NoDup].
  rewrite block_occurrences_get in Hin.
  destruct (occurrences_of b all); [done|]. by inversion Hin.
Qed.

Lemma group_of_block all b :
  occurrences_of b all ≠ [] →
  (b, occurrences_of b all) ∈ block_occurrences all.
Proof.
  intros Hne. apply dict_get_Some_elem. rewrite block_occurrences_get.
  by destruct (occurrences_of b all).
Qed.

Lemma split_runs_picks all :
  split_runs all
  = (foldl (λ r g, opt_set (first_pick g) r) [] (block_occurrences all),
     foldl (λ r g, opt_set (second_pick g) r) [] (block_occurrences all)).
Proof.
  unfold split_runs. generalize (block_occurrences all).
  generalize (@nil (run_key * entry)) at 1 3.
  generalize (@nil (run_key * entry)).
  intros r2 r1 gs. revert r1 r2.
  induction gs as [|g gs IH]; intros r1 r2; simpl; [done|].
  rewrite <- IH. f_equal.
  unfold split_block, first_pick, second_pick, opt_set.
  destruct (py_sorted fst g.2) as [|[t1 m1] [|[t2 m2] rest]]; done.
Qed.

Lemma pick_in_group g k m :
  first_pick g = Some (k, m) ∨ second_pick g = Some (k, m) →
  ∃ t, (t, m) ∈ g.2 ∧ (k = Stamp t ∨ k = StampDup t).
Proof.
  unfold first_pick, second_pick.
  pose proof (@elem_of_py_sorted (Z * entry) fst) as Hel.
  destruct (py_sorted fst g.2) as [|[t1 m1] [|[t2 m2] rest]] eqn:Hs;
    intros [[= <- <-]|[= <- <-]].
  - exists t1. split; [|by left].
    apply (Hel (t1, m1) g.2). rewrite Hs. apply list_elem_of_here.
  - exists t1. split; [|by right].
    apply (Hel (t1, m1) g.2). rewrite Hs. apply list_elem_of_here.
  - exists t1. split; [|by left].
    apply (Hel (t1, m1) g.2). rewrite Hs. apply list_elem_of_here.
  - exists t2. split; [|by left].
    apply (Hel (t2, m2) g.2). rewrite Hs.
    apply list_elem_of_further, list_elem_of_here.
Qed.

Lemma elem_of_occurrences all b t m :
  (t, m) ∈ occurrences_of b all ↔ block_number m = b ∧ (t, m) ∈ all.
Proof. unfold occurrences_of. by rewrite list_elem_of_filter. Qed.

(** A record of block [b] in a run is the pick of the group of [b]. *)
Lemma run_record_is_pick (pick : string * list (Z * entry) →
                                 option (run_key * entry)) all b k m :
  (∀ g kv, pick g = Some kv →
           first_pick g = Some kv ∨ second_pick g = Some kv) →
  (k, m) ∈ foldl (λ r g, opt_set (pick g) r) [] (block_occurrences all) →
  block_number m = b →
  pick (b, occurrences_of b all) = Some (k, m).
Proof.
  intros Hpick Hin Hb.
  apply foldl_opt_set_elem in Hin as [Hin|(g & Hg & Hsel)];
    [by apply elem_of_nil in Hin|].
  pose proof (group_elem all g Hg) as [Heq _].
  destruct (pick_in_group g k m (Hpick _ _ Hsel)) as (t & Ht & _).
  rewrite Heq in Ht. apply elem_of_occurrences in Ht as [Hbn _].
  destruct g as [b' l]; simpl in *. by subst.
Qed.

(** The pick of the group of [b] is what the run holds under its key. *)
Lemma pick_is_run_record (pick : string * list (Z * entry) →
                                 option (run_key * entry)) all b k m :
  NoDup (dict_keys all) →
  (∀ g kv, pick g = Some kv →
           first_pick g = Some kv ∨ second_pick g = Some kv) →
  pick (b, occurrences_of b all) = Some (k, m) →
  dict_get k (foldl (λ r g, opt_set (pick g) r) [] (block_occurrences all))
  = Some m.
Proof.
  intros Hnd Hpick Hsel.
  destruct (pick_in_group _ k m (Hpick _ _ Hsel)) as (t & Ht & Hk).
  simpl in Ht. apply foldl_opt_set_get.
  - right. exists (b, occurrences_of b all). split; [|done].
    apply group_of_block. intros Hnil. rewrite Hnil in Ht.
    by apply elem_of_nil in Ht.
  - intros g m' Hg Hsel'.
    destruct (pick_in_group _ k m' (Hpick _ _ Hsel')) as (t' & Ht' & Hk').
    rewrite (proj1 (group_elem all g Hg)) in Ht'.
    apply elem_of_occurrences in Ht as [_ Ht], Ht' as [_ Ht'].
    assert (t' = t) as -> by (destruct Hk, Hk'; congruence).
    exact (dict_values_agree all t m' m Hnd Ht' Ht).
Qed.

(** The dictionary of [extract_block_metadata] has one record per key. *)
Lemma extract_block_metadata_NoDup log :
  NoDup (dict_keys (extract_block_metadata log)).
Proof.
  unfold extract_block_metadata, by_timestamp.
  generalize (concat (dict_values
    (attach_proofs (proof_times log) (blocks_after_roots log)))).
  intros es.
  assert (∀ md : list (Z * entry), NoDup (dict_keys md) →
    NoDup (dict_keys (foldl (λ md e, dict_set (timestamp e) e md) md es)))
    as Hgen.
  { induction es as [|e es IH]; simpl; [done|].
    intros md Hmd. apply IH. by apply dict_set_NoDup. }
  apply Hgen. constructor.
Qed.
End RunSplitterFacts.

Lemma sorted_occurrences_keys (all : list (Z * entry)) (b : string) :
  NoDup (dict_keys all) →
  NoDup (dict_keys (py_sorted fst (occurrences_of b all)))
  ∧ StronglySorted (key_le fst) (py_sorted fst (occurrences_of b all)).
Proof.
  intros Hnd. split; [|apply py_sorted_sorted].
  unfold dict_keys in *. rewrite py_sorted_perm.
  eapply sublist_NoDup; [exact Hnd|].
  apply fmap_sublist. unfold occurrences_of. apply sublist_filter.
Qed.

(** C4: for a block number, take its records in the dictionary of the file
    ordered by timestamp.  With two or more, Run 1 holds the first and Run 2
    the second (the first is strictly earlier), and both runs hold nothing
    else of that block number, so any further occurrence is dropped; with
    exactly one, both runs hold that record, Run 2 under the key with the
    suffix, with the same fields; with none, the runs hold no record of
    it. *)
Theorem runs_take_first_two_occurrences (log : list event) (b : string) :
  let all := extract_block_metadata log in
  let run1 := (extract_block_metadata_from_single_file log).1 in
  let run2 := (extract_block_metadata_from_single_file log).2 in
  let only (run : run_t) (k : run_key) (m : entry) :=
    dict_get k run = Some m
    ∧ ∀ k' m', (k', m') ∈ run → block_number m' = b → k' = k ∧ m' = m in
  match py_sorted fst (occurrences_of b all) with
  | [] => ∀ k m, (k, m) ∈ run1 ∨ (k, m) ∈ run2 → block_number m ≠ b
  | [(t, m)] => only run1 (Stamp t) m ∧ only run2 (StampDup t) m
  | (t1, m1) :: (t2, m2) :: rest =>
      t1 < t2 ∧ Forall (λ kv, t2 < kv.1) rest
      ∧ only run1 (Stamp t1) m1 ∧ only run2 (Stamp t2) m2
  end.
Proof.
  intros all run1 run2 only.
  pose proof (extract_block_metadata_NoDup log) as Hnd. fold all in Hnd.
  assert (run1 = foldl (λ r g, opt_set (first_pick g) r) []
                   (block_occurrences all)
          ∧ run2 = foldl (λ r g, opt_set (second_pick g) r) []
                     (block_occurrences all)) as [Hr1 Hr2].
  { subst run1 run2. unfold extract_block_metadata_from_single_file.
    fold all. by rewrite split_runs_picks. }
  assert (∀ pick,
    (∀ g kv, pick g = Some kv →
             first_pick g = Some kv ∨ second_pick g = Some kv) →
    ∀ run k m, run = foldl (λ r g, opt_set (pick g) r) []
                       (block_occurrences all) →
    pick (b, occurrences_of b all) = Some (k, m) → only run k m) as Honly.
  { intros pick Hpick run k m -> Hsel. split.
    - by apply (pick_is_run_record pick all b).
    - intros k' m' Hin Hb.
      pose proof (run_record_is_pick pick all b k' m' Hpick Hin Hb) as Hsel'.
      rewrite Hsel in Hsel'. by inversion Hsel'. }
  destruct (sorted_occurrences_keys all b Hnd) as [Hkeys Hsorted].
  destruct (py_sorted fst (occurrences_of b all))
    as [|[t1 m1] [|[t2 m2] rest]] eqn:Hs.
  - intros k m [Hin|Hin] Hb.
    + rewrite Hr1 in Hin.
      apply (run_record_is_pick first_pick all b k m) in Hin; auto.
      unfold first_pick in Hin. simpl in Hin. by rewrite Hs in Hin.
    + rewrite Hr2 in Hin.
      apply (run_record_is_pick second_pick all b k m) in Hin; auto.
      unfold second_pick in Hin. simpl in Hin. by rewrite Hs in Hin.
  - split.
    + apply (Honly first_pick); auto. unfold first_pick. simpl. by rewrite Hs.
    + apply (Honly second_pick); auto. unfold second_pick. simpl.
      by rewrite Hs.
  - unfold dict_keys in Hkeys. simpl in Hkeys.
    apply NoDup_cons in Hkeys as [Hn1 Hkeys].
    apply NoDup_cons in Hkeys as [Hn2 _].
    apply StronglySorted_cons in Hsorted as [Hle1 Hsorted].
    apply StronglySorted_cons in Hsorted as [Hle2 _].
    apply Forall_cons in Hle1 as [Hle1 _]. unfold key_le in *. simpl in *.
    split; [|split; [|split]].
    + apply not_elem_of_cons in Hn1 as [Hne _]. lia.
    + apply Forall_forall. intros [t' m'] Hin. simpl.
      eapply Forall_forall in Hle2; [|exact Hin]. simpl in Hle2.
      assert (t2 ≠ t'); [|lia]. intros ->. apply Hn2.
      apply list_elem_of_fmap. by exists (t', m').
    + apply (Honly first_pick); auto. unfold first_pick. simpl. by rewrite Hs.
    + apply (Honly second_pick); auto. unfold second_pick. simpl.
      by rewrite Hs.
Qed.

(** * The Boundary Reconstructor *)

Section BoundaryFacts.
Implicit Types (ts pp : list Z) (s : list window * Z).

Lemma is_reset_spec cur prev : is_reset cur prev = true ↔ drops cur prev.
Proof.
  unfold is_reset, drops. rewrite orb_true_iff, Z.eqb_eq.
  assert (Qcompare (inject_Z cur) (Qmult (inject_Z prev) (1 # 2))
          = Z.compare (2 * cur) prev) as ->.
  { unfold Qcompare, Qmult, inject_Z. simpl.
    rewrite !Z.mul_1_r. by rewrite (Z.mul_comm 2 cur). }
  destruct (Z.compare_spec (2 * cur) prev); split; intros [?|?];
    try done; try lia; auto.
Qed.

Lemma step_pure ts pp s i :
  length ts = length pp → (1 ≤ i < length ts)%nat →
  step ts pp (Some s) i = Some (pure_step ts pp s i).
Proof.
  intros Hlen Hi. unfold step, pure_step. simpl.
  rewrite (list_lookup_lookup_total_lt pp i) by lia.
  rewrite (list_lookup_lookup_total_lt pp (i - 1)) by lia. simpl.
  destruct (is_reset _ _) eqn:Hr.
  - apply is_reset_spec in Hr. rewrite decide_True by done.
    rewrite (list_lookup_lookup_total_lt ts (i - 1)) by lia.
    rewrite (list_lookup_lookup_total_lt ts i) by lia. done.
  - rewrite decide_False; [done|].
    intros Hd%is_reset_spec. congruence.
Qed.

(** The loop never indexes out of range. *)
Lemma loop_state_pure ts pp t0 n :
  length ts = length pp → (n < length ts)%nat →
  loop_state ts pp t0 n
  = Some (foldl (pure_step ts pp) ([], t0) (seq 1 n)).
Proof.
  intros Hlen. unfold loop_state. induction n as [|n IH]; intros Hn.
  - done.
  - rewrite seq_S, !foldl_app. simpl. rewrite IH by lia.
    apply step_pure; [done | lia].
Qed.

Lemma foldl_pure_step_filter ts pp s (l : list nat) :
  foldl (pure_step ts pp) s l
  = foldl (λ s i, (s.1 ++ [(length s.1, s.2, ts !!! (i - 1)%nat)],
                   ts !!! i)) s
      (filter (λ i, drops (pp !!! i) (pp !!! (i - 1)%nat)) l).
Proof.
  revert s. induction l as [|i l IH]; intros s; [done|].
  rewrite filter_cons. simpl. rewrite IH. unfold pure_step.
  destruct (decide (drops _ _)); done.
Qed.

Lemma foldl_resets ts (R : list nat) bs start :
  foldl (λ s i, (s.1 ++ [(length s.1, s.2, ts !!! (i - 1)%nat)],
                 ts !!! i)) (bs, start) R
  = (bs ++ (windows_between ts (length bs) start R).1,
     (windows_between ts (length bs) start R).2).
Proof.
  revert bs start. induction R as [|i R IH]; intros bs start; simpl.
  - by rewrite app_nil_r.
  - rewrite IH. rewrite length_app. simpl.
    replace (length bs + 1)%nat with (S (length bs)) by lia.
    by rewrite <- app_assoc.
Qed.

(** The windows of a sample sequence in closed form. *)
Lemma boundaries_closed_form t0 ts pp :
  length (t0 :: ts) = length pp →
  let r := windows_between (t0 :: ts) 0 t0 (reset_indices pp) in
  let t_last := default t0 (last ts) in
  boundaries_of (t0 :: ts) pp
  = Some (if decide (r.2 ≠ t_last)
          then r.1 ++ [(length r.1, r.2, t_last)] else r.1).
Proof.
  intros Hlen r t_last. unfold boundaries_of.
  rewrite loop_state_pure by (simpl; done || lia).
  simpl. rewrite foldl_pure_step_filter, foldl_resets. simpl.
  assert (length ts - 0 = length pp - 1)%nat as -> by (simpl in Hlen; lia).
  fold (reset_indices pp). fold r.
  assert (last (t0 :: ts) = Some t_last) as ->;
    [|simpl; by destruct (decide _)].
  subst t_last. rewrite last_cons. by destruct (last ts).
Qed.

Lemma parse_log_lengths log :
  length (parse_log log).1.1.1 = length (parse_log log).1.1.2.
Proof. unfold parse_log. simpl. by rewrite !length_map. Qed.

Lemma windows_between_length ts k start R :
  length (windows_between ts k start R).1 = length R.
Proof.
  revert k start. induction R as [|i R IH]; intros k start; simpl; auto.
Qed.
End BoundaryFacts.

Section WindowFacts.
Implicit Types (ts : list Z) (R : list nat).

Lemma windows_between_lookup ts R : ∀ k0 start k i,
  R !! k = Some i →
  (windows_between ts k0 start R).1 !! k
  = Some ((k0 + k)%nat, window_start ts start R k, ts !!! (i - 1)%nat).
Proof.
  induction R as [|i0 R IH]; intros k0 start k i Hk; [done|].
  destruct k as [|k]; simpl in *.
  - inversion Hk; subst. by rewrite Nat.add_0_r.
  - rewrite (IH (S k0) (ts !!! i0) k i Hk).
    replace (S k0 + k)%nat with (k0 + S k)%nat by lia.
    by destruct k.
Qed.

Lemma windows_between_open ts R : ∀ k0 start,
  (windows_between ts k0 start R).2 = window_start ts start R (length R).
Proof.
  induction R as [|i0 R IH]; intros k0 start; [done|].
  simpl. rewrite IH. by destruct R.
Qed.


Lemma calculate_block_boundaries_eq log :
  calculate_block_boundaries log
  = boundaries_of (parse_log log).1.1.1 (parse_log log).1.1.2.
Proof. reflexivity. Qed.
End WindowFacts.





(** * Summary statistics *)

Section StatisticsFacts.





End StatisticsFacts.



(** * Common block numbers *)

Section ComparisonFacts.

Lemma int_from_digits s : ∀ acc,
  only_digits s = true → is_Some (int_from acc s).
Proof.
  induction s as [|c s IH]; intros acc; simpl; [by eexists|].
  destruct (digit_value c) as [d|]; [|done]. simpl. apply IH.
Qed.

Lemma py_int_digits s : all_digits s = true → is_Some (py_int s).
Proof.
  destruct s as [|c s]; [done|]. unfold all_digits, py_int.
  apply int_from_digits.
Qed.

Lemma sorted_pairs (ps : list (Z * string)) :
  Forall (λ ky, py_int ky.2 = Some ky.1) ps →
  StronglySorted (key_le fst) ps → StronglySorted int_le ps.*2.
Proof.
  induction ps as [|[k x] ps IH]; simpl; [constructor|].
  intros [Hx Hps]%Forall_cons [Hle Hs]%StronglySorted_cons.
  apply StronglySorted_cons. split; [|by apply IH].
  apply Forall_fmap, Forall_forall. intros [k' y] Hy. simpl.
  eapply Forall_forall in Hle, Hps; [|exact Hy..].
  exists k, k'. done.
Qed.

Lemma sorted_by_int_spec (l : list string) :
  Forall (λ x, all_digits x = true) l →
  ∃ l', sorted_by_int l = Some l' ∧ l' ≡ₚ l ∧ StronglySorted int_le l'.
Proof.
  intros Hd. unfold sorted_by_int.
  set (f := λ x : string, k ← py_int x; Some (k, x)).
  assert (is_Some (mapM f l)) as [keyed Hk].
  { apply mapM_is_Some. eapply Forall_impl; [exact Hd|].
    intros x Hx. apply py_int_digits in Hx as [k Hk].
    subst f. simpl. rewrite Hk. by eexists. }
  rewrite Hk. simpl. apply mapM_Some in Hk.
  assert (keyed.*2 = l ∧ Forall (λ ky, py_int ky.2 = Some ky.1) keyed)
    as [Hsnd Hinv].
  { clear Hd. induction Hk as [|x [k y] l keyed Hf _ [IH1 IH2]];
      [by split|].
    subst f. simpl in Hf. destruct (py_int x) as [k'|] eqn:Hx; [|done].
    simpl in Hf. inversion Hf; subst.
    split; [by simpl; f_equal | by constructor]. }
  eexists. split; [done|]. split.
  - by rewrite py_sorted_perm, Hsnd.
  - apply sorted_pairs; [by rewrite py_sorted_perm | apply py_sorted_sorted].
Qed.

Lemma elem_of_block_numbers {K : Type} (cache : list (K * entry)) x :
  x ∈ block_numbers_of cache
  ↔ ∃ k m, (k, m) ∈ cache ∧ block_number m = x.
Proof.
  unfold block_numbers_of, dict_values.
  rewrite elem_of_list_to_set, list_elem_of_fmap. split.
  - intros (m & -> & (km & -> & Hin)%list_elem_of_fmap).
    destruct km as [k m]. by exists k, m.
  - intros (k & m & Hin & <-). exists m. split; [done|].
    apply list_elem_of_fmap. by exists (k, m).
Qed.
End ComparisonFacts.

(** C8: with both runs present and their block numbers strings of digits,
    whatever the iteration order of the set, the result lists each block
    number that occurs in both runs exactly once, in ascending numeric
    order; for runs with the blocks 100, 101, 103 and 100, 103, 104 it is
    ["100"; "103"]. *)
Theorem common_blocks_sorted_intersection {K1 K2 : Type}
    (set_iter : gset string → list string)
    (cache_1 : list (K1 * entry)) (cache_2 : list (K2 * entry)) :
  (∀ s, NoDup (set_iter s) ∧ ∀ x, x ∈ set_iter s ↔ x ∈ s) →
  (∀ x, x ∈ block_numbers_of cache_1 → all_digits x = true) →
  ∃ l,
    get_common_block_numbers set_iter (Some cache_1) (Some cache_2) = Some l
    ∧ NoDup l
    ∧ (∀ x, x ∈ l ↔ (∃ k m, (k, m) ∈ cache_1 ∧ block_number m = x)
                    ∧ (∃ k m, (k, m) ∈ cache_2 ∧ block_number m = x))
    ∧ StronglySorted int_le l
    ∧ ((∀ x, x ∈ block_numbers_of cache_1 ↔ x ∈ ["100"; "101"; "103"]) →
       (∀ x, x ∈ block_numbers_of cache_2 ↔ x ∈ ["100"; "103"; "104"]) →
       l = ["100"; "103"]).
Proof.
  intros Hiter Hdigits. unfold get_common_block_numbers.
  set (common := block_numbers_of cache_1 ∩ block_numbers_of cache_2).
  destruct (Hiter common) as [Hnd Hel].
  destruct (sorted_by_int_spec (set_iter common)) as (l & Hl & Hperm & Hs).
  { apply Forall_forall. intros x Hx. apply Hdigits.
    apply Hel in Hx. subst common. by apply elem_of_intersection in Hx as []. }
  assert (∀ x, x ∈ l ↔ x ∈ block_numbers_of cache_1
                       ∧ x ∈ block_numbers_of cache_2) as Hmem.
  { intros x. rewrite Hperm, Hel. subst common. apply elem_of_intersection. }
  assert (NoDup l) as Hndl by by rewrite Hperm.
  exists l. split; [done|]. split; [done|]. split; [|split; [done|]].
  - intros x. by rewrite Hmem, !elem_of_block_numbers.
  - intros H1 H2.
    assert (l ≡ₚ ["100"; "103"]) as Hp.
    { apply NoDup_Permutation; [done | |].
      - repeat constructor; rewrite ?elem_of_cons, ?elem_of_nil;
          intros ?; intuition discriminate.
      - intros x. rewrite Hmem, H1, H2.
        rewrite !elem_of_cons, !elem_of_nil.
        split; [|intuition].
        intros [[->|[->|[->|[]]]] [?|[?|[?|[]]]]]; try discriminate; auto. }
    symmetry in Hp. apply Permutation_length_2_inv in Hp as [->| ->]; [done|].
    exfalso. apply StronglySorted_cons in Hs as [Hle _].
    apply Forall_cons in Hle as [(a & b & Ha & Hb & Hab) _].
    vm_compute in Ha, Hb. inversion Ha; inversion Hb; subst. lia.
Qed.

Lemma common_blocks_sorted_intersection_witness :
  let run1 := [ (1, Entry 1 "0xa" "1ms" "100" None None);
                (2, Entry 2 "0xb" "1ms" "101" None None);
                (3, Entry 3 "0xc" "1ms" "103" None None) ] in
  let run2 := [ (4, Entry 4 "0xa" "1ms" "104" None None);
                (5, Entry 5 "0xc" "1ms" "103" None None);
                (6, Entry 6 "0xa" "1ms" "100" None None) ] in
  (∀ s : gset string, NoDup (elements s) ∧ ∀ x, x ∈ elements s ↔ x ∈ s)
  ∧ (∀ x, x ∈ block_numbers_of run1 → all_digits x = true)
  ∧ get_common_block_numbers elements (Some run1) (Some run2)
    = Some ["100"; "103"].
Proof.
  intros run1 run2.
  assert (∀ s : gset string,
            NoDup (elements s) ∧ ∀ x, x ∈ elements s ↔ x ∈ s) as Hiter.
  { intros s. split; [apply NoDup_elements | intros x; apply elem_of_elements]. }
  assert (∀ x, x ∈ block_numbers_of run1 → all_digits x = true) as Hdigits.
  { intros x (k & m & Hin & <-)%elem_of_block_numbers. subst run1.
    rewrite !elem_of_cons, elem_of_nil in Hin.
    destruct Hin as [[= _ ->]|[[= _ ->]|[[= _ ->]|[]]]]; reflexivity. }
  split; [exact Hiter|]. split; [exact Hdigits|].
  destruct (common_blocks_sorted_intersection elements run1 run2
              Hiter Hdigits) as (l & -> & _ & _ & _ & Hex).
  f_equal. apply Hex; intros x; rewrite elem_of_block_numbers;
    subst run1 run2; (split;
      [ intros (k & m & Hin & <-); rewrite !elem_of_cons, elem_of_nil in Hin;
        rewrite !elem_of_cons;
        destruct Hin as [[= _ ->]|[[= _ ->]|[[= _ ->]|[]]]]; simpl; auto
      | rewrite !elem_of_cons, elem_of_nil; intros [->|[->|[->|[]]]];
        first
          [ eexists _, _; split; [apply list_elem_of_here | reflexivity]
          | eexists _, _; split;
            [apply list_elem_of_further, list_elem_of_here | reflexivity]
          | eexists _, _; split;
            [apply list_elem_of_further, list_elem_of_further,
               list_elem_of_here | reflexivity] ] ]).
Defined.

(** * The Log-Window Selector *)

Section SelectorFacts.
Implicit Types (file : list line) (lines : list (Z * string)).

Lemma elem_of_collect want file t txt :
  (t, txt) ∈ collect want file ↔ is_line want file t txt.
Proof.
  unfold collect, is_line. rewrite list_elem_of_omap. split.
  - intros (l & Hin & Hl). exists l. split; [done|].
    destruct (line_timestamp l) as [t'|]; simpl in Hl; [|done].
    destruct (want (kind l)); [|done]. by inversion Hl.
  - intros (l & Hin & Ht & Hw & <-). exists l. split; [done|].
    by rewrite Ht; simpl; rewrite Hw.
Qed.







End SelectorFacts.


(** C10: asked for the second run without a boundary, in a file with
    exactly one BlockAdded line of the block, the selector returns what it
    returns for the first run, ending with that one line, not the empty
    list. *)
Theorem second_run_falls_back_to_single_occurrence
    (file : list line) (block_number : string) :
  length (collect (is_block_added block_number) file) = 1%nat →
  extract_log_lines_for_block file block_number false None
  = extract_log_lines_for_block file block_number true None
  ∧ ∃ bt bl,
      collect (is_block_added block_number) file = [(bt, bl)]
      ∧ last (extract_log_lines_for_block file block_number false None)
        = Some bl.
Proof.
  intros Hlen. unfold extract_log_lines_for_block, all_block_added_lines.
  destruct (collect (is_block_added block_number) file)
    as [|[bt bl] [|? ?]] eqn:Hc; try done.
  simpl. split; [done|]. exists bt, bl. split; [done|].
  by rewrite last_snoc.
Qed.

Lemma second_run_falls_back_to_single_occurrence_witness :
  length (collect (is_block_added "7") file_single_occurrence) = 1%nat
  ∧ extract_log_lines_for_block file_single_occurrence "7" false None
    = extract_log_lines_for_block file_single_occurrence "7" true None
  ∧ ∃ bt bl,
      collect (is_block_added "7") file_single_occurrence = [(bt, bl)]
      ∧ last (extract_log_lines_for_block file_single_occurrence "7"
                false None)
        = Some bl.
Proof.
  split; [reflexivity|].
  exact (second_run_falls_back_to_single_occurrence
           file_single_occurrence "7" eq_refl).
Defined.

Example selector_reorders :
  extract_log_lines_for_block file_single_occurrence "7" true None
  = ["proofs done"; "root of 7"; "added 7"].
Proof. reflexivity. Qed.

(** * Further properties of the Correlator *)

Section CorrelatorProvenance.
Implicit Types (bd : blocks_data_t) (e r : entry) (log evs : list event).

Lemma blocks_from_get log bd n es :
  blocks_from log bd → dict_get n bd = Some es → Forall (entry_from log n) es.
Proof.
  intros Hall Hg%dict_get_Some_elem.
  by eapply Forall_forall in Hall; [|exact Hg].
Qed.

Lemma add_block_from log bd ev :
  ev ∈ log → blocks_from log bd → blocks_from log (add_block bd ev).
Proof.
  intros Hev Hall. destruct ev; simpl; try done.
  assert (entry_from log number (Entry ts hash elapsed number None None))
    as Hnew by (split; [done|]; split; [done|]; by intros v).
  unfold dict_append. destruct (dict_get number bd) as [es|] eqn:Hg.
  - apply Forall_dict_set; [|done]. simpl.
    apply Forall_app. split; [by eapply blocks_from_get|].
    by repeat constructor.
  - apply Forall_dict_set; [|done]. by repeat constructor.
Qed.

Lemma add_root_from log bd ev :
  ev ∈ log → blocks_from log bd → blocks_from log (add_root bd ev).
Proof.
  intros Hev Hall. destruct ev; simpl; try done.
  destruct (dict_get number bd) as [es|] eqn:Hg; [|done].
  destruct (closest_entry ts es) as [i|]; [|done].
  apply Forall_dict_set; [|done]. simpl.
  apply Forall_alter; [by eapply blocks_from_get|].
  intros e _ (Hn & Hadd & _). split; [done|]. split; [done|].
  simpl. intros v [= <-]. by exists ts, hash.
Qed.

Lemma foldl_from log (f : blocks_data_t → event → blocks_data_t) evs bd :
  (∀ bd ev, ev ∈ log → blocks_from log bd → blocks_from log (f bd ev)) →
  (∀ ev, ev ∈ evs → ev ∈ log) →
  blocks_from log bd → blocks_from log (foldl f bd evs).
Proof.
  intros Hf. revert bd. induction evs as [|ev evs IH]; simpl; [done|].
  intros bd Hsub Hall. apply IH.
  - intros ev' Hin. apply Hsub. by apply list_elem_of_further.
  - apply Hf; [|done]. apply Hsub, list_elem_of_here.
Qed.

Lemma blocks_after_roots_from log :
  blocks_from log (blocks_after_roots log).
Proof.
  unfold blocks_after_roots.
  apply foldl_from; [apply add_root_from | done |].
  apply foldl_from; [apply add_block_from | done | constructor].
Qed.

Lemma record_entry_from log k r :
  (k, r) ∈ extract_block_metadata log →
  k = timestamp r ∧ entry_from log (block_number r) r.
Proof.
  unfold extract_block_metadata.
  intros [-> Hin]%by_timestamp_elem. split; [done|].
  rewrite all_entries_attach in Hin.
  apply list_elem_of_fmap in Hin as (e & -> & He).
  apply elem_of_concat in He as (es & He & Hes).
  apply list_elem_of_fmap in Hes as ([n es'] & -> & Hkv).
  pose proof (blocks_after_roots_from log) as Hall.
  eapply Forall_forall in Hall; [|exact Hkv].
  eapply Forall_forall in Hall; [|exact He].
  simpl in Hall. destruct Hall as (Hn & Hadd & Hroot). subst n.
  unfold attach_proof. by destruct (matched_proof _ e).
Qed.
End CorrelatorProvenance.

(** X1: every record of the result is stored under its own timestamp, no
    two records share a key, and looking a record's key up gives that
    record. *)
Theorem records_keyed_by_own_timestamp (log : list event) :
  NoDup (dict_keys (extract_block_metadata log))
  ∧ ∀ k r, (k, r) ∈ extract_block_metadata log →
           k = timestamp r
           ∧ dict_get k (extract_block_metadata log) = Some r.
Proof.
  pose proof (extract_block_metadata_NoDup log) as Hnd. split; [done|].
  intros k r Hin. split; [by apply by_timestamp_elem in Hin as []|].
  by apply elem_of_dict_get.
Qed.

(** X2: the block number, hash and elapsed time of a record are those of
    one BlockAdded event of the log at the record's instant; nothing is
    mixed from two events and nothing is made up. *)
Theorem record_comes_from_block_added (log : list event) (k : Z) (r : entry) :
  (k, r) ∈ extract_block_metadata log →
  BlockAdded k (block_number r) (block_hash r) (elapsed_time r) ∈ log.
Proof.
  intros [-> (_ & Hadd & _)]%record_entry_from. exact Hadd.
Qed.

Lemma record_comes_from_block_added_witness :
  let r := Entry (seconds 3) "0xab" "2ms" "100" None (Some "7ms") in
  (seconds 3, r) ∈ extract_block_metadata log_proof_at_block_instant
  ∧ BlockAdded (seconds 3) (block_number r) (block_hash r) (elapsed_time r)
      ∈ log_proof_at_block_instant.
Proof.
  intros r.
  assert ((seconds 3, r) ∈ extract_block_metadata log_proof_at_block_instant)
    as Hin by (vm_compute; apply list_elem_of_here).
  split; [exact Hin|].
  exact (record_comes_from_block_added _ _ _ Hin).
Defined.

(** X3: a record has a root_elapsed only when the log has a
    StateRootCalculated event with that value for the record's own block
    number; a block number without such an event never gets one. *)
Theorem root_elapsed_only_from_same_block (log : list event) (k : Z)
    (r : entry) (v : string) :
  (k, r) ∈ extract_block_metadata log →
  root_elapsed r = Some v →
  ∃ ts h, StateRootCalculated ts v (block_number r) h ∈ log.
Proof.
  intros [_ (_ & _ & Hroot)]%record_entry_from Hv. by apply Hroot.
Qed.

Lemma root_elapsed_only_from_same_block_witness :
  let r := Entry 0 "0xab" "2ms" "100" (Some "9ms") None in
  (0, r) ∈ extract_block_metadata log_two_root_events
  ∧ root_elapsed r = Some "9ms"
  ∧ ∃ ts h, StateRootCalculated ts "9ms" (block_number r) h
              ∈ log_two_root_events.
Proof.
  intros r.
  assert ((0, r) ∈ extract_block_metadata log_two_root_events)
    as Hin by (vm_compute; apply list_elem_of_here).
  split; [exact Hin|]. split; [reflexivity|].
  exact (root_elapsed_only_from_same_block _ _ _ _ Hin eq_refl).
Defined.

Section CorrelatorCoverage.
Implicit Types (bd : blocks_data_t) (e : entry) (log evs : list event).

Lemma dict_append_cons {K A : Type} `{EqDecision K} (k k0 : K) (x : A)
    (v0 : list A) (d : list (K * list A)) :
  dict_append k x ((k0, v0) :: d)
  = if decide (k = k0) then (k, v0 ++ [x]) :: d
    else (k0, v0) :: dict_append k x d.
Proof.
  unfold dict_append. simpl. destruct (decide (k = k0)) as [->|Hne]; [done|].
  by destruct (dict_get k d).
Qed.

Lemma all_entries_append bd n x e :
  e ∈ all_entries (dict_append n x bd) ↔ e = x ∨ e ∈ all_entries bd.
Proof.
  unfold all_entries, dict_values.
  induction bd as [|[k0 v0] bd IH].
  - unfold dict_append. simpl. rewrite ?app_nil_r, list_elem_of_singleton.
    rewrite elem_of_nil. tauto.
  - rewrite dict_append_cons. destruct (decide (n = k0)) as [->|Hne]; simpl.
    + rewrite !elem_of_app, list_elem_of_singleton. tauto.
    + rewrite !elem_of_app, IH. tauto.
Qed.

Lemma fmap_alter_same {A B : Type} (g : A → B) (f : A → A) (l : list A) i :
  (∀ x, g (f x) = g x) → g <$> alter f i l = g <$> l.
Proof.
  intros Hgf. revert i. induction l as [|a l IH]; intros [|i]; simpl; try done.
  - by rewrite Hgf.
  - f_equal. apply IH.
Qed.

Lemma stamps_set_altered bd n es i (f : entry → entry) :
  (∀ e, timestamp (f e) = timestamp e) →
  dict_get n bd = Some es →
  timestamp <$> all_entries (dict_set n (alter f i es) bd)
  = timestamp <$> all_entries bd.
Proof.
  intros Hf. unfold all_entries, dict_values.
  induction bd as [|[k0 v0] bd IH]; simpl; [done|].
  destruct (decide (n = k0)) as [->|Hne]; simpl.
  - intros [= ->]. rewrite !fmap_app. f_equal. by apply fmap_alter_same.
  - intros Hg. rewrite !fmap_app. f_equal. by apply IH.
Qed.

Lemma stamps_add_root bd ev :
  timestamp <$> all_entries (add_root bd ev) = timestamp <$> all_entries bd.
Proof.
  destruct ev; simpl; try done.
  destruct (dict_get number bd) as [es|] eqn:Hg; [|done].
  destruct (closest_entry ts es) as [i|]; [|done].
  by apply stamps_set_altered.
Qed.

Lemma stamps_after_roots log t :
  (∃ n h el, BlockAdded t n h el ∈ log) →
  t ∈ timestamp <$> all_entries (blocks_after_roots log).
Proof.
  unfold blocks_after_roots. intros Hev.
  assert (∀ evs bd, timestamp <$> all_entries (foldl add_root bd evs)
                    = timestamp <$> all_entries bd) as Hroots.
  { induction evs as [|ev evs IH]; simpl; [done|].
    intros bd. by rewrite IH, stamps_add_root. }
  rewrite Hroots.
  assert (∀ evs bd,
    (t ∈ timestamp <$> all_entries bd ∨ ∃ n h el, BlockAdded t n h el ∈ evs) →
    t ∈ timestamp <$> all_entries (foldl add_block bd evs)) as Hblocks.
  { induction evs as [|ev evs IH]; simpl; intros bd Hor.
    - destruct Hor as [?|(n & h & el & Hin)]; [done|].
      by apply elem_of_nil in Hin.
    - apply IH. destruct Hor as [Hin|(n & h & el & Hin)].
      + left. apply list_elem_of_fmap in Hin as (e & -> & He).
        apply list_elem_of_fmap. exists e. split; [done|].
        destruct ev; simpl; try done. apply all_entries_append. by right.
      + apply elem_of_cons in Hin as [<-|Hin]; [|right; by exists n, h, el].
        left. simpl. apply list_elem_of_fmap.
        exists (Entry t h el n None None). split; [done|].
        apply all_entries_append. by left. }
  apply Hblocks. by right.
Qed.

Lemma by_timestamp_covers bd e :
  e ∈ all_entries bd →
  ∃ r, dict_get (timestamp e) (by_timestamp bd) = Some r
       ∧ timestamp r = timestamp e.
Proof.
  unfold by_timestamp. fold (all_entries bd).
  generalize (all_entries bd). intros es.
  assert (∀ es (md : list (Z * entry)),
    ((∃ r, dict_get (timestamp e) md = Some r ∧ timestamp r = timestamp e)
     ∨ e ∈ es) →
    ∃ r, dict_get (timestamp e)
           (foldl (λ md e, dict_set (timestamp e) e md) md es) = Some r
         ∧ timestamp r = timestamp e) as Hgen.
  { clear es. induction es as [|e' es IH]; simpl; intros md Hor.
    - destruct Hor as [?|Hin]; [done|]. by apply elem_of_nil in Hin.
    - apply IH. rewrite dict_get_set.
      destruct (decide (timestamp e = timestamp e')) as [Heq|Hne].
      + left. by exists e'.
      + destruct Hor as [?|[->|Hin]%elem_of_cons]; [by left | done | by right]. }
  intros Hin. apply Hgen. by right.
Qed.
End CorrelatorCoverage.

(** X4: no BlockAdded instant is lost: the timestamp of every BlockAdded
    event of the log is a key of the result, holding a record of that
    instant; and the result is empty exactly when the log has no BlockAdded
    event. *)
Theorem every_block_added_instant_is_a_key (log : list event) :
  (∀ ts n h el, BlockAdded ts n h el ∈ log →
     ∃ r, dict_get ts (extract_block_metadata log) = Some r
          ∧ timestamp r = ts)
  ∧ (extract_block_metadata log = []
     ↔ ∀ ts n h el, BlockAdded ts n h el ∉ log).
Proof.
  assert (∀ ts n h el, BlockAdded ts n h el ∈ log →
     ∃ r, dict_get ts (extract_block_metadata log) = Some r
          ∧ timestamp r = ts) as Hcover.
  { intros ts n h el Hin. unfold extract_block_metadata.
    assert (ts ∈ timestamp <$> all_entries
              (attach_proofs (proof_times log) (blocks_after_roots log)))
      as Hts.
    { rewrite all_entries_attach, <- list_fmap_compose.
      assert (∃ n h el, BlockAdded ts n h el ∈ log) as Hex by eauto.
      apply stamps_after_roots in Hex.
      apply list_elem_of_fmap in Hex as (e & -> & He).
      apply list_elem_of_fmap. exists e. split; [|done].
      simpl. unfold attach_proof. by destruct (matched_proof _ e). }
    apply list_elem_of_fmap in Hts as (e & -> & He).
    by apply by_timestamp_covers. }
  split; [exact Hcover|]. split.
  - intros Hnil ts n h el Hin.
    destruct (Hcover ts n h el Hin) as (r & Hr & _).
    rewrite Hnil in Hr. done.
  - intros Hnone. destruct (extract_block_metadata log) as [|[k r] md] eqn:Hmd;
      [done|]. exfalso.
    apply (Hnone k (block_number r) (block_hash r) (elapsed_time r)).
    assert ((k, r) ∈ extract_block_metadata log) as Hin
      by (rewrite Hmd; apply list_elem_of_here).
    by apply record_entry_from in Hin as [-> (_ & Hadd & _)].
Qed.

(** * Further properties of the Run Splitter *)

Section RunSplitterBlocks.
Implicit Types (all : list (Z * entry)) (b : string).

Lemma pick_of_nonempty (pick : string * list (Z * entry) →
                               option (run_key * entry)) all b :
  (pick = first_pick ∨ pick = second_pick) →
  occurrences_of b all ≠ [] →
  ∃ k m, pick (b, occurrences_of b all) = Some (k, m).
Proof.
  intros Hpick Hne.
  assert (py_sorted fst (occurrences_of b all) ≠ []) as Hs.
  { intros Hnil. apply Hne. apply length_zero_iff_nil.
    by rewrite <- (length_py_sorted fst), Hnil. }
  destruct Hpick as [-> | ->]; unfold first_pick, second_pick; simpl;
    destruct (py_sorted fst (occurrences_of b all))
      as [|[t1 m1] [|[t2 m2] rest]]; try done; eauto.
Qed.

Lemma run_block_numbers (pick : string * list (Z * entry) →
                                option (run_key * entry)) all :
  (pick = first_pick ∨ pick = second_pick) →
  NoDup (dict_keys all) →
  block_numbers_of
    (foldl (λ r g, opt_set (pick g) r) [] (block_occurrences all))
  = block_numbers_of all.
Proof.
  intros Hpick Hnd.
  assert (∀ g kv, pick g = Some kv →
            first_pick g = Some kv ∨ second_pick g = Some kv) as Hor
    by (destruct Hpick as [-> | ->]; auto).
  apply set_eq. intros x. rewrite !elem_of_block_numbers. split.
  - intros (k & m & Hin & Hb).
    pose proof (run_record_is_pick pick all x k m Hor Hin Hb) as Hsel.
    destruct (pick_in_group _ k m (Hor _ _ Hsel)) as (t & Ht & _).
    simpl in Ht. apply elem_of_occurrences in Ht as [_ Ht]. by exists t, m.
  - intros (k & m & Hin & Hb).
    assert (occurrences_of x all ≠ []) as Hne.
    { intros Hnil. assert ((k, m) ∈ occurrences_of x all) as Ho
        by by apply elem_of_occurrences.
      rewrite Hnil in Ho. by apply elem_of_nil in Ho. }
    destruct (pick_of_nonempty pick all x Hpick Hne) as (k' & m' & Hsel).
    exists k', m'. split.
    + apply dict_get_Some_elem. by apply (pick_is_run_record pick all x).
    + destruct (pick_in_group _ k' m' (Hor _ _ Hsel)) as (t & Ht & _).
      simpl in Ht. by apply elem_of_occurrences in Ht as [? _].
Qed.
End RunSplitterBlocks.

(** X5: each of the two runs split from one file holds exactly the block
    numbers of the file, so every block number of the file is common to
    both runs and none is dropped by the split. *)
Theorem split_runs_keep_every_block_number (log : list event) :
  block_numbers_of (extract_block_metadata_from_single_file log).1
  = block_numbers_of (extract_block_metadata log)
  ∧ block_numbers_of (extract_block_metadata_from_single_file log).2
    = block_numbers_of (extract_block_metadata log).
Proof.
  unfold extract_block_metadata_from_single_file.
  rewrite split_runs_picks. simpl.
  pose proof (extract_block_metadata_NoDup log) as Hnd.
  split; apply run_block_numbers; auto.
Qed.

(** * Run-mode detection *)

Import ModeDetection.

Section ModeDetectionFacts.
Implicit Types (all : list (Z * entry)) (b : string).

Lemma count_occurrences_get all b :
  dict_get b (foldl count_occurrence [] all)
  = match occurrences_of b all with
    | [] => None
    | l => Some (Z.of_nat (length l))
    end.
Proof.
  induction all as [|x all IH] using rev_ind; [done|].
  rewrite foldl_app. simpl. unfold count_occurrence at 1.
  rewrite dict_get_set. unfold occurrences_of in *. rewrite filter_app.
  destruct (decide (b = block_number x.2)) as [->|Hne].
  - rewrite filter_cons_True by done. rewrite filter_nil, IH.
    destruct (filter _ all) as [|y l]; simpl; [done|].
    f_equal. rewrite length_app. simpl. lia.
  - rewrite filter_cons_False by done. rewrite filter_nil, app_nil_r.
    exact IH.
Qed.

Lemma count_occurrences_NoDup all :
  NoDup (dict_keys (foldl count_occurrence [] all)).
Proof.
  induction all as [|x all IH] using rev_ind; [constructor|].
  rewrite foldl_app. simpl. by apply dict_set_NoDup.
Qed.

Lemma duplicate_blocks_spec all b :
  b ∈ duplicate_blocks all ↔ (2 ≤ length (occurrences_of b all))%nat.
Proof.
  unfold duplicate_blocks. rewrite list_elem_of_fmap. split.
  - intros ([b' c] & -> & Hin). apply list_elem_of_In, filter_In in Hin.
    destruct Hin as [Hin Hc]. apply list_elem_of_In in Hin.
    apply elem_of_dict_get in Hin; [|apply count_occurrences_NoDup].
    rewrite count_occurrences_get in Hin. simpl in *.
    destruct (occurrences_of b' all) as [|y l]; [done|].
    inversion Hin; subst. apply Z.ltb_lt in Hc. simpl. lia.
  - intros Hlen. exists (b, Z.of_nat (length (occurrences_of b all))).
    split; [done|]. apply list_elem_of_In, filter_In. split.
    + apply list_elem_of_In, dict_get_Some_elem.
      rewrite count_occurrences_get.
      destruct (occurrences_of b all) as [|y l]; [simpl in Hlen; lia | done].
    + simpl. apply Z.ltb_lt. lia.
Qed.

Lemma two_keys_of_long_list (l : list (Z * entry)) :
  NoDup l.*1 → (2 ≤ length l)%nat →
  ∃ t1 m1 t2 m2, (t1, m1) ∈ l ∧ (t2, m2) ∈ l ∧ t1 ≠ t2.
Proof.
  destruct l as [|[t1 m1] [|[t2 m2] l]]; simpl; try lia.
  intros [Hn _]%NoDup_cons _. exists t1, m1, t2, m2.
  split; [apply list_elem_of_here|].
  split; [apply list_elem_of_further, list_elem_of_here|].
  intros ->. apply Hn, list_elem_of_here.
Qed.
End ModeDetectionFacts.

(** X6: single-file mode is reported exactly when no distinct second path
    is given and some block number has two or more records in the first
    file; the second path is then dropped.  In every other case the answer
    is dual-file mode with both paths unchanged.  Single-file mode implies
    that the file has two BlockAdded events of one block number at
    different instants. *)
Theorem single_file_mode_iff_duplicate_block
    (read : string → list event) (log_file_1 : string)
    (log_file_2 : option string) :
  let all := extract_block_metadata (read log_file_1) in
  let duplicated :=
    (log_file_2 = None ∨ log_file_2 = Some log_file_1)
    ∧ ∃ b, (2 ≤ length (occurrences_of b all))%nat in
  (duplicated →
   detect_single_or_dual_file read log_file_1 log_file_2
   = (true, log_file_1, None)
   ∧ ∃ b t1 h1 el1 t2 h2 el2,
       t1 ≠ t2 ∧ BlockAdded t1 b h1 el1 ∈ read log_file_1
       ∧ BlockAdded t2 b h2 el2 ∈ read log_file_1)
  ∧ (¬ duplicated →
     detect_single_or_dual_file read log_file_1 log_file_2
     = (false, log_file_1, log_file_2)).
Proof.
  intros all duplicated. unfold detect_single_or_dual_file. fold all.
  split.
  - intros [Hsame (b & Hlen)]. rewrite bool_decide_eq_true_2 by done.
    pose proof (proj2 (duplicate_blocks_spec all b) Hlen) as Hdup.
    split.
    + destruct (duplicate_blocks all); [by apply elem_of_nil in Hdup | done].
    + pose proof (extract_block_metadata_NoDup (read log_file_1)) as Hnd.
      fold all in Hnd.
      destruct (two_keys_of_long_list (occurrences_of b all))
        as (t1 & m1 & t2 & m2 & H1 & H2 & Hne); [|done|].
      { eapply sublist_NoDup; [exact Hnd|].
        apply fmap_sublist. unfold occurrences_of. apply sublist_filter. }
      apply elem_of_occurrences in H1 as [Hb1 H1], H2 as [Hb2 H2].
      apply record_entry_from in H1 as [-> (_ & Ha1 & _)].
      apply record_entry_from in H2 as [-> (_ & Ha2 & _)].
      rewrite Hb1 in Ha1. rewrite Hb2 in Ha2. eauto 10.
  - intros Hnot. destruct (bool_decide _) eqn:Hsame; [|done].
    apply bool_decide_eq_true in Hsame.
    destruct (duplicate_blocks all) as [|b l] eqn:Hd; [done|].
    exfalso. apply Hnot. split; [done|]. exists b.
    apply duplicate_blocks_spec. rewrite Hd. apply list_elem_of_here.
Qed.

Lemma single_file_mode_iff_duplicate_block_witness :
  let log := [ BlockAdded 10 "100" "0xab" "2ms";
               BlockAdded 30 "100" "0xab" "3ms" ] in
  let all := extract_block_metadata log in
  ((@None string = None ∨ None = Some "run.log")
   ∧ ∃ b, (2 ≤ length (occurrences_of b all))%nat)
  ∧ detect_single_or_dual_file (λ _, log) "run.log" None
    = (true, "run.log", None).
Proof.
  intros log all.
  assert ((@None string = None ∨ None = Some "run.log")
          ∧ ∃ b, (2 ≤ length (occurrences_of b all))%nat) as Hdup.
  { split; [by left|]. exists "100". vm_compute. lia. }
  split; [exact Hdup|].
  exact (proj1 (proj1 (single_file_mode_iff_duplicate_block
                         (λ _, log) "run.log" None) Hdup)).
Defined.

(** * Further properties of the Log-Window Selector *)

Section SelectionFacts.
Implicit Types (lines : list (Z * string)).

Lemma head_filter_find {A : Type} (f : A → bool) (l : list A) :
  head (List.filter f l) = List.find f l.
Proof.
  induction l as [|a l IH]; simpl; [done|]. by destruct (f a).
Qed.

Lemma all_block_added_lines_sorted file block_number :
  StronglySorted (key_le fst) (all_block_added_lines file block_number).
Proof. apply py_sorted_sorted. Qed.
End SelectionFacts.

(** X7: in the two-run mode (a boundary and at least two BlockAdded lines
    of the block) the line chosen for the first run is the earliest one
    strictly before the boundary, and the line chosen for the second run is
    the earliest one at or after the boundary. *)
Theorem boundary_selects_earliest_on_its_side
    (file : list line) (block_number : string) (is_first_run : bool)
    (boundary bt : Z) (bl : string) :
  let added := all_block_added_lines file block_number in
  let on_side (t : Z) := if is_first_run then t < boundary else boundary ≤ t in
  (2 ≤ length added)%nat →
  choose_block_added added is_first_run (Some boundary) = Some (bt, bl) →
  is_line (is_block_added block_number) file bt bl
  ∧ on_side bt
  ∧ ∀ t txt, is_line (is_block_added block_number) file t txt →
             on_side t → bt ≤ t.
Proof.
  intros added on_side Hlen Hc.
  assert (∀ t txt, (t, txt) ∈ added
                   ↔ is_line (is_block_added block_number) file t txt) as Hel.
  { intros t txt. subst added. unfold all_block_added_lines.
    by rewrite elem_of_py_sorted, elem_of_collect. }
  pose proof (all_block_added_lines_sorted file block_number) as Hs.
  fold added in Hs. unfold choose_block_added in Hc.
  apply Nat.leb_le in Hlen. rewrite Hlen in Hc.
  subst on_side. destruct is_first_run; rewrite head_filter_find in Hc;
    apply (find_sorted_least fst) in Hc as (Hin & Hf & Hmin); try done;
    simpl in Hf.
  - apply Z.ltb_lt in Hf. split; [by apply Hel|]. split; [done|].
    intros t txt Ht Hside. apply (Hmin (t, txt)); [by apply Hel|].
    simpl. by apply Z.ltb_lt.
  - apply negb_true_iff, Z.ltb_ge in Hf. split; [by apply Hel|].
    split; [done|].
    intros t txt Ht Hside. apply (Hmin (t, txt)); [by apply Hel|].
    simpl. by apply negb_true_iff, Z.ltb_ge.
Qed.

Lemma boundary_selects_earliest_on_its_side_witness :
  let added := all_block_added_lines file_two_runs "7" in
  (2 ≤ length added)%nat
  ∧ choose_block_added added false (Some (seconds 25))
    = Some (seconds 40, "added 7 again")
  ∧ seconds 25 ≤ seconds 40.
Proof.
  intros added.
  assert (2 ≤ length added)%nat as Hlen by (vm_compute; lia).
  assert (choose_block_added added false (Some (seconds 25))
          = Some (seconds 40, "added 7 again")) as Hc by reflexivity.
  split; [exact Hlen|]. split; [exact Hc|].
  exact (proj1 (proj2 (boundary_selects_earliest_on_its_side
                         file_two_runs "7" false (seconds 25) (seconds 40)
                         "added 7 again" Hlen Hc))).
Defined.

(** X8: without a boundary the first run gets the earliest BlockAdded line
    of the block; the second run gets the second earliest when there are at
    least two, and the only line when there is one. *)
Theorem no_boundary_selects_by_rank
    (file : list line) (block_number : string) (is_first_run : bool)
    (bt : Z) (bl : string) :
  let collected := collect (is_block_added block_number) file in
  choose_block_added (all_block_added_lines file block_number)
                     is_first_run None = Some (bt, bl) →
  if is_first_run || Nat.eqb (length collected) 1
  then ∃ others, collected ≡ₚ (bt, bl) :: others
                 ∧ Forall (λ x, bt ≤ x.1) others
  else ∃ t0 txt0 others,
         collected ≡ₚ (t0, txt0) :: (bt, bl) :: others
         ∧ t0 ≤ bt ∧ Forall (λ x, bt ≤ x.1) others.
Proof.
  intros collected. unfold choose_block_added, all_block_added_lines.
  fold collected.
  pose proof (py_sorted_perm fst collected) as Hperm.
  pose proof (py_sorted_sorted fst collected) as Hs.
  rewrite (length_py_sorted fst collected).
  destruct (is_first_run || Nat.eqb (length collected) 1).
  - destruct (py_sorted fst collected) as [|x l]; simpl; [done|].
    intros [= ->]. exists l. split; [done|].
    apply StronglySorted_cons in Hs as [Hle _]. exact Hle.
  - destruct (py_sorted fst collected) as [|[t0 txt0] [|x l]]; simpl;
      try done.
    intros [= ->]. exists t0, txt0, l. split; [done|].
    apply StronglySorted_cons in Hs as [Hle0 Hs].
    apply StronglySorted_cons in Hs as [Hle _].
    apply Forall_cons in Hle0 as [Hle0 _]. done.
Qed.

Lemma no_boundary_selects_by_rank_witness :
  let collected := collect (is_block_added "7") file_two_runs in
  choose_block_added (all_block_added_lines file_two_runs "7") false None
  = Some (seconds 40, "added 7 again")
  ∧ ∃ t0 txt0 others,
      collected ≡ₚ (t0, txt0) :: (seconds 40, "added 7 again") :: others
      ∧ t0 ≤ seconds 40 ∧ Forall (λ x, seconds 40 ≤ x.1) others.
Proof.
  intros collected. split; [reflexivity|].
  exact (no_boundary_selects_by_rank file_two_runs "7" false (seconds 40)
           "added 7 again" eq_refl).
Defined.

(** * Further properties of the statistics *)


(** * Further properties of the Boundary Reconstructor *)

Section WindowShape.
Implicit Types (ts pp : list Z) (R : list nat).

Lemma filter_seq_gap (P : nat → Prop) `{∀ x, Decision (P x)} a m k i :
  filter P (seq a m) !! k = Some i →
  (a + k ≤ i < a + m)%nat
  ∧ ∀ i', filter P (seq a m) !! S k = Some i' → (i < i')%nat.
Proof.
  revert a k i. induction m as [|m IH]; intros a k i; [done|].
  simpl. rewrite filter_cons. destruct (decide (P a)) as [Hp|Hp].
  - destruct k as [|k]; simpl.
    + intros [= <-]. split; [lia|]. intros i' Hi'.
      apply (IH (S a) 0%nat) in Hi' as [? _]. lia.
    + intros Hi. destruct (IH (S a) k i Hi) as [? Hnext]. split; [lia|].
      exact Hnext.
  - intros Hi. destruct (IH (S a) k i Hi) as [? Hnext]. split; [lia|].
    exact Hnext.
Qed.

Lemma reset_indices_gap pp k i :
  reset_indices pp !! k = Some i →
  (1 + k ≤ i < length pp)%nat
  ∧ ∀ i', reset_indices pp !! S k = Some i' → (i < i')%nat.
Proof.
  intros Hk. apply filter_seq_gap in Hk as [Hr Hnext].
  split; [lia | exact Hnext].
Qed.

(** The index of the sample at which window [k] starts. *)
Lemma window_start_index ts t0 R k :
  window_start (t0 :: ts) t0 R k
  = (t0 :: ts) !!! match k with O => 0%nat | S k' => R !!! k' end.
Proof. by destruct k. Qed.

Lemma last_lookup_total t0 ts :
  default t0 (last ts) = (t0 :: ts) !!! length ts.
Proof.
  revert t0. induction ts as [|t ts IH]; intros t0; [done|].
  rewrite last_cons. specialize (IH t). simpl in *.
  destruct (last ts); simpl in *; done.
Qed.
End WindowShape.

Section WindowShapeProof.

(** The windows as ranges of sample indices: window [k] runs from sample
    [first k] to a sample [j >= first k], the first window starts at sample
    0 and each next one starts at the sample after the end of the one
    before. *)
Lemma windows_shape (log : list event) (ws : list window) :
  calculate_block_boundaries log = Some ws →
  let ts := (parse_log log).1.1.1 in
  (length ws ≤ length ts - 1)%nat
  ∧ ∃ first : nat → nat,
      first 0%nat = 0%nat
      ∧ ∀ k w, ws !! k = Some w →
          ∃ j, (first k ≤ j < length ts)%nat
               ∧ w = (k, ts !!! first k, ts !!! j)
               ∧ (is_Some (ws !! S k) → first (S k) = S j).
Proof.
  intros Hc ts. rewrite calculate_block_boundaries_eq in Hc.
  pose proof (parse_log_lengths log) as Hlen. fold ts in Hc, Hlen.
  set (pp := (parse_log log).1.1.2) in *. clearbody ts pp.
  destruct ts as [|t0 rest].
  { simpl in Hc. inversion Hc; subst. split; [simpl; lia|].
    exists (λ _, 0%nat). split; [done|]. by intros k w. }
  rewrite boundaries_closed_form in Hc by done. cbv zeta in Hc.
  set (R := reset_indices pp) in *.
  set (full := t0 :: rest) in *.
  set (idx := λ k : nat, match k with O => 0%nat | S k' => R !!! k' end).
  set (r := windows_between full 0 t0 R) in *.
  assert (length r.1 = length R) as Hlenr by apply windows_between_length.
  assert (r.2 = full !!! idx (length R)) as Hopen.
  { subst r. rewrite windows_between_open. apply window_start_index. }
  assert (∀ k i, R !! k = Some i →
            r.1 !! k = Some (k, full !!! idx k, full !!! (i - 1)%nat))
    as Hlook.
  { intros k i Hk. subst r. unfold full.
    rewrite (windows_between_lookup _ _ 0%nat t0 k i Hk).
    by rewrite window_start_index. }
  assert (∀ k i, R !! k = Some i →
            (1 + k ≤ i < S (length rest))%nat
            ∧ ∀ i', R !! S k = Some i' → (i < i')%nat) as Hgap.
  { intros k i Hk. apply reset_indices_gap in Hk as [? ?].
    simpl in Hlen. split; [lia | done]. }
  assert (∀ k i, R !! k = Some i → (idx k ≤ i - 1)%nat ∧ idx (S k) = i)
    as Hidx.
  { intros k i Hk. split; [|simpl; by apply list_lookup_total_correct].
    destruct (Hgap k i Hk) as [Hr _]. destruct k as [|k]; simpl; [lia|].
    destruct (R !! k) as [i0|] eqn:Hk0.
    - rewrite (list_lookup_total_correct _ _ _ Hk0).
      destruct (Hgap k i0 Hk0) as [_ Hn]. specialize (Hn i Hk). lia.
    - apply lookup_ge_None in Hk0. apply lookup_lt_Some in Hk. lia. }
  assert (idx (length R) ≤ length rest)%nat as Hopen_le.
  { destruct (length R) as [|m] eqn:HR; simpl; [lia|].
    destruct (R !! m) as [i|] eqn:Hm.
    - rewrite (list_lookup_total_correct _ _ _ Hm).
      destruct (Hgap m i Hm). lia.
    - apply lookup_ge_None in Hm. lia. }
  assert (∀ k w, r.1 !! k = Some w →
            ∃ j, (idx k ≤ j < S (length rest))%nat
                 ∧ idx (S k) = S j
                 ∧ w = (k, full !!! idx k, full !!! j)) as Hclosed.
  { intros k w Hw. assert (k < length R)%nat as Hk
      by (rewrite <- Hlenr; by eapply lookup_lt_Some).
    apply lookup_lt_is_Some in Hk as [i Hi].
    destruct (Hgap k i Hi) as [Hr _]. destruct (Hidx k i Hi) as [Hle Hnext].
    exists (i - 1)%nat. replace (S (i - 1)) with i by lia.
    split; [lia|]. split; [done|].
    rewrite (Hlook k i Hi) in Hw. by inversion Hw. }
  rewrite last_lookup_total in Hc. fold full in Hc.
  unfold window in *.
  destruct (decide (r.2 ≠ full !!! length rest)) as [Hne|Heq];
    inversion Hc; subst ws; clear Hc.
  - assert (idx (length R) ≠ length rest) as Hidxne
      by (intros Heq; apply Hne; by rewrite Hopen, Heq).
    split.
    + rewrite length_app, Hlenr. simpl.
      destruct (length R) as [|m] eqn:HR; simpl in *; [lia|].
      destruct (R !! m) as [i|] eqn:Hm.
      * rewrite (list_lookup_total_correct _ _ _ Hm) in *.
        destruct (Hgap m i Hm). lia.
      * apply lookup_ge_None in Hm. lia.
    + exists idx. split; [done|]. intros k w Hw.
      destruct (decide (k < length r.1)%nat) as [Hk|Hk].
      * rewrite lookup_app_l in Hw by done.
        destruct (Hclosed k w Hw) as (j & Hr & Hnext & ->).
        exists j. split; [unfold full; simpl; lia|]. by split.
      * rewrite lookup_app_r in Hw by lia.
        destruct (k - length r.1)%nat as [|d] eqn:Hd; [|done].
        simpl in Hw. inversion Hw; subst w.
        assert (k = length r.1) as -> by lia.
        exists (length rest). rewrite Hlenr.
        split; [unfold full; simpl; lia|]. split; [by rewrite Hopen|].
        intros [w' Hw']. apply lookup_lt_Some in Hw'.
        rewrite length_app in Hw'. simpl in Hw'. lia.
  - split.
    + rewrite Hlenr. simpl.
      destruct (length R) as [|m] eqn:HR; [lia|].
      destruct (R !! m) as [i|] eqn:Hm.
      * destruct (Hgap m i Hm). lia.
      * apply lookup_ge_None in Hm. lia.
    + exists idx. split; [done|]. intros k w Hw.
      destruct (Hclosed k w Hw) as (j & Hr & Hnext & ->).
      exists j. split; [unfold full; simpl; lia|]. by split.
Qed.


Lemma sorted_lookup_le (l : list Z) (i j : nat) :
  StronglySorted Z.le l → (i ≤ j < length l)%nat → l !!! i ≤ l !!! j.
Proof.
  revert i j. induction l as [|a l IH]; intros i j Hs Hij;
    [simpl in Hij; lia|].
  apply StronglySorted_cons in Hs as [Ha Hs].
  destruct j as [|j]; [by replace i with 0%nat by lia|].
  destruct i as [|i]; simpl.
  - eapply Forall_forall in Ha; [exact Ha|].
    apply list_elem_of_lookup_total_2. simpl in Hij. lia.
  - apply IH; [done | simpl in Hij; lia].
Qed.
End WindowShapeProof.


(** X11: when the samples are in time order, every window starts no later
    than it ends, and each window ends no later than the next one starts:
    the windows are in time order and overlap at most in an instant shared
    by two samples. *)
Theorem windows_in_time_order (log : list event) (ws : list window) :
  calculate_block_boundaries log = Some ws →
  StronglySorted Z.le (parse_log log).1.1.1 →
  ∀ k w, ws !! k = Some w →
         w.1.2 ≤ w.2
         ∧ ∀ w', ws !! S k = Some w' → w.2 ≤ w'.1.2.
Proof.
  intros Hws Hs k w Hw.
  destruct (windows_shape log ws Hws) as (_ & first & _ & Hshape).
  destruct (Hshape k w Hw) as (j & Hj & -> & Hnext). cbn [fst snd].
  split; [by apply sorted_lookup_le|].
  intros w' Hw'. destruct (Hshape (S k) w' Hw') as (j' & Hj' & -> & _).
  cbn [fst snd]. rewrite Hnext in * by by eexists.
  apply sorted_lookup_le; [done | lia].
Qed.

Lemma windows_in_time_order_witness :
  let log := samples_at [0; 1; 2; 3; 4; 5] [5; 8; 10; 2; 6; 9] in
  let ws := [ (0%nat, 0, 2); (1%nat, 3, 5) ] in
  calculate_block_boundaries log = Some ws
  ∧ StronglySorted Z.le (parse_log log).1.1.1
  ∧ ∀ k w, ws !! k = Some w →
           w.1.2 ≤ w.2 ∧ ∀ w', ws !! S k = Some w' → w.2 ≤ w'.1.2.
Proof.
  intros log ws.
  assert (StronglySorted Z.le (parse_log log).1.1.1) as Hs.
  { simpl. repeat (apply StronglySorted_cons; split;
      [repeat constructor; lia|]). constructor. }
  split; [reflexivity|]. split; [exact Hs|].
  exact (windows_in_time_order log ws eq_refl Hs).
Defined.



(** * Block lookup *)

Import BlockLookup.

Section BlockLookupFacts.
Implicit Types (ws : list window) (t : Z).

Lemma find_from_Some ws t : ∀ i0 k,
  find_from i0 ws t = Some k →
  ∃ w, (i0 ≤ k)%nat ∧ ws !! (k - i0)%nat = Some w
       ∧ w.1.2 ≤ t ≤ w.2
       ∧ ∀ k' w', (k' < k - i0)%nat → ws !! k' = Some w' →
                  ¬ (w'.1.2 ≤ t ≤ w'.2).
Proof.
  induction ws as [|[[n s] e] ws IH]; intros i0 k; simpl; [done|].
  destruct (Z.leb s t && Z.leb t e) eqn:Hc.
  - intros [= <-]. apply andb_true_iff in Hc as [H1%Z.leb_le H2%Z.leb_le].
    exists (n, s, e). rewrite Nat.sub_diag. split; [done|]. split; [done|].
    split; [done|]. intros; lia.
  - intros Hf. destruct (IH (S i0) k Hf) as (w & Hk & Hw & Hin & Hfirst).
    exists w. split; [lia|].
    replace (k - i0)%nat with (S (k - S i0)) by lia.
    split; [done|]. split; [done|].
    intros [|k'] w' Hk'; simpl.
    + intros [= <-]. simpl. apply andb_false_iff in Hc.
      rewrite !Z.leb_gt in Hc. lia.
    + apply Hfirst. lia.
Qed.

Lemma find_from_None ws t i0 :
  find_from i0 ws t = None ↔ ∀ w, w ∈ ws → ¬ (w.1.2 ≤ t ≤ w.2).
Proof.
  revert i0. induction ws as [|[[n s] e] ws IH]; intros i0; simpl.
  - split; [|done]. intros _ w Hw. by apply elem_of_nil in Hw.
  - destruct (Z.leb s t && Z.leb t e) eqn:Hc.
    + apply andb_true_iff in Hc as [H1%Z.leb_le H2%Z.leb_le].
      split; [done|]. intros Hall. exfalso.
      apply (Hall (n, s, e)); [apply list_elem_of_here | done].
    + rewrite IH. apply andb_false_iff in Hc. rewrite !Z.leb_gt in Hc.
      split.
      * intros Hall w [->|Hw]%elem_of_cons; [simpl; lia | auto].
      * intros Hall w Hw. apply Hall. by apply list_elem_of_further.
Qed.

(** Every sample up to the end of a window lies, by its index, in that
    window or in an earlier one. *)
Lemma samples_covered (log : list event) ws (first : nat → nat) :
  let ts := (parse_log log).1.1.1 in
  first 0%nat = 0%nat →
  (∀ k w, ws !! k = Some w →
      ∃ j, (first k ≤ j < length ts)%nat
           ∧ w = (k, ts !!! first k, ts !!! j)
           ∧ (is_Some (ws !! S k) → first (S k) = S j)) →
  ∀ k w m, ws !! k = Some w → (m < first k)%nat →
    ∃ k' j', ws !! k' = Some (k', ts !!! first k', ts !!! j')
             ∧ (first k' ≤ m ≤ j')%nat ∧ (j' < length ts)%nat.
Proof.
  intros ts H0 Hshape k. induction k as [|k IH]; intros w m Hw Hm;
    [rewrite H0 in Hm; lia|].
  assert (is_Some (ws !! k)) as [wk Hwk].
  { apply lookup_lt_is_Some. apply lookup_lt_Some in Hw. lia. }
  destruct (Hshape k wk Hwk) as (j & Hj & -> & Hnext).
  rewrite Hnext in Hm by by eexists.
  destruct (decide (m < first k)%nat) as [Hlt|Hge].
  - by apply (IH _ m Hwk).
  - exists k, j. split; [done|]. lia.
Qed.
End BlockLookupFacts.

(** X13: the lookup returns the first window that contains the instant,
    and nothing exactly when no window contains it.  When the samples are
    in time order, every sample instant up to the end of the last window is
    found in some window of the file. *)
Theorem sample_instants_are_located (log : list event) (ws : list window)
    (t : Z) (w_last : window) :
  calculate_block_boundaries log = Some ws →
  StronglySorted Z.le (parse_log log).1.1.1 →
  t ∈ (parse_log log).1.1.1 →
  last ws = Some w_last →
  t ≤ w_last.2 →
  (∃ k w, find_block_for_timestamp ws t = Some k
          ∧ ws !! k = Some w ∧ w.1.2 ≤ t ≤ w.2
          ∧ ∀ k' w', (k' < k)%nat → ws !! k' = Some w' →
                     ¬ (w'.1.2 ≤ t ≤ w'.2))
  ∧ (∀ cache t', find_block_for_timestamp cache t' = None
                 ↔ ∀ w, w ∈ cache → ¬ (w.1.2 ≤ t' ≤ w.2)).
Proof.
  intros Hws Hs Ht Hlast Hle.
  split; [|intros cache t'; apply find_from_None].
  set (ts := (parse_log log).1.1.1) in *.
  assert (∃ w, w ∈ ws ∧ w.1.2 ≤ t ≤ w.2) as (w & Hw & Hin).
  { destruct (windows_shape log ws Hws) as (_ & first & H0 & Hshape).
    fold ts in Hshape.
    apply list_elem_of_lookup in Ht as [m Hm].
    pose proof (lookup_lt_Some _ _ _ Hm) as Hmlt.
    apply list_lookup_total_correct in Hm. subst t.
    rewrite last_lookup in Hlast.
    destruct (Hshape _ _ Hlast) as (j & Hj & -> & _). cbn [fst snd] in *.
    destruct (decide (m ≤ j)%nat) as [Hmj|Hmj].
    - destruct (decide (m < first (pred (length ws)))%nat) as [Hlt|Hge].
      + destruct (samples_covered log ws first H0 Hshape _ _ m Hlast Hlt)
          as (k' & j' & Hk' & Hr & Hj').
        fold ts in Hk', Hj'. eexists. split; [by eapply list_elem_of_lookup_2|].
        cbn [fst snd]. split; apply sorted_lookup_le; try done; lia.
      + eexists. split; [by eapply list_elem_of_lookup_2|].
        cbn [fst snd]. split; apply sorted_lookup_le; try done; lia.
    - assert (ts !!! j ≤ ts !!! m) by (apply sorted_lookup_le; [done | lia]).
      eexists. split; [by eapply list_elem_of_lookup_2|].
      cbn [fst snd]. split; [|lia].
      etrans; [apply (sorted_lookup_le ts (first (pred (length ws))) j)|];
        [done | lia | lia]. }
  unfold find_block_for_timestamp.
  destruct (find_from 0 ws t) as [k|] eqn:Hf.
  - apply find_from_Some in Hf as (w' & _ & Hk & Hin' & Hfirst).
    rewrite Nat.sub_0_r in *. exists k, w'. done.
  - exfalso. by eapply find_from_None in Hf.
Qed.

Lemma sample_instants_are_located_witness :
  let log := samples_at [0; 1; 2; 3; 4; 5] [5; 8; 10; 2; 6; 9] in
  let ws := [ (0%nat, 0, 2); (1%nat, 3, 5) ] in
  calculate_block_boundaries log = Some ws
  ∧ StronglySorted Z.le (parse_log log).1.1.1
  ∧ 4 ∈ (parse_log log).1.1.1
  ∧ last ws = Some (1%nat, 3, 5)
  ∧ 4 ≤ 5
  ∧ ∃ k w, find_block_for_timestamp ws 4 = Some k
           ∧ ws !! k = Some w ∧ w.1.2 ≤ 4 ≤ w.2
           ∧ ∀ k' w', (k' < k)%nat → ws !! k' = Some w' →
                      ¬ (w'.1.2 ≤ 4 ≤ w'.2).
Proof.
  intros log ws.
  assert (StronglySorted Z.le (parse_log log).1.1.1) as Hs.
  { simpl. repeat (apply StronglySorted_cons; split;
      [repeat constructor; lia|]). constructor. }
  assert (4 ∈ (parse_log log).1.1.1) as Hin.
  { simpl. rewrite !elem_of_cons. auto 10. }
  split; [reflexivity|]. split; [exact Hs|]. split; [exact Hin|].
  split; [reflexivity|]. split; [lia|].
  exact (proj1 (sample_instants_are_located log ws 4 (1%nat, 3, 5)
                  eq_refl Hs Hin eq_refl ltac:(simpl; lia))).
Defined.

(** * Block metadata of proof-metrics.py *)

Module TL := Timeline.

Section FoldFacts.
Context {S E : Type} (f : S → E → S).

Lemma foldl_preserves (I : S → Prop) (evs : list E) (s : S) :
  (∀ s ev, ev ∈ evs → I s → I (f s ev)) → I s → I (foldl f s evs).
Proof.
  revert s. induction evs as [|ev evs IH]; simpl; intros s Hf Hs; [done|].
  apply IH.
  - intros s' ev' Hin. apply Hf. by apply list_elem_of_further.
  - apply Hf; [apply list_elem_of_here | done].
Qed.

Lemma foldl_establishes (I Q : S → Prop) (evs : list E) (ev0 : E) (s : S) :
  ev0 ∈ evs →
  I s →
  (∀ s ev, I s → I (f s ev)) →
  (∀ s, I s → Q (f s ev0)) →
  (∀ s ev, Q s → Q (f s ev)) →
  Q (foldl f s evs).
Proof.
  intros Hin Hs HI Hest Hkeep. revert s Hs.
  induction evs as [|ev evs IH]; simpl; intros s Hs;
    [by apply elem_of_nil in Hin|].
  apply elem_of_cons in Hin as [<-|Hin].
  - apply (foldl_preserves Q); [intros; by apply Hkeep | by apply Hest].
  - apply IH; [done | by apply HI].
Qed.
End FoldFacts.

Section TimelineFacts.
Implicit Types (st : TL.state) (m : TL.metadata) (log evs : list event).

Lemma record_ok_get log (d : list (Z * TL.metadata)) k m :
  Forall (record_ok log) d → dict_get k d = Some m → record_ok log (k, m).
Proof.
  intros Hall Hg%dict_get_Some_elem. by eapply Forall_forall in Hall.
Qed.

Lemma add_proofs_ok log st ev :
  ev ∈ log → Forall (record_ok log) st.1 →
  Forall (record_ok log) (TL.add_proofs st ev).1.
Proof.
  intros Hev Hall. destruct ev; simpl; try done.
  apply Forall_dict_set; [|done].
  repeat split; simpl; try done; intros ? [=]; by subst.
Qed.

Lemma add_block_ok log st ev :
  ev ∈ log → Forall (record_ok log) st.1 →
  Forall (record_ok log) (TL.add_block st ev).1.
Proof.
  intros Hev Hall. destruct ev; simpl; try done.
  apply Forall_dict_set; [|done].
  destruct (dict_get ts st.1) as [m|] eqn:Hg.
  - destruct (record_ok_get _ _ _ _ Hall Hg)
      as (Hts & Htot & _ & _ & Hroot & _). simpl in *.
    split; [done|]. split; [done|].
    split; [intros el [= <-]; eauto|].
    split; [intros _; split; by eexists|].
    split; [done|]. intros n [= <-]. left. eauto.
  - split; [done|]. split; [done|].
    split; [simpl; intros el [= <-]; eauto|].
    split; [intros _; split; by eexists|].
    split; [done|]. simpl. intros n [= <-]. left. eauto.
Qed.

Lemma add_root_ok log st ev :
  ev ∈ log → Forall (record_ok log) st.1 →
  Forall (record_ok log) (TL.add_root st ev).1.
Proof.
  intros Hev Hall. destruct ev; simpl; try done.
  set (new := match dict_get ts st.1 with
              | Some m => TL.update_root root_elapsed_ number hash m
              | None => TL.Metadata ts None (Some number) (Some hash) None
                                    (Some root_elapsed_)
              end).
  assert (Forall (record_ok log) (dict_set ts new st.1)) as Hall'.
  { apply Forall_dict_set; [|done]. subst new.
    destruct (dict_get ts st.1) as [m|] eqn:Hg.
    - destruct (record_ok_get _ _ _ _ Hall Hg)
        as (Hts & Htot & Hel & _ & _ & _). simpl in *.
      split; [done|]. split; [done|]. split; [done|].
      split; [intros _; split; by eexists|].
      split; [intros v [= <-]; eauto|]. intros n [= <-]. right. eauto.
    - split; [done|]. split; [done|]. split; [done|].
      split; [by intros [? [=]]|].
      split; [simpl; intros v [= <-]; eauto|].
      simpl. intros n [= <-]. right. eauto. }
  destruct (dict_get number st.2) as [bt|]; [|done].
  destruct (dict_get bt (dict_set ts new st.1)) as [m|] eqn:Hg; [|done].
  simpl. apply Forall_dict_set; [|done].
  destruct (record_ok_get _ _ _ _ Hall' Hg)
    as (Hts & Htot & Hel & Hpres & _ & Hnum). simpl in *.
  split; [done|]. split; [done|]. split; [done|]. split; [done|].
  split; [intros v [= <-]; eauto | done].
Qed.

Lemma final_state_ok log :
  Forall (record_ok log) (TL.final_state log).1.
Proof.
  unfold TL.final_state.
  apply (foldl_preserves _ (λ st, Forall (record_ok log) st.1));
    [intros; by apply add_root_ok|].
  apply (foldl_preserves _ (λ st, Forall (record_ok log) st.1));
    [intros; by apply add_block_ok|].
  apply (foldl_preserves _ (λ st, Forall (record_ok log) st.1));
    [intros; by apply add_proofs_ok | constructor].
Qed.

Lemma timeline_step_NoDup st ev :
  NoDup (dict_keys st.1) →
  NoDup (dict_keys (TL.add_proofs st ev).1)
  ∧ NoDup (dict_keys (TL.add_block st ev).1)
  ∧ NoDup (dict_keys (TL.add_root st ev).1).
Proof.
  intros Hnd. destruct ev; simpl; try done;
    repeat split; try done; try by apply dict_set_NoDup.
  destruct (dict_get number st.2) as [bt|]; [|by apply dict_set_NoDup].
  destruct (dict_get bt _) as [m|]; simpl; by repeat apply dict_set_NoDup.
Qed.

Lemma final_state_NoDup log : NoDup (dict_keys (TL.final_state log).1).
Proof.
  unfold TL.final_state.
  apply (foldl_preserves _ (λ st, NoDup (dict_keys st.1)));
    [intros st ev _ H; by apply timeline_step_NoDup|].
  apply (foldl_preserves _ (λ st, NoDup (dict_keys st.1)));
    [intros st ev _ H; by apply timeline_step_NoDup|].
  apply (foldl_preserves _ (λ st, NoDup (dict_keys st.1)));
    [intros st ev _ H; by apply timeline_step_NoDup | constructor].
Qed.
End TimelineFacts.

(** X14: in the metadata of proof-metrics.py every record is stored under
    its own timestamp, one record per timestamp, and nothing in it is made
    up: its total_time is that of a ProofsProcessed event at that instant,
    its elapsed_time that of a BlockAdded event at that instant, its
    root_elapsed that of some StateRootCalculated event, its block number
    that of a BlockAdded or StateRootCalculated event at that instant; and
    a record with an elapsed_time always has a block number and a hash. *)
Theorem timeline_records_come_from_events (log : list event) :
  NoDup (dict_keys (TL.extract_block_metadata log))
  ∧ ∀ k m, (k, m) ∈ TL.extract_block_metadata log →
      TL.timestamp m = k
      ∧ (∀ v, TL.total_time m = Some v → ProofsProcessed k v ∈ log)
      ∧ (∀ el, TL.elapsed_time m = Some el →
               ∃ n h, BlockAdded k n h el ∈ log)
      ∧ (is_Some (TL.elapsed_time m) →
         is_Some (TL.block_number m) ∧ is_Some (TL.block_hash m))
      ∧ (∀ v, TL.root_elapsed m = Some v →
              ∃ ts n h, StateRootCalculated ts v n h ∈ log)
      ∧ (∀ n, TL.block_number m = Some n →
              (∃ h el, BlockAdded k n h el ∈ log)
              ∨ (∃ r h, StateRootCalculated k r n h ∈ log)).
Proof.
  split; [apply final_state_NoDup|].
  intros k m Hin. pose proof (final_state_ok log) as Hall.
  by eapply Forall_forall in Hall; [|exact Hin].
Qed.

Section LastWrite.
Context {S E V : Type} (f : S → E → S) (obs : S → option V)
        (sel : E → option V).

Lemma foldl_last_write (I : S → Prop) (evs : list E) (s : S) :
  (∀ s ev, I s → I (f s ev)) →
  (∀ s ev, I s →
           obs (f s ev) = match sel ev with Some v => Some v | None => obs s end) →
  I s →
  obs (foldl f s evs)
  = match last (omap sel evs) with Some v => Some v | None => obs s end.
Proof.
  intros HI Hstep. induction evs as [|ev evs IH] using rev_ind; intros Hs;
    [done|].
  assert (I (foldl f s evs)) as Hmid.
  { apply (foldl_preserves f I); [intros; by apply HI | done]. }
  rewrite foldl_app, omap_app. simpl. rewrite Hstep by done.
  destruct (sel ev) as [v|]; simpl.
  - by rewrite last_snoc.
  - rewrite app_nil_r. by apply IH.
Qed.
End LastWrite.

Section TimelineValues.
Implicit Types (st : TL.state) (m : TL.metadata) (log evs : list event).

Lemma add_proofs_total st ev k :
  dict_get k (TL.add_proofs st ev).1 ≫= TL.total_time
  = match (match ev with
           | ProofsProcessed ts v => if decide (ts = k) then Some v else None
           | _ => None
           end) with
    | Some v => Some v
    | None => dict_get k st.1 ≫= TL.total_time
    end.
Proof.
  destruct ev; simpl; try done.
  rewrite dict_get_set. repeat case_decide; subst; done.
Qed.

Lemma add_block_total st ev k :
  dict_get k (TL.add_block st ev).1 ≫= TL.total_time
  = dict_get k st.1 ≫= TL.total_time.
Proof.
  destruct ev; simpl; try done.
  rewrite dict_get_set. case_decide; subst; [|done].
  by destruct (dict_get ts st.1).
Qed.

Lemma add_root_total st ev k :
  dict_get k (TL.add_root st ev).1 ≫= TL.total_time
  = dict_get k st.1 ≫= TL.total_time.
Proof.
  destruct ev; simpl; try done.
  assert (∀ new,
    new = match dict_get ts st.1 with
          | Some m => TL.update_root root_elapsed_ number hash m
          | None => TL.Metadata ts None (Some number) (Some hash) None
                                (Some root_elapsed_)
          end →
    dict_get k (dict_set ts new st.1) ≫= TL.total_time
    = dict_get k st.1 ≫= TL.total_time) as Hfirst.
  { intros new ->. rewrite dict_get_set. case_decide; subst; [|done].
    by destruct (dict_get ts st.1). }
  destruct (dict_get number st.2) as [bt|]; [|by apply Hfirst].
  destruct (dict_get bt (dict_set ts _ st.1)) as [m|] eqn:Hg;
    [|by apply Hfirst].
  simpl. rewrite dict_get_set. case_decide; subst; [|by apply Hfirst].
  rewrite <- (Hfirst _ eq_refl), Hg. done.
Qed.
End TimelineValues.

Section TimelineElapsed.
Implicit Types (st : TL.state) (m : TL.metadata) (log evs : list event).

Lemma add_proofs_no_elapsed st ev :
  Forall (λ kv : Z * TL.metadata,
            TL.elapsed_time kv.2 = None ∧ TL.root_elapsed kv.2 = None) st.1
  ∧ st.2 = [] →
  Forall (λ kv : Z * TL.metadata,
            TL.elapsed_time kv.2 = None ∧ TL.root_elapsed kv.2 = None)
         (TL.add_proofs st ev).1
  ∧ (TL.add_proofs st ev).2 = [].
Proof.
  intros [Hall Hbt]. destruct ev; simpl; try done.
  split; [|done]. by apply Forall_dict_set.
Qed.

Lemma proofs_loop_no_elapsed log k :
  dict_get k (foldl TL.add_proofs ([], []) log).1 ≫= TL.elapsed_time = None
  ∧ dict_get k (foldl TL.add_proofs ([], []) log).1 ≫= TL.root_elapsed = None
  ∧ (foldl TL.add_proofs ([], []) log).2 = [].
Proof.
  assert (Forall (λ kv : Z * TL.metadata,
            TL.elapsed_time kv.2 = None ∧ TL.root_elapsed kv.2 = None)
            (foldl TL.add_proofs ([], []) log).1
          ∧ (foldl TL.add_proofs ([], []) log).2 = []) as [Hall Hbt].
  { apply (foldl_preserves TL.add_proofs
             (λ st, Forall (λ kv : Z * TL.metadata,
                      TL.elapsed_time kv.2 = None
                      ∧ TL.root_elapsed kv.2 = None) st.1 ∧ st.2 = [])).
    - intros st ev _. apply add_proofs_no_elapsed.
    - split; [constructor | done]. }
  split; [|split; [|done]].
  - destruct (dict_get k _) as [m|] eqn:Hg; [|done].
    apply dict_get_Some_elem in Hg.
    eapply Forall_forall in Hall; [|exact Hg]. apply Hall.
  - destruct (dict_get k _) as [m|] eqn:Hg; [|done].
    apply dict_get_Some_elem in Hg.
    eapply Forall_forall in Hall; [|exact Hg]. apply Hall.
Qed.

Lemma add_block_elapsed st ev k :
  dict_get k (TL.add_block st ev).1 ≫= TL.elapsed_time
  = match (match ev with
           | BlockAdded ts _ _ el => if decide (ts = k) then Some el else None
           | _ => None
           end) with
    | Some v => Some v
    | None => dict_get k st.1 ≫= TL.elapsed_time
    end.
Proof.
  destruct ev; simpl; try done.
  rewrite dict_get_set. repeat case_decide; subst; try done.
  by destruct (dict_get _ st.1).
Qed.

Lemma add_block_root st ev k :
  dict_get k (TL.add_block st ev).1 ≫= TL.root_elapsed
  = dict_get k st.1 ≫= TL.root_elapsed.
Proof.
  destruct ev; simpl; try done.
  rewrite dict_get_set. case_decide; subst; [|done].
  by destruct (dict_get ts st.1).
Qed.

Lemma add_root_elapsed st ev k :
  dict_get k (TL.add_root st ev).1 ≫= TL.elapsed_time
  = dict_get k st.1 ≫= TL.elapsed_time.
Proof.
  destruct ev; simpl; try done.
  assert (∀ new,
    new = match dict_get ts st.1 with
          | Some m => TL.update_root root_elapsed_ number hash m
          | None => TL.Metadata ts None (Some number) (Some hash) None
                                (Some root_elapsed_)
          end →
    dict_get k (dict_set ts new st.1) ≫= TL.elapsed_time
    = dict_get k st.1 ≫= TL.elapsed_time) as Hfirst.
  { intros new ->. rewrite dict_get_set. case_decide; subst; [|done].
    by destruct (dict_get ts st.1). }
  destruct (dict_get number st.2) as [bt|]; [|by apply Hfirst].
  destruct (dict_get bt (dict_set ts _ st.1)) as [m|] eqn:Hg;
    [|by apply Hfirst].
  simpl. rewrite dict_get_set. case_decide; subst; [|by apply Hfirst].
  rewrite <- (Hfirst _ eq_refl), Hg. done.
Qed.

Lemma add_block_instant st ev n :
  dict_get n (TL.add_block st ev).2
  = match (match ev with
           | BlockAdded ts n' _ _ => if decide (n' = n) then Some ts else None
           | _ => None
           end) with
    | Some t => Some t
    | None => dict_get n st.2
    end.
Proof.
  destruct ev; simpl; try done.
  rewrite dict_get_set. repeat case_decide; subst; done.
Qed.

Lemma add_root_instants st ev : (TL.add_root st ev).2 = st.2.
Proof.
  destruct ev; simpl; try done.
  destruct (dict_get number st.2) as [bt|]; [|done].
  by destruct (dict_get bt _).
Qed.

Lemma timeline_step_keys st ev k :
  is_Some (dict_get k st.1) →
  is_Some (dict_get k (TL.add_proofs st ev).1)
  ∧ is_Some (dict_get k (TL.add_block st ev).1)
  ∧ is_Some (dict_get k (TL.add_root st ev).1).
Proof.
  intros Hk. destruct ev; simpl; try done.
  - split; [done|]. split; [|done].
    rewrite dict_get_set. by case_decide.
  - split; [done|]. split; [done|].
    assert (∀ new, is_Some (dict_get k (dict_set ts new st.1))) as Hfirst.
    { intros new. rewrite dict_get_set. by case_decide. }
    destruct (dict_get number st.2) as [bt|]; [|by apply Hfirst].
    destruct (dict_get bt _) as [m|]; [|by apply Hfirst].
    simpl. rewrite dict_get_set. case_decide; [done | by apply Hfirst].
  - split; [|done]. rewrite dict_get_set. by case_decide.
Qed.

Lemma add_block_instants_are_keys st ev :
  (∀ n t, dict_get n st.2 = Some t → is_Some (dict_get t st.1)) →
  ∀ n t, dict_get n (TL.add_block st ev).2 = Some t →
         is_Some (dict_get t (TL.add_block st ev).1).
Proof.
  intros Hinv n t. destruct ev; simpl; try by apply Hinv.
  rewrite !dict_get_set. repeat case_decide; subst; try done.
  - congruence.
  - apply Hinv.
Qed.
End TimelineElapsed.

Section TimelineRoots.
Implicit Types (st : TL.state) (m : TL.metadata) (log evs : list event).

Lemma add_root_root log st ev k :
  (∀ n, dict_get n st.2 = last (block_instants n log)) →
  (∀ n t, dict_get n st.2 = Some t → is_Some (dict_get t st.1)) →
  dict_get k (TL.add_root st ev).1 ≫= TL.root_elapsed
  = match (match ev with
           | StateRootCalculated ts r n _ =>
               if bool_decide (ts = k ∨ last (block_instants n log) = Some k)
               then Some r else None
           | _ => None
           end) with
    | Some v => Some v
    | None => dict_get k st.1 ≫= TL.root_elapsed
    end.
Proof.
  intros Hbt Hkeys. destruct ev; simpl; try done.
  rewrite <- (Hbt number).
  assert (∀ new,
    new = match dict_get ts st.1 with
          | Some m => TL.update_root root_elapsed_ number hash m
          | None => TL.Metadata ts None (Some number) (Some hash) None
                                (Some root_elapsed_)
          end →
    dict_get k (dict_set ts new st.1) ≫= TL.root_elapsed
    = if decide (k = ts) then Some root_elapsed_
      else dict_get k st.1 ≫= TL.root_elapsed) as Hfirst.
  { intros new ->. rewrite dict_get_set. case_decide; subst; [|done].
    by destruct (dict_get ts st.1). }
  destruct (dict_get number st.2) as [bt|] eqn:Hn.
  - destruct (Hkeys _ _ Hn) as [m0 Hm0].
    destruct (dict_get bt (dict_set ts _ st.1)) as [m|] eqn:Hg.
    + simpl. rewrite dict_get_set.
      destruct (decide (k = bt)) as [->|Hk].
      * rewrite bool_decide_eq_true_2 by (by right). done.
      * rewrite (Hfirst _ eq_refl). destruct (decide (k = ts)) as [->|Hk'].
        -- rewrite bool_decide_eq_true_2 by (by left). done.
        -- rewrite bool_decide_eq_false_2; [done|].
           intros [?|[=]]; congruence.
    + rewrite dict_get_set in Hg.
      destruct (decide (bt = ts)); congruence.
  - cbn [fst]. rewrite (Hfirst _ eq_refl).
    destruct (decide (k = ts)) as [->|Hk'].
    + rewrite bool_decide_eq_true_2 by (by left). done.
    + rewrite bool_decide_eq_false_2; [done|]. intros [?|?]; congruence.
Qed.

Lemma blocks_loop_instants evs st n :
  dict_get n (foldl TL.add_block st evs).2
  = match last (block_instants n evs) with
    | Some t => Some t
    | None => dict_get n st.2
    end.
Proof.
  apply (foldl_last_write TL.add_block (λ st, dict_get n st.2) _
           (λ _, True)); [done | | done].
  intros s ev _. apply add_block_instant.
Qed.

Lemma blocks_loop_keys evs st :
  (∀ n t, dict_get n st.2 = Some t → is_Some (dict_get t st.1)) →
  ∀ n t, dict_get n (foldl TL.add_block st evs).2 = Some t →
         is_Some (dict_get t (foldl TL.add_block st evs).1).
Proof.
  intros Hinv.
  apply (foldl_preserves TL.add_block
           (λ st, ∀ n t, dict_get n st.2 = Some t →
                         is_Some (dict_get t st.1))); [|done].
  intros s ev _. apply add_block_instants_are_keys.
Qed.

Lemma dict_get_is_Some {K V : Type} `{EqDecision K} (d : list (K * V)) k :
  is_Some (dict_get k d) ↔ k ∈ dict_keys d.
Proof.
  destruct (dict_get k d) as [v|] eqn:Hg.
  - split; [intros _ | by eexists].
    apply dict_get_Some_elem in Hg. unfold dict_keys.
    apply list_elem_of_fmap. by exists (k, v).
  - apply dict_get_None in Hg. split; [by intros [? [=]] | done].
Qed.

Lemma timeline_step_known log st ev :
  ev ∈ log →
  Forall (λ kv : Z * TL.metadata,
            ∃ ev, ev ∈ log ∧ recorded_instant ev = Some kv.1) st.1 →
  Forall (λ kv : Z * TL.metadata,
            ∃ ev, ev ∈ log ∧ recorded_instant ev = Some kv.1)
         (TL.add_proofs st ev).1
  ∧ Forall (λ kv : Z * TL.metadata,
            ∃ ev, ev ∈ log ∧ recorded_instant ev = Some kv.1)
         (TL.add_block st ev).1
  ∧ Forall (λ kv : Z * TL.metadata,
            ∃ ev, ev ∈ log ∧ recorded_instant ev = Some kv.1)
         (TL.add_root st ev).1.
Proof.
  intros Hev Hall. destruct ev; simpl; try done.
  - split; [done|]. split; [|done].
    apply Forall_dict_set; [|done]. simpl. eauto.
  - split; [done|]. split; [done|].
    match goal with
    | |- context [dict_set ts ?new st.1] =>
        assert (Forall (λ kv : Z * TL.metadata,
                  ∃ ev, ev ∈ log ∧ recorded_instant ev = Some kv.1)
                  (dict_set ts new st.1)) as Hfirst
    end.
    { apply Forall_dict_set; [|done]. simpl. eauto. }
    destruct (dict_get number st.2) as [bt|]; [|done].
    destruct (dict_get bt _) as [m|] eqn:Hg; [|done].
    simpl. apply Forall_dict_set; [|done].
    apply dict_get_Some_elem in Hg.
    eapply Forall_forall in Hfirst; [|exact Hg]. done.
  - split; [|done]. apply Forall_dict_set; [|done]. simpl. eauto.
Qed.
End TimelineRoots.

(** X15: the keys of the metadata of proof-metrics.py are exactly the
    instants of the ProofsProcessed, BlockAdded and StateRootCalculated
    events of the log: no such event is left without a record, and no
    record exists at any other instant. *)
Theorem timeline_keys_are_event_instants (log : list event) (k : Z) :
  k ∈ dict_keys (TL.extract_block_metadata log)
  ↔ ∃ ev, ev ∈ log ∧ recorded_instant ev = Some k.
Proof.
  unfold TL.extract_block_metadata, TL.final_state. split.
  - intros Hk.
    assert (Forall (λ kv : Z * TL.metadata,
              ∃ ev, ev ∈ log ∧ recorded_instant ev = Some kv.1)
              (foldl TL.add_root
                 (foldl TL.add_block (foldl TL.add_proofs ([], []) log) log)
                 log).1) as Hall.
    { apply (foldl_preserves _ (λ st, Forall _ st.1));
        [intros st ev Hev H; by apply (timeline_step_known log st ev Hev)|].
      apply (foldl_preserves _ (λ st, Forall _ st.1));
        [intros st ev Hev H; by apply (timeline_step_known log st ev Hev)|].
      apply (foldl_preserves _ (λ st, Forall _ st.1));
        [intros st ev Hev H; by apply (timeline_step_known log st ev Hev)|].
      constructor. }
    unfold dict_keys in Hk. apply list_elem_of_fmap in Hk as ([k' m] & -> & Hin).
    by eapply Forall_forall in Hall; [|exact Hin].
  - intros (ev & Hev & Hk). apply dict_get_is_Some.
    destruct ev; simpl in Hk; try done; injection Hk as ->.
    + apply (foldl_preserves _ (λ st, is_Some (dict_get k st.1)));
        [intros st ev _ H; by apply timeline_step_keys|].
      apply (foldl_establishes _ (λ _, True)
               (λ st, is_Some (dict_get k st.1)) _ _ _ Hev); try done.
      * intros st _. simpl. rewrite dict_get_set. by rewrite decide_True.
      * intros st ev H. by apply timeline_step_keys.
    + apply (foldl_establishes _ (λ _, True)
               (λ st, is_Some (dict_get k st.1)) _ _ _ Hev); try done.
      * intros st _. simpl.
        destruct (dict_get number st.2) as [bt|];
          [|cbn [fst]; rewrite dict_get_set; by rewrite decide_True].
        destruct (dict_get bt _) as [m|];
          [|cbn [fst]; rewrite dict_get_set; by rewrite decide_True].
        cbn [fst]. rewrite !dict_get_set. repeat case_decide; done.
      * intros st ev H. by apply timeline_step_keys.
    + apply (foldl_preserves _ (λ st, is_Some (dict_get k st.1)));
        [intros st ev _ H; by apply timeline_step_keys|].
      apply (foldl_preserves _ (λ st, is_Some (dict_get k st.1)));
        [intros st ev _ H; by apply timeline_step_keys|].
      apply (foldl_establishes _ (λ _, True)
               (λ st, is_Some (dict_get k st.1)) _ _ _ Hev); try done.
      * intros st _. simpl. rewrite dict_get_set. by rewrite decide_True.
      * intros st ev H. by apply timeline_step_keys.
Qed.

(** X16: in the metadata of proof-metrics.py the total_time of the record
    at an instant is that of the last ProofsProcessed event at that instant,
    and its elapsed_time that of the last BlockAdded event at that instant;
    the field is absent exactly when the log has no such event there.  The
    later loops never change what an earlier loop wrote in these fields. *)
Theorem timeline_times_are_last_written (log : list event) (k : Z) :
  dict_get k (TL.extract_block_metadata log) ≫= TL.total_time
  = last (totals_at k log)
  ∧ dict_get k (TL.extract_block_metadata log) ≫= TL.elapsed_time
    = last (elapsed_at k log).
Proof.
  unfold TL.extract_block_metadata, TL.final_state. split.
  - apply (foldl_preserves TL.add_root
             (λ st, dict_get k st.1 ≫= TL.total_time = _));
      [intros st ev _ <-; apply add_root_total|].
    apply (foldl_preserves TL.add_block
             (λ st, dict_get k st.1 ≫= TL.total_time = _));
      [intros st ev _ <-; apply add_block_total|].
    unfold totals_at.
    rewrite (foldl_last_write TL.add_proofs
               (λ st, dict_get k st.1 ≫= TL.total_time)
               (λ ev, match ev with
                      | ProofsProcessed ts v =>
                          if decide (ts = k) then Some v else None
                      | _ => None
                      end) (λ _, True));
      [|done | intros st ev _; apply add_proofs_total | done].
    simpl. by destruct (last _).
  - apply (foldl_preserves TL.add_root
             (λ st, dict_get k st.1 ≫= TL.elapsed_time = _));
      [intros st ev _ <-; apply add_root_elapsed|].
    unfold elapsed_at.
    rewrite (foldl_last_write TL.add_block
               (λ st, dict_get k st.1 ≫= TL.elapsed_time)
               (λ ev, match ev with
                      | BlockAdded ts _ _ el =>
                          if decide (ts = k) then Some el else None
                      | _ => None
                      end) (λ _, True));
      [|done | intros st ev _; apply add_block_elapsed | done].
    rewrite (proj1 (proofs_loop_no_elapsed log k)). by destruct (last _).
Qed.

(** X17: the root_elapsed of the record at an instant is that of the last
    StateRootCalculated event that reaches it: an event at that very
    instant, or an event of a block number whose last BlockAdded event is
    at that instant.  It is absent exactly when no event reaches it. *)
Theorem timeline_root_is_last_reaching (log : list event) (k : Z) :
  dict_get k (TL.extract_block_metadata log) ≫= TL.root_elapsed
  = last (roots_reaching log k log).
Proof.
  unfold TL.extract_block_metadata, TL.final_state.
  destruct (proofs_loop_no_elapsed log k) as (_ & Hroot & Hbt).
  set (S1 := foldl TL.add_proofs ([], []) log) in *.
  unfold roots_reaching.
  rewrite (foldl_last_write TL.add_root
             (λ st, dict_get k st.1 ≫= TL.root_elapsed)
             (λ ev, match ev with
                    | StateRootCalculated ts r n _ =>
                        if bool_decide
                             (ts = k ∨ last (block_instants n log) = Some k)
                        then Some r else None
                    | _ => None
                    end)
             (λ st, (∀ n, dict_get n st.2 = last (block_instants n log))
                    ∧ (∀ n t, dict_get n st.2 = Some t →
                              is_Some (dict_get t st.1)))).
  - assert (dict_get k (foldl TL.add_block S1 log).1 ≫= TL.root_elapsed
            = None) as ->; [|by destruct (last _)].
    apply (foldl_preserves TL.add_block
             (λ st, dict_get k st.1 ≫= TL.root_elapsed = None)); [|done].
    intros st ev _ <-. apply add_block_root.
  - intros st ev [Hi Hk]. rewrite add_root_instants. split; [done|].
    intros n t Hn. by apply timeline_step_keys, Hk with n.
  - intros st ev [Hi Hk]. by apply add_root_root.
  - split.
    + intros n. rewrite blocks_loop_instants, Hbt. simpl.
      by destruct (last (block_instants n log)).
    + apply blocks_loop_keys. rewrite Hbt. intros n t [=].
Qed.

(** * Metadata lookup for a time range *)

Section LookupFacts.
Implicit Types (md : list (Z * TL.metadata)) (m : TL.metadata)
               (kv : Z * TL.metadata).

Lemma within_spec lo hi kv : TL.within lo hi kv = true ↔ lo ≤ kv.1 ≤ hi.
Proof. unfold TL.within. rewrite andb_true_iff, !Z.leb_le. done. Qed.

Lemma is_block_entry_spec kv :
  TL.is_block_entry kv = true
  ↔ is_Some (TL.block_number kv.2) ∧ is_Some (TL.elapsed_time kv.2).
Proof.
  unfold TL.is_block_entry.
  by rewrite andb_true_iff, !bool_decide_eq_true.
Qed.

Lemma elem_of_sorted_filter (P : Z * TL.metadata → bool) md kv :
  kv ∈ py_sorted fst (List.filter P md) ↔ kv ∈ md ∧ P kv = true.
Proof.
  rewrite (py_sorted_perm fst (List.filter P md)).
  rewrite !list_elem_of_In. apply filter_In.
Qed.

Lemma py_min_elem {A : Type} (key : A → Z) (x : A) (xs : list A) :
  TL.py_min key x xs ∈ x :: xs.
Proof.
  unfold TL.py_min. revert x. induction xs as [|y xs IH]; intros x; simpl.
  - apply list_elem_of_here.
  - destruct (Z.ltb (key y) (key x)).
    + apply list_elem_of_further, IH.
    + specialize (IH x). apply elem_of_cons in IH as [->|Hin].
      * apply list_elem_of_here.
      * by do 2 apply list_elem_of_further.
Qed.

Lemma py_min_le_first {A : Type} (key : A → Z) (x : A) (xs : list A) :
  key (TL.py_min key x xs) ≤ key x.
Proof.
  unfold TL.py_min. revert x. induction xs as [|z xs IH]; intros x; simpl;
    [lia|].
  destruct (Z.ltb_spec (key z) (key x)); [|apply IH].
  etrans; [apply IH | lia].
Qed.

Lemma py_min_least {A : Type} (key : A → Z) (x : A) (xs : list A) y :
  y ∈ x :: xs → key (TL.py_min key x xs) ≤ key y.
Proof.
  revert x. induction xs as [|z xs IH]; intros x.
  - intros ->%list_elem_of_singleton. apply py_min_le_first.
  - rewrite elem_of_cons. intros [->|Hin]; [apply py_min_le_first|].
    change (TL.py_min key x (z :: xs))
      with (TL.py_min key (if Z.ltb (key z) (key x) then z else x) xs).
    apply elem_of_cons in Hin as [->|Hin].
    + destruct (Z.ltb_spec (key z) (key x)); [apply py_min_le_first|].
      etrans; [apply py_min_le_first | done].
    + by apply IH, list_elem_of_further.
Qed.

Lemma near_proofs_processed_found md end_time m :
  TL.near_proofs_processed md end_time = Some m →
  is_Some (TL.block_number m)
  ∧ ∃ k, (k, m) ∈ md ∧ end_time - seconds 1 ≤ k ≤ end_time + seconds 10.
Proof.
  unfold TL.near_proofs_processed.
  destruct (py_sorted fst (List.filter _ md)) as [|x xs] eqn:Hps; [done|].
  cbv zeta.
  pose proof (py_min_elem (λ kv : Z * TL.metadata, Z.abs (kv.1 - end_time))
                          x xs) as Hc.
  set (c := TL.py_min _ x xs) in *.
  rewrite <- Hps in Hc. apply elem_of_sorted_filter in Hc as [Hcin Hc].
  apply andb_true_iff in Hc as [_ Hc%within_spec].
  match goal with
  | |- context [py_sorted fst (List.filter ?P md)] =>
      destruct (py_sorted fst (List.filter P md)) as [|b bs] eqn:Hbs
  end.
  - case_bool_decide as Hnum.
    + intros Heq; injection Heq as <-. split; [done|]. exists c.1.
      split; [by destruct c|]. unfold seconds in *. lia.
    + intros Hf. apply fmap_Some in Hf as ([k m'] & Hf & ->).
      apply find_some in Hf as [Hin Hf]. apply list_elem_of_In in Hin.
      apply andb_true_iff in Hf as [[Hn _]%is_block_entry_spec Hw%within_spec].
      split; [done|]. exists k. split; [done|].
      simpl in *. unfold seconds in *. lia.
  - intros Heq; injection Heq as <-.
    assert (b ∈ py_sorted fst
              (List.filter (λ kv, TL.is_block_entry kv
                                  && TL.within c.1 (c.1 + seconds 5) kv) md))
      as Hb by (rewrite Hbs; apply list_elem_of_here).
    apply elem_of_sorted_filter in Hb as [Hbin Hb].
    apply andb_true_iff in Hb as [[Hn _]%is_block_entry_spec Hw%within_spec].
    split; [done|]. exists b.1. split; [by destruct b|].
    unfold seconds in *. lia.
Qed.

Lemma near_time_range_found md start_time end_time m :
  TL.near_time_range md start_time end_time = Some m →
  ∃ k, (k, m) ∈ md
       ∧ start_time - seconds 5 ≤ k ≤ end_time + seconds 10
       ∧ (TL.block_number m = None →
          ∀ kv, kv ∈ md →
                start_time - seconds 5 ≤ kv.1 ≤ end_time + seconds 10 →
                TL.block_number kv.2 = None
                ∧ Z.abs (k - end_time) ≤ Z.abs (kv.1 - end_time)).
Proof.
  unfold TL.near_time_range.
  destruct (py_sorted fst (List.filter _ md)) as [|x xs] eqn:Hall; [done|].
  destruct (List.find _ (x :: xs)) as [kv|] eqn:Hf.
  - intros Heq; injection Heq as <-. apply find_some in Hf as [Hin Hn].
    apply list_elem_of_In in Hin. rewrite <- Hall in Hin.
    apply elem_of_sorted_filter in Hin as [Hin Hw%within_spec].
    exists kv.1. split; [by destruct kv|]. split; [done|].
    apply bool_decide_eq_true in Hn as [n Hn]. congruence.
  - intros Heq; injection Heq as <-.
    pose proof (py_min_elem (λ kv : Z * TL.metadata,
                               Z.abs (kv.1 - end_time)) x xs) as Hc.
    set (c := TL.py_min _ x xs) in *.
    rewrite <- Hall in Hc.
    apply elem_of_sorted_filter in Hc as [Hcin Hw%within_spec].
    exists c.1. split; [by destruct c|]. split; [done|].
    intros _ kv Hin Hkv.
    assert (kv ∈ x :: xs) as Hin'.
    { rewrite <- Hall. apply elem_of_sorted_filter.
      split; [done | by apply within_spec]. }
    split; [|by apply (py_min_least (λ kv : Z * TL.metadata,
                                       Z.abs (kv.1 - end_time)))].
    apply list_elem_of_In in Hin'.
    pose proof (find_none _ _ Hf _ Hin') as Hnone. simpl in Hnone.
    apply bool_decide_eq_false in Hnone.
    destruct (TL.block_number kv.2); [|done].
    exfalso. apply Hnone. by eexists.
Qed.

Lemma near_time_range_None md start_time end_time :
  TL.near_time_range md start_time end_time = None
  ↔ ∀ kv, kv ∈ md →
          ¬ (start_time - seconds 5 ≤ kv.1 ≤ end_time + seconds 10).
Proof.
  unfold TL.near_time_range.
  destruct (py_sorted fst (List.filter _ md)) as [|x xs] eqn:Hall.
  - split; [intros _ | done]. intros kv Hin Hw.
    assert (kv ∈ py_sorted fst
              (List.filter (TL.within (start_time - seconds 5)
                                      (end_time + seconds 10)) md)) as Hkv.
    { apply elem_of_sorted_filter. split; [done | by apply within_spec]. }
    rewrite Hall in Hkv. by apply elem_of_nil in Hkv.
  - split; [by destruct (List.find _ (x :: xs))|]. intros Hno. exfalso.
    assert (x ∈ py_sorted fst
              (List.filter (TL.within (start_time - seconds 5)
                                      (end_time + seconds 10)) md)) as Hx
      by (rewrite Hall; apply list_elem_of_here).
    apply elem_of_sorted_filter in Hx as [Hin Hw%within_spec].
    by apply (Hno x).
Qed.
End LookupFacts.

(** X18: whatever the lookup returns is a record of the metadata it was
    given, stored at an instant no earlier than five seconds before the
    start of the range or one second before its end (whichever is
    earlier), and no later than ten seconds after its end. *)
Theorem found_metadata_is_a_nearby_record
    (md : list (Z * TL.metadata)) (start_time end_time : Z)
    (m : TL.metadata) :
  TL.find_block_metadata_for_time_range md start_time end_time = Some m →
  ∃ k, (k, m) ∈ md
       ∧ Z.min (start_time - seconds 5) (end_time - seconds 1) ≤ k
       ∧ k ≤ end_time + seconds 10.
Proof.
  unfold TL.find_block_metadata_for_time_range.
  destruct (TL.near_proofs_processed md end_time) as [m'|] eqn:Hn.
  - intros [= ->].
    apply near_proofs_processed_found in Hn as (_ & k & Hin & Hk).
    exists k. split; [done|]. lia.
  - intros (k & Hin & Hk & _)%near_time_range_found.
    exists k. split; [done|]. lia.
Qed.

Lemma found_metadata_is_a_nearby_record_witness :
  let proofs := TL.Metadata 0 (Some "5ms") None None None None in
  let block := TL.Metadata 2000000 None (Some "7") (Some "0xab")
                           (Some "3ms") None in
  let md := [(0, proofs); (2000000, block)] in
  TL.find_block_metadata_for_time_range md (-1000000) 0 = Some block
  ∧ ∃ k, (k, block) ∈ md
         ∧ Z.min (-1000000 - seconds 5) (0 - seconds 1) ≤ k
         ∧ k ≤ 0 + seconds 10.
Proof.
  intros proofs block md. split; [reflexivity|].
  exact (found_metadata_is_a_nearby_record md (-1000000) 0 block eq_refl).
Defined.

(** X19: for a range that does not start more than four seconds after its
    end, the lookup returns nothing exactly when the metadata has no record
    between five seconds before the start and ten seconds after the end. *)
Theorem nothing_found_iff_no_nearby_record
    (md : list (Z * TL.metadata)) (start_time end_time : Z) :
  start_time ≤ end_time + seconds 4 →
  TL.find_block_metadata_for_time_range md start_time end_time = None
  ↔ ∀ kv, kv ∈ md →
          ¬ (start_time - seconds 5 ≤ kv.1 ≤ end_time + seconds 10).
Proof.
  intros Hse. unfold TL.find_block_metadata_for_time_range.
  destruct (TL.near_proofs_processed md end_time) as [m'|] eqn:Hn.
  - split; [done|]. intros Hno. exfalso.
    apply near_proofs_processed_found in Hn as (_ & k & Hin & Hk).
    apply (Hno _ Hin). simpl. unfold seconds in *. lia.
  - apply near_time_range_None.
Qed.

Lemma nothing_found_iff_no_nearby_record_witness :
  let md := [(100000000, TL.Metadata 100000000 (Some "5ms") None None None
                                     None)] in
  0 ≤ 1000000 + seconds 4
  ∧ (TL.find_block_metadata_for_time_range md 0 1000000 = None
     ↔ ∀ kv, kv ∈ md →
             ¬ (0 - seconds 5 ≤ kv.1 ≤ 1000000 + seconds 10)).
Proof.
  intros md.
  assert (0 ≤ 1000000 + seconds 4) as H by (unfold seconds; lia).
  split; [exact H|].
  exact (nothing_found_iff_no_nearby_record md 0 1000000 H).
Defined.

(** X20: the lookup prefers records that name a block: when the record it
    returns has no block number, no record between five seconds before the
    start and ten seconds after the end has one, and the record returned is
    one of those nearest to the end of the range. *)
Theorem found_without_block_number_only_if_none_nearby
    (md : list (Z * TL.metadata)) (start_time end_time : Z)
    (m : TL.metadata) :
  TL.find_block_metadata_for_time_range md start_time end_time = Some m →
  TL.block_number m = None →
  ∃ k, (k, m) ∈ md
       ∧ ∀ kv, kv ∈ md →
               start_time - seconds 5 ≤ kv.1 ≤ end_time + seconds 10 →
               TL.block_number kv.2 = None
               ∧ Z.abs (k - end_time) ≤ Z.abs (kv.1 - end_time).
Proof.
  unfold TL.find_block_metadata_for_time_range.
  destruct (TL.near_proofs_processed md end_time) as [m'|] eqn:Hn.
  - intros [= ->] Hnone.
    apply near_proofs_processed_found in Hn as ([n Hsome] & _). congruence.
  - intros (k & Hin & _ & Hall)%near_time_range_found Hnone.
    exists k. split; [done|]. by apply Hall.
Qed.

Lemma found_without_block_number_only_if_none_nearby_witness :
  let proofs := TL.Metadata 0 (Some "5ms") None None None None in
  let md := [(0, proofs)] in
  TL.find_block_metadata_for_time_range md 0 0 = Some proofs
  ∧ TL.block_number proofs = None
  ∧ ∃ k, (k, proofs) ∈ md
         ∧ ∀ kv, kv ∈ md →
                 0 - seconds 5 ≤ kv.1 ≤ 0 + seconds 10 →
                 TL.block_number kv.2 = None
                 ∧ Z.abs (k - 0) ≤ Z.abs (kv.1 - 0).
Proof.
  intros proofs md. split; [reflexivity|]. split; [reflexivity|].
  exact (found_without_block_number_only_if_none_nearby md 0 0 proofs
           eq_refl eq_refl).
Defined.

(** * Statistics of a reconstructed window *)

Section PlotFacts.
Implicit Types (ts pp xs : list Z) (idx : list nat).








End PlotFacts.




(** * Block selection of the overview *)

Section OverviewFacts.
Context {K : Type}.
Implicit Types (cache : list (K * entry)) (bn : string).

Lemma by_block_fold cache (acc : list (string * entry)) bn :
  dict_get bn
    (foldl (λ run_by_block (kv : K * entry),
              match dict_get (block_number kv.2) run_by_block with
              | None => dict_set (block_number kv.2) kv.2 run_by_block
              | Some _ => run_by_block
              end) acc cache)
  = match dict_get bn acc with
    | Some e => Some e
    | None =>
        snd <$> List.find (λ kv : K * entry,
                             bool_decide (block_number kv.2 = bn)) cache
    end.
Proof.
  revert acc. induction cache as [|kv cache IH]; intros acc; simpl.
  - by destruct (dict_get bn acc).
  - rewrite IH. clear IH.
    destruct (dict_get (block_number kv.2) acc) as [e|] eqn:Hg.
    + case_bool_decide as Hbn; [|done]. subst bn. by rewrite Hg.
    + rewrite dict_get_set.
      destruct (decide (bn = block_number kv.2)) as [->|Hne].
      * by rewrite Hg, bool_decide_eq_true_2.
      * by rewrite bool_decide_eq_false_2 by congruence.
Qed.

Lemma by_block_get cache bn :
  dict_get bn (Overview.by_block cache)
  = snd <$> List.find (λ kv : K * entry,
                         bool_decide (block_number kv.2 = bn)) cache.
Proof. unfold Overview.by_block. by rewrite by_block_fold. Qed.

Lemma by_block_is_Some cache bn :
  is_Some (dict_get bn (Overview.by_block cache))
  ↔ bn ∈ block_numbers_of cache.
Proof.
  rewrite by_block_get, elem_of_block_numbers, fmap_is_Some. split.
  - intros [[k m] Hf]. apply find_some in Hf as [Hin Hb].
    apply bool_decide_eq_true in Hb. apply list_elem_of_In in Hin. eauto.
  - intros (k & m & Hin & Hb).
    destruct (List.find _ cache) as [kv|] eqn:Hf; [by eexists|].
    apply list_elem_of_In in Hin.
    pose proof (find_none _ _ Hf _ Hin) as Hn. simpl in Hn.
    by apply bool_decide_eq_false in Hn.
Qed.
End OverviewFacts.

Section OverviewSelection.
Context {K1 K2 : Type}.

Lemma elem_of_charted_blocks (cache_1 : list (K1 * entry))
    (cache_2 : list (K2 * entry)) (l : list string) bn :
  bn ∈ Overview.charted_blocks cache_1 cache_2 l
  ↔ bn ∈ Overview.processed_blocks l
    ∧ bn ∈ block_numbers_of cache_1 ∧ bn ∈ block_numbers_of cache_2.
Proof.
  unfold Overview.charted_blocks.
  rewrite list_elem_of_In, filter_In, <- list_elem_of_In.
  rewrite <- !by_block_is_Some. split.
  - intros [Hin Hb]. split; [done|].
    destruct (dict_get bn (Overview.by_block cache_1)); [|done].
    destruct (dict_get bn (Overview.by_block cache_2)); [|done].
    split; by eexists.
  - intros (Hin & [e1 H1] & [e2 H2]). split; [done|]. by rewrite H1, H2.
Qed.

Lemma processed_blocks_take (l : list string) :
  Overview.processed_blocks l = take Overview.MAX_BLOCKS l.
Proof.
  unfold Overview.processed_blocks.
  destruct (Nat.ltb_spec Overview.MAX_BLOCKS (length l)); [done|].
  by rewrite take_ge.
Qed.

Lemma filter_all_true {A : Type} (f : A → bool) (l : list A) :
  (∀ x, x ∈ l → f x = true) → List.filter f l = l.
Proof.
  induction l as [|x l IH]; intros Hall; simpl; [done|].
  rewrite (Hall x) by apply list_elem_of_here.
  f_equal. apply IH. intros y Hy. by apply Hall, list_elem_of_further.
Qed.

Lemma sorted_by_int_perm (xs l : list string) :
  sorted_by_int xs = Some l → l ≡ₚ xs.
Proof.
  unfold sorted_by_int. intros Hs.
  apply bind_Some in Hs as (keyed & Hk & [= <-]).
  apply mapM_Some in Hk.
  assert (keyed.*2 = xs) as <-.
  { induction Hk as [|x ky xs keyed Hx _ IH]; simpl; [done|].
    apply bind_Some in Hx as (k & _ & [= <-]). simpl. f_equal. exact IH. }
  apply fmap_Permutation, py_sorted_perm.
Qed.
End OverviewSelection.

Section FirstMatch.
Context {A : Type} (f : A → bool).

Lemma find_first_index (l : list A) (x : A) :
  List.find f l = Some x
  ↔ ∃ i : nat, l !! i = Some x ∧ f x = true
               ∧ ∀ (j : nat) y, (j < i)%nat → l !! j = Some y → f y = false.
Proof.
  induction l as [|a l IH]; simpl.
  - split; [done|]. by intros (i & Hi & _).
  - destruct (f a) eqn:Hfa.
    + split.
      * intros [= ->]. exists 0%nat. split; [done|]. split; [done|].
        intros j y Hj. lia.
      * intros ([|i] & Hi & Hx & Hbefore).
        -- simpl in Hi. congruence.
        -- specialize (Hbefore 0%nat a ltac:(lia) eq_refl). congruence.
    + rewrite IH. split.
      * intros (i & Hi & Hx & Hbefore). exists (S i).
        split; [done|]. split; [done|].
        intros [|j] y Hj; simpl; [congruence|].
        apply Hbefore. lia.
      * intros ([|i] & Hi & Hx & Hbefore).
        -- simpl in Hi. congruence.
        -- exists i. split; [done|]. split; [done|].
           intros j y Hj Hy. apply (Hbefore (S j)); [lia | done].
Qed.

Lemma filter_sublist (l : list A) : sublist (List.filter f l) l.
Proof.
  induction l as [|a l IH]; simpl; [constructor|].
  destruct (f a); by constructor.
Qed.
End FirstMatch.

(** X23: composition of the common-block list with the overview: when the
    overview is given the list get_common_block_numbers computed from the
    same two runs, every block of that list has data in both runs, so the
    overview charts exactly its first hundred blocks and skips none. *)
Theorem overview_charts_first_common_blocks {K1 K2 : Type}
    (set_iter : gset string → list string)
    (cache_1 : list (K1 * entry)) (cache_2 : list (K2 * entry))
    (l : list string) :
  (∀ s x, x ∈ set_iter s → x ∈ s) →
  get_common_block_numbers set_iter (Some cache_1) (Some cache_2) = Some l →
  Overview.charted_blocks cache_1 cache_2 l = take 100 l.
Proof.
  intros Hiter Hl. unfold Overview.charted_blocks.
  rewrite processed_blocks_take. apply filter_all_true. intros bn Hbn.
  assert (bn ∈ block_numbers_of cache_1 ∩ block_numbers_of cache_2) as Hc.
  { apply Hiter. unfold get_common_block_numbers in Hl.
    apply sorted_by_int_perm in Hl. rewrite <- Hl.
    apply elem_of_take in Hbn as (i & Hi & _).
    by eapply list_elem_of_lookup_2. }
  apply elem_of_intersection in Hc as [H1 H2].
  apply by_block_is_Some in H1 as [e1 ->].
  apply by_block_is_Some in H2 as [e2 ->]. done.
Qed.

(** X24: whatever list of blocks the overview is given, it charts at most
    a hundred of them, in the order of the list, and a block is charted
    exactly when it is among the first hundred of the list and both runs
    have a record with that block number. *)
Theorem overview_charts_at_most_hundred {K1 K2 : Type}
    (cache_1 : list (K1 * entry)) (cache_2 : list (K2 * entry))
    (l : list string) :
  (length (Overview.charted_blocks cache_1 cache_2 l) ≤ 100)%nat
  ∧ sublist (Overview.charted_blocks cache_1 cache_2 l) l
  ∧ ∀ bn, bn ∈ Overview.charted_blocks cache_1 cache_2 l
          ↔ bn ∈ take 100 l
            ∧ (∃ k m, (k, m) ∈ cache_1 ∧ block_number m = bn)
            ∧ (∃ k m, (k, m) ∈ cache_2 ∧ block_number m = bn).
Proof.
  assert (sublist (Overview.charted_blocks cache_1 cache_2 l) (take 100 l))
    as Hsub.
  { unfold Overview.charted_blocks. rewrite processed_blocks_take.
    apply filter_sublist. }
  split; [|split].
  - apply sublist_length in Hsub. rewrite length_take in Hsub. lia.
  - etrans; [exact Hsub | apply sublist_take].
  - intros bn.
    by rewrite elem_of_charted_blocks, processed_blocks_take,
               !elem_of_block_numbers.
Qed.

(** X25: the data the overview uses for a block number in a run is the
    first record of that run with this block number, in the order of the
    run's dictionary; later records with the same number are ignored. *)
Theorem overview_uses_first_record_of_block {K : Type}
    (cache : list (K * entry)) (bn : string) (m : entry) :
  dict_get bn (Overview.by_block cache) = Some m
  ↔ ∃ (i : nat) k,
      cache !! i = Some (k, m) ∧ block_number m = bn
      ∧ ∀ (j : nat) kv, (j < i)%nat → cache !! j = Some kv →
                        block_number kv.2 ≠ bn.
Proof.
  unfold Overview.by_block. rewrite by_block_fold. simpl.
  rewrite fmap_Some. split.
  - intros ([k m'] & Hf & ->). apply find_first_index in Hf
      as (i & Hi & Hb & Hbefore).
    exists i, k. split; [done|].
    split; [by apply bool_decide_eq_true in Hb|].
    intros j kv Hj Hkv. specialize (Hbefore j kv Hj Hkv).
    by apply bool_decide_eq_false in Hbefore.
  - intros (i & k & Hi & Hb & Hbefore). exists (k, m). split; [|done].
    apply find_first_index. exists i. split; [done|].
    split; [by apply bool_decide_eq_true|].
    intros j kv Hj Hkv. apply bool_decide_eq_false. by eapply Hbefore.
Qed.

Lemma overview_charts_first_common_blocks_witness :
  let run1 := [ (1, Entry 1 "0xa" "1ms" "100" None None);
                (2, Entry 2 "0xb" "1ms" "101" None None);
                (3, Entry 3 "0xc" "1ms" "103" None None) ] in
  let run2 := [ (4, Entry 4 "0xa" "1ms" "104" None None);
                (5, Entry 5 "0xc" "1ms" "103" None None);
                (6, Entry 6 "0xa" "1ms" "100" None None) ] in
  (∀ (s : gset string) x, x ∈ elements s → x ∈ s)
  ∧ get_common_block_numbers elements (Some run1) (Some run2)
    = Some ["100"; "103"]
  ∧ Overview.charted_blocks run1 run2 ["100"; "103"]
    = take 100 ["100"; "103"].
Proof.
  intros run1 run2.
  assert (∀ (s : gset string) x, x ∈ elements s → x ∈ s) as Hiter.
  { intros s x. apply elem_of_elements. }
  assert (get_common_block_numbers elements (Some run1) (Some run2)
          = Some ["100"; "103"]) as Hl by (vm_compute; reflexivity).
  split; [exact Hiter|]. split; [exact Hl|].
  exact (overview_charts_first_common_blocks elements run1 run2
           ["100"; "103"] Hiter Hl).
Defined.

(** * The run boundary of a block in a single file *)

Section BoundaryTime.
Implicit Types (file : list line) (bn : string).


Lemma half_small (d : Z) : 0 ≤ d ≤ 1 → BlockData.half d = 0.
Proof.
  intros Hd. assert (d = 0 ∨ d = 1) as [->| ->] by lia; reflexivity.
Qed.

Lemma py_sorted_of_sorted {A : Type} (key : A → Z) (l : list A) :
  StronglySorted (key_le key) l → py_sorted key l = l.
Proof.
  induction l as [|x l IH]; [done|].
  intros [Hall Hs]%StronglySorted_cons. simpl.
  change (foldr (sort_insert key) [] l) with (py_sorted key l).
  rewrite (IH Hs). destruct l as [|y l]; [done|]. simpl.
  apply Forall_cons in Hall as [Hxy _]. unfold key_le in Hxy.
  apply Z.leb_le in Hxy. by rewrite Hxy.
Qed.

Lemma omap_collect (p : line → bool) (want : line_kind → bool) file :
  (∀ l, l ∈ file → p l = want (kind l)) →
  omap (λ l, if p l then line_timestamp l else None) file
  = (collect want file).*1.
Proof.
  unfold collect.
  induction file as [|l file IH]; intros Hsame; [done|].
  assert (omap (λ l, if p l then line_timestamp l else None) file
          = (omap (λ l, ts ← line_timestamp l;
                        if want (kind l) then Some (ts, text l) else None)
                  file).*1) as IH'.
  { apply IH. intros l' Hl'. by apply Hsame, list_elem_of_further. }
  simpl. rewrite (Hsame l) by apply list_elem_of_here.
  destruct (line_timestamp l) as [ts|]; simpl;
    destruct (want (kind l)); simpl; try exact IH'.
  f_equal. exact IH'.
Qed.

Lemma all_block_logs_collect file bn :
  (∀ l, l ∈ file →
        BlockData.contains ("Block added to canonical chain number=" +:+ bn)
                           (text l)
        = is_block_added bn (kind l)) →
  BlockData.all_block_logs file bn = (collect (is_block_added bn) file).*1.
Proof.
  intros Hsame. unfold BlockData.all_block_logs.
  by apply (omap_collect
              (λ l, BlockData.contains
                      ("Block added to canonical chain number=" +:+ bn)
                      (text l))).
Qed.
End BoundaryTime.



(** X27: when the first two occurrences of the block are at the same
    instant, or one microsecond apart, the midpoint is the instant of the
    first one, nothing lies strictly before it, and the first run gets no
    line at all. *)
Theorem midpoint_boundary_loses_first_run_of_close_occurrences
    (file file_2 : list line) (bn : string) (t1 t2 : Z) (l1 l2 : string)
    (rest : list (Z * string)) :
  (∀ l, l ∈ file →
        BlockData.contains ("Block added to canonical chain number=" +:+ bn)
                           (text l)
        = is_block_added bn (kind l)) →
  collect (is_block_added bn) file = (t1, l1) :: (t2, l2) :: rest →
  StronglySorted (key_le fst) ((t1, l1) :: (t2, l2) :: rest) →
  t2 ≤ t1 + 1 →
  BlockData.boundary_time true file bn = Some t1
  ∧ BlockData.block_logs true file file_2 bn true = [].
Proof.
  intros Hsame Hcollect Hsorted Hclose.
  pose proof Hsorted as [Hall _]%StronglySorted_cons.
  assert (t1 ≤ t2) as Hle.
  { apply Forall_cons in Hall as [H12 _]. exact H12. }
  assert (BlockData.boundary_time true file bn = Some t1) as Hb.
  { unfold BlockData.boundary_time.
    rewrite (all_block_logs_collect _ _ Hsame), Hcollect. simpl.
    rewrite half_small by lia. f_equal. lia. }
  split; [exact Hb|].
  unfold BlockData.block_logs. rewrite Hb.
  unfold extract_log_lines_for_block, all_block_added_lines.
  rewrite Hcollect, (py_sorted_of_sorted _ _ Hsorted).
  unfold choose_block_added.
  change (Nat.leb 2 (length ((t1, l1) :: (t2, l2) :: rest))) with true.
  assert (List.filter (λ x : Z * string, Z.ltb x.1 t1)
            ((t1, l1) :: (t2, l2) :: rest) = []) as ->; [|done].
  cbn [List.filter fst]. rewrite Z.ltb_irrefl.
  assert (∀ l : list (Z * string),
            Forall (key_le fst (t1, l1)) l →
            List.filter (λ x : Z * string, Z.ltb x.1 t1) l = []) as Hnone.
  { induction l as [|x l IH]; [done|].
    intros [Hx Hl]%Forall_cons. simpl.
    unfold key_le in Hx. simpl in Hx.
    apply Z.ltb_ge in Hx. rewrite Hx. by apply IH. }
  by apply (Hnone ((t2, l2) :: rest)).
Qed.

Lemma midpoint_boundary_loses_first_run_of_close_occurrences_witness :
  let first := "INFO reth_node_events::node: Block added to canonical chain number=7 hash=0xa elapsed=1ms" in
  let second := "INFO reth_node_events::node: Block added to canonical chain number=7 hash=0xa elapsed=2ms" in
  let file := [ Line (Some 10) (BlockAddedLine "7") first;
                Line (Some 11) (BlockAddedLine "7") second ] in
  (∀ l, l ∈ file →
        BlockData.contains ("Block added to canonical chain number=" +:+ "7")
                           (text l)
        = is_block_added "7" (kind l))
  ∧ collect (is_block_added "7") file = [(10, first); (11, second)]
  ∧ StronglySorted (key_le fst) [(10, first); (11, second)]
  ∧ 11 ≤ 10 + 1
  ∧ BlockData.boundary_time true file "7" = Some 10
  ∧ BlockData.block_logs true file [] "7" true = [].
Proof.
  intros first second file.
  assert (∀ l, l ∈ file →
            BlockData.contains
              ("Block added to canonical chain number=" +:+ "7") (text l)
            = is_block_added "7" (kind l)) as Hsame.
  { intros l Hl. subst file. rewrite !elem_of_cons, elem_of_nil in Hl.
    destruct Hl as [->|[->|[]]]; vm_compute; reflexivity. }
  assert (StronglySorted (key_le fst) [(10, first); (11, second)]) as Hs.
  { repeat (apply StronglySorted_cons; split;
      [repeat constructor; unfold key_le; simpl; lia|]). constructor. }
  split; [exact Hsame|]. split; [reflexivity|]. split; [exact Hs|].
  split; [lia|].
  exact (midpoint_boundary_loses_first_run_of_close_occurrences
           file [] "7" 10 11 first second [] Hsame eq_refl Hs ltac:(lia)).
Defined.
